(** * Cart controller of the storefront backend

    A shallow embedding of the five request handlers of the cart controller
    ([getCart], [addToCart], [updateCartItem], [removeFromCart], [clearCart])
    over an in-memory model of the two tables they talk to, [products] and
    [shopping_cart].

    Modelling choices.
    - A handler is a function [store -> response * store]: the response sent
      with [res.status(..).json(..)] and the tables after the request.
    - The control flow of a handler body (early [return res...], [throw]
      caught by the surrounding [try]/[catch], fall-through) is a small monad,
      [handler].
    - The query builder returns [{data, error}]; this is the type [result].
      [.single()] fails with PGRST116 unless exactly one row is selected, and
      a mutation whose singular result is refused is rolled back.
    - The numbers of a request body are the rationals they denote ([Q]): a
      JSON body carries finite numbers.  The columns [quantity] and
      [stock_quantity] are integer columns ([Z]).
    - A price and a cart total are JavaScript numbers the handlers compute
      with: IEEE 754 binary64 values ([float], the primitive floats), added
      and multiplied with the rounding of the machine.  A quantity enters
      that arithmetic as the double [of_integer] gives it.
    - Users and products are named by strings; the key of a cart line is a
      number the table hands out on insert, and the route parameter [id] is
      such a key.
    - The store answers every call; network faults are not modelled, and the
      two clients ([supabase], [supabaseAdmin]) see the same tables. *)

From Stdlib Require Import List ZArith QArith String Ascii Bool Arith Lia.
From Stdlib Require Import DecimalString.
From Stdlib Require Import Permutation Sorted.
From Stdlib Require Import Floats.
From Stdlib Require Uint63.
Import ListNotations.

Local Close Scope Q_scope.
Local Open Scope string_scope.
Local Open Scope list_scope.

(** ** JavaScript values of a request body *)

Module Js.

(** What a field of a parsed JSON body can be.  [JUndefined] is a missing
    field; [JObject] stands for arrays and objects. *)
Inductive jsval : Type :=
| JUndefined
| JNull
| JBool (b : bool)
| JNum (x : Q)
| JStr (s : string)
| JObject.

(** [typeof v === 'number'] *)
Definition typeof_number (v : jsval) : bool :=
  match v with JNum _ => true | _ => false end.

(** [!v] *)
Definition not_ (v : jsval) : bool :=
  match v with
  | JUndefined | JNull => true
  | JBool b => negb b
  | JNum x => Qeq_bool x 0
  | JStr s => String.eqb s ""
  | JObject => false
  end.

(** The number a value of type number denotes; the handlers only reach it
    behind a [typeof] test. *)
Definition number_of (v : jsval) : Q :=
  match v with JNum x => x | _ => 0%Q end.

(** [x < y] on numbers. *)
Definition Qlt_bool (x y : Q) : bool := negb (Qle_bool y x).

(** Destructuring default, [{ field = d }]: only [undefined] takes it. *)
Definition with_default (v d : jsval) : jsval :=
  match v with JUndefined => d | _ => v end.

(** [a || b] on strings. *)
Definition or_else (a b : string) : string :=
  if String.eqb a "" then b else a.

(** Template literal rendering of an integer. *)
Definition show_Z (z : Z) : string := NilZero.string_of_int (Z.to_int z).

Record js_error : Type := mkError { e_code : string; e_message : string }.

(** The double an integer of a table is read as when the row arrives as
    JSON: the integer itself below 2^53 in magnitude, the nearest double
    (ties to even) above.  The columns are integers of the database, of 64
    bits at most; the conversion of the machine takes what fits 63 bits. *)
Definition of_integer (z : Z) : float :=
  if (z <? 0)%Z then (- of_uint63 (Uint63.of_Z (- z)))%float
  else of_uint63 (Uint63.of_Z z).

(** The rational a double stands for; none for the infinities and NaN. *)
Definition exact_value (x : float) : option Q :=
  match Prim2SF x with
  | S754_zero _ => Some 0%Q
  | S754_finite s m e =>
      Some (inject_Z (if s then Zneg m else Zpos m) * Qpower 2 e)%Q
  | _ => None
  end.

End Js.
Import Js.

(** ** The tables *)

Record product : Type := mkProduct {
  p_id : string;
  p_name : string;
  p_description : string;
  p_price : float;
  p_image_url : string;
  p_stock_quantity : Z
}.

Record cart_row : Type := mkRow {
  c_id : nat;
  c_user_id : string;
  c_product_id : string;
  c_quantity : Z
}.

(** [next_id] is the key the table gives to the next inserted line. *)
Record store : Type := mkStore {
  products : list product;
  shopping_cart : list cart_row;
  next_id : nat
}.

(** ** The query builder *)

Module Supabase.

Inductive result (A : Type) : Type :=
| Data (a : A)
| Error (e : js_error).
Arguments Data {A} a.
Arguments Error {A} e.

Definition PGRST116 : js_error :=
  mkError "PGRST116" "JSON object requested, multiple (or no) rows returned".

Definition PG22P02 : js_error :=
  mkError "22P02" "invalid input syntax for type integer".

(** [.single()] *)
Definition single {A : Type} (rows : list A) : result A :=
  match rows with
  | [r] => Data r
  | _ => Error PGRST116
  end.

(** Modelled from the spec: the table declarations are not in the
    repository; a line's quantity is an integer, so a number written to
    the column must be integral. *)
Definition as_integer (x : Q) : option Z :=
  if (Qnum x mod Zpos (Qden x) =? 0)%Z
  then Some (Qnum x / Zpos (Qden x))%Z
  else None.

Definition set_quantity (n : Z) (r : cart_row) : cart_row :=
  mkRow (c_id r) (c_user_id r) (c_product_id r) n.

(** [.from('products').select(..).eq('id', id)] *)
Definition products_by_id (id : string) (st : store) : list product :=
  filter (fun p => String.eqb (p_id p) id) (products st).

(** Filters on [shopping_cart]. *)
Definition by_user (userId : string) (r : cart_row) : bool :=
  String.eqb (c_user_id r) userId.
Definition by_user_product (userId productId : string) (r : cart_row) : bool :=
  String.eqb (c_user_id r) userId && String.eqb (c_product_id r) productId.
Definition by_id (id : nat) (r : cart_row) : bool :=
  Nat.eqb (c_id r) id.
Definition by_id_user (id : nat) (userId : string) (r : cart_row) : bool :=
  Nat.eqb (c_id r) id && String.eqb (c_user_id r) userId.

(** The embedded resource [products ( ... )] of a cart line: the product
    its [product_id] refers to, [null] when there is none. *)
Definition joined (st : store) (r : cart_row) : option product :=
  find (fun p => String.eqb (p_id p) (c_product_id r)) (products st).

(** [.from('shopping_cart').select(`id, quantity, products (...)`)
     .eq('user_id', userId)] *)
Definition select_cart (userId : string) (st : store)
  : list (cart_row * option product) :=
  map (fun r => (r, joined st r)) (filter (by_user userId) (shopping_cart st)).

(** [.update({ quantity }).<filters>.select().single()] *)
Definition update_single (sel : cart_row -> bool) (quantity : Q) (st : store)
  : result cart_row * store :=
  match as_integer quantity with
  | None => (Error PG22P02, st)
  | Some n =>
      match filter sel (shopping_cart st) with
      | [r] =>
          (Data (set_quantity n r),
           mkStore (products st)
                   (map (fun r => if sel r then set_quantity n r else r)
                        (shopping_cart st))
                   (next_id st))
      | _ => (Error PGRST116, st)
      end
  end.

(** [.insert([cartItem]).select().single()] *)
Definition insert_single (userId productId : string) (quantity : Q) (st : store)
  : result cart_row * store :=
  match as_integer quantity with
  | None => (Error PG22P02, st)
  | Some n =>
      let r := mkRow (next_id st) userId productId n in
      (Data r, mkStore (products st) (shopping_cart st ++ [r]) (S (next_id st)))
  end.

(** [.delete().<filters>] *)
Definition delete_where (sel : cart_row -> bool) (st : store) : store :=
  mkStore (products st)
          (filter (fun r => negb (sel r)) (shopping_cart st))
          (next_id st).

End Supabase.
Import Supabase.

(** ** Responses *)

Record cart_item : Type := mkItem {
  i_id : nat;
  i_quantity : Z;
  i_product : option product
}.

Record cart : Type := mkCart { items : list cart_item; total : float }.

Inductive body : Type :=
| CartBody (c : cart)
| ErrorBody (error : string) (details : option string)
| MessageBody (message : string).

Record response : Type := mkResponse { status : nat; payload : body }.

(** ** Control flow of a handler body *)

Inductive outcome (A : Type) : Type :=
| Value (a : A)
| Respond (r : response)
| Throw (e : js_error).
Arguments Value {A} a.
Arguments Respond {A} r.
Arguments Throw {A} e.

Definition handler (A : Type) : Type := store -> outcome A * store.

Definition ret {A : Type} (a : A) : handler A := fun st => (Value a, st).

Definition bind {A B : Type} (m : handler A) (k : A -> handler B) : handler B :=
  fun st =>
    match m st with
    | (Value a, st') => k a st'
    | (Respond r, st') => (Respond r, st')
    | (Throw e, st') => (Throw e, st')
    end.

Notation "x <- m ;; k" := (bind m (fun x => k))
  (at level 61, m at next level, right associativity).
Notation "m ;;; k" := (bind m (fun _ => k))
  (at level 61, right associativity).

(** [return res.status(s).json(b)] *)
Definition respond {A : Type} (s : nat) (b : body) : handler A :=
  fun st => (Respond (mkResponse s b), st).

(** [throw e] *)
Definition throw {A : Type} (e : js_error) : handler A :=
  fun st => (Throw e, st).

(** A read of the tables, and a call that changes them. *)
Definition query {A : Type} (f : store -> A) : handler A :=
  fun st => (Value (f st), st).
Definition mutate {A : Type} (f : store -> A * store) : handler A :=
  fun st => let (a, st') := f st in (Value a, st').

(** [if (c) return res...] *)
Definition return_if (c : bool) (s : nat) (b : body) : handler unit :=
  if c then respond s b else ret tt.

(** [if (error) throw error] *)
Definition throw_if_error {A : Type} (r : result A) : handler A :=
  match r with
  | Data a => ret a
  | Error e => throw e
  end.

(** [try { ... } catch (error) { res.status(500).json({ error: msg,
    details: error.message }) }] *)
Definition try_catch (msg : string) (h : handler response)
  : store -> response * store :=
  fun st =>
    match h st with
    | (Value r, st') => (r, st')
    | (Respond r, st') => (r, st')
    | (Throw e, st') =>
        (mkResponse 500 (ErrorBody msg (Some (e_message e))), st')
    end.

(** ** The cart body *)

Definition TypeError_price : js_error :=
  mkError "" "Cannot read properties of null (reading 'price')".

(** [rows.map(item => ({ id: item.id, quantity: item.quantity,
    product: item.products }))] *)
Definition cart_items (rows : list (cart_row * option product)) : list cart_item :=
  map (fun item => mkItem (c_id (fst item)) (c_quantity (fst item)) (snd item)) rows.

(** [rows.reduce((sum, item) => sum + (item.products.price * item.quantity), sum0)]
    in the arithmetic of doubles; reading [price] of a [null] product
    throws. *)
Fixpoint cart_total (rows : list (cart_row * option product)) (sum : float)
  : result float :=
  match rows with
  | [] => Data sum
  | (r, Some p) :: rest =>
      cart_total rest (sum + p_price p * of_integer (c_quantity r))%float
  | (_, None) :: _ => Error TypeError_price
  end.

(** The object literal [{ items: ..., total: ... }]. *)
Definition build_cart (rows : list (cart_row * option product)) : handler cart :=
  t <- throw_if_error (cart_total rows 0%float) ;;
  ret (mkCart (cart_items rows) t).

(** The select of the user's cart followed by the cart body, as every
    handler that answers with a cart does it. *)
Definition fetch_cart (userId : string) : handler cart :=
  rows <- query (select_cart userId) ;;
  build_cart rows.

(** ** The handlers *)

Definition getCart (userId : string) : store -> response * store :=
  try_catch "Error fetching cart" (
    c <- fetch_cart userId ;;
    ret (mkResponse 200 (CartBody c))).

(** [req.body] of [addToCart]. *)
Record add_body : Type := mkAddBody {
  ab_product_id : option string;
  ab_quantity : jsval
}.

Definition id_missing (product_id : option string) : bool :=
  match product_id with
  | None => true
  | Some s => String.eqb s ""
  end.

Definition id_text (product_id : option string) : string :=
  match product_id with
  | None => ""
  | Some s => s
  end.

Definition stock_details (p : product) : string :=
  ("Only " ++ show_Z (p_stock_quantity p) ++ " units available for " ++ p_name p)%string.

Definition addToCart (userId : string) (req : add_body)
  : store -> response * store :=
  try_catch "Error adding item to cart" (
    let product_id := ab_product_id req in
    let quantity := with_default (ab_quantity req) (JNum 1) in
    return_if (id_missing product_id
               || negb (typeof_number quantity)
               || Qle_bool (number_of quantity) 0)
      400 (ErrorBody "Invalid input: product_id and quantity are required" None) ;;;
    let q := number_of quantity in
    found <- query (fun st => single (products_by_id (id_text product_id) st)) ;;
    match found with
    | Error productError =>
        respond 404 (ErrorBody "Product not found"
          (Some (or_else (e_message productError)
                   ("No product found with ID: " ++ id_text product_id)%string)))
    | Data product =>
        return_if (Qlt_bool (inject_Z (p_stock_quantity product)) q)
          400 (ErrorBody "Not enough stock available"
                 (Some (stock_details product))) ;;;
        existing <- query (fun st =>
          single (filter (by_user_product userId (p_id product))
                         (shopping_cart st))) ;;
        match existing with
        | Error cartError =>
            if negb (String.eqb (e_code cartError) "PGRST116")
            then throw cartError
            else
              r <- mutate (insert_single userId (p_id product) q) ;;
              throw_if_error r
        | Data existingItem =>
            let newQuantity := (inject_Z (c_quantity existingItem) + q)%Q in
            return_if (Qlt_bool (inject_Z (p_stock_quantity product)) newQuantity)
              400 (ErrorBody "Not enough stock available"
                     (Some (stock_details product))) ;;;
            r <- mutate (update_single (by_id_user (c_id existingItem) userId)
                                       newQuantity) ;;
            throw_if_error r
        end ;;;
        c <- fetch_cart userId ;;
        ret (mkResponse 201 (CartBody c))
    end).

Definition updateCartItem (userId : string) (id : nat) (quantity : jsval)
  : store -> response * store :=
  try_catch "Error updating cart item" (
    return_if (not_ quantity
               || negb (typeof_number quantity)
               || Qle_bool (number_of quantity) 0)
      400 (ErrorBody
             "Invalid input: quantity is required and must be a positive number"
             None) ;;;
    let q := number_of quantity in
    line <- query (fun st =>
      single (map c_product_id (filter (by_id_user id userId) (shopping_cart st)))) ;;
    match line with
    | Error cartError =>
        respond 404 (ErrorBody "Cart item not found"
          (Some (or_else (e_message cartError)
                   ("No cart item found with ID: " ++ show_Z (Z.of_nat id))%string)))
    | Data product_id =>
        found <- query (fun st =>
          single (map p_stock_quantity (products_by_id product_id st))) ;;
        match found with
        | Error productError =>
            respond 404 (ErrorBody "Product not found"
              (Some (or_else (e_message productError)
                       ("No product found for cart item ID: "
                        ++ show_Z (Z.of_nat id))%string)))
        | Data stock_quantity =>
            return_if (Qlt_bool (inject_Z stock_quantity) q)
              400 (ErrorBody "Not enough stock available"
                     (Some ("Only " ++ show_Z stock_quantity ++ " units available")%string)) ;;;
            r <- mutate (update_single (by_id id) q) ;;
            throw_if_error r ;;;
            c <- fetch_cart userId ;;
            ret (mkResponse 200 (CartBody c))
        end
    end).

Definition removeFromCart (userId : string) (id : nat)
  : store -> response * store :=
  try_catch "Error removing item from cart" (
    mutate (fun st => (tt, delete_where (by_id_user id userId) st)) ;;;
    c <- fetch_cart userId ;;
    ret (mkResponse 200 (CartBody c))).

Definition clearCart (userId : string) : store -> response * store :=
  try_catch "Error clearing cart" (
    mutate (fun st => (tt, delete_where (by_user userId) st)) ;;;
    ret (mkResponse 200 (MessageBody "Cart cleared successfully"))).

(** The five routes of the cart, and a session: requests of users served
    one after the other. *)
Inductive request : Type :=
| GetCart
| AddToCart (req : add_body)
| UpdateCartItem (id : nat) (quantity : jsval)
| RemoveFromCart (id : nat)
| ClearCart.

Definition serve (userId : string) (rq : request) : store -> response * store :=
  match rq with
  | GetCart => getCart userId
  | AddToCart req => addToCart userId req
  | UpdateCartItem id quantity => updateCartItem userId id quantity
  | RemoveFromCart id => removeFromCart userId id
  | ClearCart => clearCart userId
  end.

Fixpoint session (rqs : list (string * request)) (st : store) : store :=
  match rqs with
  | [] => st
  | (userId, rq) :: rest => session rest (snd (serve userId rq st))
  end.

(** ** Examples *)

Definition chips : product :=
  mkProduct "p1" "Masala chips" "Crisp and spicy" 2.5%float "chips.png" 5.
Definition laddu : product :=
  mkProduct "p2" "Laddu" "Sweet" 4%float "laddu.png" 2.

Definition shop : store := mkStore [chips; laddu] [] 1.

Definition num (z : Z) : jsval := JNum (inject_Z z).

(** The shop after user u1 has put 3 chips in the cart. *)
Definition shop1 : store :=
  mkStore [chips; laddu] [mkRow 1 "u1" "p1" 3] 2.


(** ** Specification vocabulary *)

(** The error taxonomy of the cart service, read off a response. *)
Inductive error_kind : Type :=
| ValidationError
| NotFoundError
| InsufficientStockError
| StoreError.

Definition error_kind_of (r : response) : option error_kind :=
  match payload r with
  | ErrorBody e _ =>
      if Nat.eqb (status r) 400 then
        if String.eqb e "Not enough stock available"
        then Some InsufficientStockError
        else Some ValidationError
      else if Nat.eqb (status r) 404 then Some NotFoundError
      else Some StoreError
  | _ => None
  end.

(** The lines of a user, and the line of a user for a product. *)
Definition lines_of_user (u : string) (st : store) : list cart_row :=
  filter (by_user u) (shopping_cart st).

Definition lines_of (u pid : string) (st : store) : list cart_row :=
  filter (by_user_product u pid) (shopping_cart st).

(** The price of a product as the product table has it now. *)
Definition current_price (st : store) (pid : string) : float :=
  match find (fun p => String.eqb (p_id p) pid) (products st) with
  | Some p => p_price p
  | None => 0%float
  end.

(** Sum over lines of quantity times current price, as the specification
    words the total, added up in doubles from 0 in the order of the lines. *)
Definition line_sum (st : store) (l : list cart_row) : float :=
  fold_left
    (fun acc r =>
       (acc + of_integer (c_quantity r) * current_price st (c_product_id r))%float)
    l 0%float.

Definition sum_of_lines (u : string) (st : store) : float :=
  line_sum st (lines_of_user u st).

(** The same sum in the rationals, without rounding; none when a price is
    not a finite number. *)
Fixpoint exact_line_sum (st : store) (l : list cart_row) : option Q :=
  match l with
  | [] => Some 0%Q
  | r :: rest =>
      match exact_value (current_price st (c_product_id r)), exact_line_sum st rest with
      | Some v, Some acc => Some (inject_Z (c_quantity r) * v + acc)%Q
      | _, _ => None
      end
  end.

Definition exact_sum_of_lines (u : string) (st : store) : option Q :=
  exact_line_sum st (lines_of_user u st).

(** Inventory management changing a price; not part of the cart service. *)
Definition reprice (pid : string) (v : float) (p : product) : product :=
  if String.eqb (p_id p) pid
  then mkProduct (p_id p) (p_name p) (p_description p) v
                 (p_image_url p) (p_stock_quantity p)
  else p.

Definition set_price (pid : string) (v : float) (st : store) : store :=
  mkStore (map (reprice pid v) (products st)) (shopping_cart st) (next_id st).

(** The constraints the tables keep: keys, the reference from a line to its
    product, one line per user and product, quantities of at least one. *)
Record wf_store (st : store) : Prop := mkWf {
  wf_product_key : NoDup (map p_id (products st));
  wf_line_key : NoDup (map c_id (shopping_cart st));
  wf_line_fresh : forall r, In r (shopping_cart st) -> c_id r < next_id st;
  wf_line_unique :
    NoDup (map (fun r => (c_user_id r, c_product_id r)) (shopping_cart st));
  wf_line_product : forall r, In r (shopping_cart st) -> joined st r <> None;
  wf_line_quantity : forall r, In r (shopping_cart st) -> (1 <= c_quantity r)%Z
}.

(** The reference from the lines of a user to their products. *)
Definition lines_joined (u : string) (st : store) : Prop :=
  forall r, In r (shopping_cart st) -> c_user_id r = u -> joined st r <> None.

(** The sum of the lines with the price [v] in the place of the price of
    product [pid], and every other price as the product table has it. *)
Definition line_sum_at (pid : string) (v : float) (st : store) (l : list cart_row)
  : float :=
  fold_left
    (fun acc r =>
       (acc + of_integer (c_quantity r)
              * (if String.eqb (c_product_id r) pid then v
                 else current_price st (c_product_id r)))%float)
    l 0%float.

(** A price that is a number not below zero: finite, as every number of a
    JSON row is, and at least 0. *)
Definition price_not_negative (x : float) : bool :=
  ((0 <=? x) && (x <? infinity))%float.

(** The example shop with the chips at 0.1, that is at the double next to
    one tenth, and at two prices that are neighbours among the doubles. *)
Definition shop_tenth : store := set_price "p1" 0x1.999999999999ap-4%float shop1.
Definition shop_low : store := set_price "p1" 0x1.8000000000002p+0%float shop1.
Definition shop_high : store := set_price "p1" 0x1.8000000000003p+0%float shop1.

(** A number above zero: what the validation of both handlers lets pass. *)
Definition positive_number (v : jsval) : bool :=
  match v with
  | JNum x => Qlt_bool 0 x
  | _ => false
  end.

(** The answers of the handlers the claims name. *)
Definition stock_error (detail : string) : response :=
  mkResponse 400 (ErrorBody "Not enough stock available" (Some detail)).

Definition invalid_add_response : response :=
  mkResponse 400
    (ErrorBody "Invalid input: product_id and quantity are required" None).

Definition invalid_update_response : response :=
  mkResponse 400
    (ErrorBody "Invalid input: quantity is required and must be a positive number"
       None).

(** The tables after an insert, and after an update of the selected lines. *)
Definition inserted (u pid : string) (q : Z) (st : store) : store :=
  mkStore (products st)
          (shopping_cart st ++ [mkRow (next_id st) u pid q])
          (S (next_id st)).

Definition requantified (sel : cart_row -> bool) (n : Z) (st : store) : store :=
  mkStore (products st)
          (map (fun r => if sel r then set_quantity n r else r) (shopping_cart st))
          (next_id st).

(** The last two statements of every handler that answers with a cart. *)
Definition answer_cart (msg : string) (s : nat) (u : string)
  : store -> response * store :=
  try_catch msg (c <- fetch_cart u ;; ret (mkResponse s (CartBody c))).

(** What a response with a cart body says about the tables it comes with. *)
Definition cart_body_of_tables (u : string) (r : response) (st : store) : Prop :=
  forall c, payload r = CartBody c ->
            total c = sum_of_lines u st /\
            items c = cart_items (select_cart u st).

(** An answer that is not the validation error. *)
Definition past_validation (r : response) (st : store) : Prop :=
  error_kind_of r <> Some ValidationError.

(** A step all of whose early answers satisfy [Post] with the tables they
    leave, and a handler body all of whose answers do. *)
Definition answers (Post : response -> store -> Prop) {A : Type}
           (m : handler A) : Prop :=
  forall st r st', m st = (Respond r, st') -> Post r st'.

Definition final (Post : response -> store -> Prop) (h : handler response)
  : Prop :=
  answers Post h /\
  forall st r st', h st = (Value r, st') -> Post r st'.

(** A step that leaves the product table as it found it. *)
Definition frames {A : Type} (m : handler A) : Prop :=
  forall st, products (snd (m st)) = products st.

(** ** The middleware

    [authenticateToken], [isAdmin] and [errorHandler] of
    [backend/src/middleware/index.js].  [jwt.verify] is a parameter: the
    [userId] claim of a token the secret verifies, or a throw.  The
    [profiles] table and the users of the identity service are lists. *)

Module Middleware.

Record profile : Type := mkProfile { pr_id : string; pr_role : string }.

Record auth_user : Type := mkUser { au_id : string; au_email : string }.

(** What the middleware reads and writes of [req]. *)
Record http_request : Type := mkRequest {
  req_authorization : option string;
  req_user : option auth_user;
  req_profile : option profile
}.

(** A middleware calls [next()] or sends a response. *)
Inductive passed : Type :=
| Next (req : http_request)
| Sent (r : response).

(** [res.status(s).json({ error: e })] *)
Definition send_error (s : nat) (e : string) : passed :=
  Sent (mkResponse s (ErrorBody e None)).

(** [s.split(' ')] *)
Fixpoint split_space (s : string) : list string :=
  match s with
  | EmptyString => [""]
  | String c rest =>
      if Ascii.eqb c " "
      then "" :: split_space rest
      else match split_space rest with
           | piece :: pieces => String c piece :: pieces
           | [] => [String c ""]
           end
  end.

(** [!s] for a string that may be undefined. *)
Definition no_string (s : option string) : bool :=
  match s with
  | None => true
  | Some s => String.eqb s ""
  end.

Section Auth.
Variable verify : string -> string -> option string.

Definition authenticateToken (JWT_SECRET : option string)
           (profiles : list profile) (users : list auth_user)
           (req : http_request) : passed :=
  let authHeader := req_authorization req in
  if no_string authHeader then send_error 401 "No authorization header"
  else
    let token := nth_error (split_space (id_text authHeader)) 1 in
    if no_string token then send_error 401 "No token provided"
    else if no_string JWT_SECRET
    then send_error 500 "Server configuration error"
    else
      match verify (id_text token) (id_text JWT_SECRET) with
      | None => send_error 401 "Invalid token"
      | Some userId =>
          match single (filter (fun p => String.eqb (pr_id p) userId) profiles) with
          | Error profileError => send_error 500 "Error fetching user profile"
          | Data profile =>
              match find (fun x => String.eqb (au_id x) userId) users with
              | None => send_error 401 "User not found"
              | Some user =>
                  Next (mkRequest (req_authorization req) (Some user)
                                  (Some profile))
              end
          end
      end.
End Auth.

Definition isAdmin (req : http_request) : passed :=
  match req_profile req with
  | None => send_error 401 "No user profile found"
  | Some profile =>
      if negb (String.eqb (pr_role profile) "admin")
      then send_error 403 "Admin access required"
      else Next req
  end.

(** The error [errorHandler] is given: [name] and [message] of an [Error],
    and the [code] and [type] a library may have set, as strings. *)
Record js_exception : Type := mkException {
  x_name : string;
  x_message : string;
  x_code : option string;
  x_type : option string
}.

(** [res.status(s).json({ error, message })] *)
Record error_answer : Type := mkAnswer {
  a_status : nat;
  a_error : string;
  a_message : string
}.

(** [v && v.startsWith(p)] *)
Definition starts_with (p : string) (v : option string) : bool :=
  match v with
  | None => false
  | Some s => negb (String.eqb s "") && String.prefix p s
  end.

(** [process.env.NODE_ENV === 'development'] *)
Definition in_development (NODE_ENV : option string) : bool :=
  match NODE_ENV with
  | Some env => String.eqb env "development"
  | None => false
  end.

Definition errorHandler (NODE_ENV : option string) (err : js_exception)
  : error_answer :=
  if String.eqb (x_name err) "MulterError"
  then mkAnswer 400 "File upload error" (x_message err)
  else if String.eqb (x_name err) "JsonWebTokenError"
  then mkAnswer 401 "Invalid token" (x_message err)
  else if String.eqb (x_name err) "TokenExpiredError"
  then mkAnswer 401 "Token expired" "Please log in again"
  else if starts_with "PGRST" (x_code err)
  then mkAnswer 400 "Database error" (x_message err)
  else if starts_with "Stripe" (x_type err)
  then mkAnswer 400 "Payment error" (x_message err)
  else mkAnswer 500 "Internal server error"
         (if in_development NODE_ENV then x_message err
          else "Something went wrong").

End Middleware.
Import Middleware.

(** ** The products page

    The effect of [ProductsPage] that filters and sorts the listed products,
    and [updateFilter].  [Array.prototype.sort] is stable; with a comparator
    it is the insertion of each element before the first one it does not
    compare above.  [new Date(s).getTime()] is a parameter. *)

Module ProductsPage.

Record listed_product : Type := mkListed {
  lp_id : string;
  lp_category : string;
  lp_stock_quantity : Z;
  lp_price : Q;
  lp_created_at : option string
}.

Record filters : Type := mkFilters {
  f_category : string;
  f_availability : string;
  f_sortBy : string
}.

Fixpoint insert_by {A : Type} (cmp : A -> A -> Q) (x : A) (l : list A) : list A :=
  match l with
  | [] => [x]
  | y :: rest =>
      if Qle_bool (cmp x y) 0 then x :: y :: rest
      else y :: insert_by cmp x rest
  end.

(** [l.sort(cmp)] *)
Definition js_sort {A : Type} (cmp : A -> A -> Q) (l : list A) : list A :=
  fold_right (insert_by cmp) [] l.

Section Page.
Variable getTime : string -> Z.

(** [new Date(p.created_at || 0).getTime()] *)
Definition created_ms (p : listed_product) : Z :=
  match lp_created_at p with
  | None => 0
  | Some s => if String.eqb s "" then 0 else getTime s
  end.

(** The body of the effect on [activeFilters]: from the products of the
    state to the products it sets. *)
Definition apply_filters (activeFilters : filters)
           (products : list listed_product) : list listed_product :=
  let filteredProducts := products in
  let filteredProducts :=
    if negb (String.eqb (f_category activeFilters) "all")
    then filter (fun product =>
                   String.eqb (lp_category product) (f_category activeFilters))
                filteredProducts
    else filteredProducts in
  let filteredProducts :=
    if String.eqb (f_availability activeFilters) "available"
    then filter (fun product => (lp_stock_quantity product >? 0)%Z)
                filteredProducts
    else if String.eqb (f_availability activeFilters) "preorder"
    then filter (fun product => (lp_stock_quantity product =? 0)%Z)
                filteredProducts
    else filteredProducts in
  if String.eqb (f_sortBy activeFilters) "price-low"
  then js_sort (fun a b => (lp_price a - lp_price b)%Q) filteredProducts
  else if String.eqb (f_sortBy activeFilters) "price-high"
  then js_sort (fun a b => (lp_price b - lp_price a)%Q) filteredProducts
  else if String.eqb (f_sortBy activeFilters) "newest"
  then js_sort (fun a b => inject_Z (created_ms b - created_ms a))
               filteredProducts
  else filteredProducts.
End Page.

(** [setActiveFilters(prev => ({ ...prev, [filterType]: value }))] *)
Definition updateFilter (filterType value : string) (prev : filters) : filters :=
  if String.eqb filterType "category"
  then mkFilters value (f_availability prev) (f_sortBy prev)
  else if String.eqb filterType "availability"
  then mkFilters (f_category prev) value (f_sortBy prev)
  else if String.eqb filterType "sortBy"
  then mkFilters (f_category prev) (f_availability prev) value
  else prev.

End ProductsPage.
Import ProductsPage.

(** ** Vocabulary of the further properties *)

(** The answer of a handler's [catch]. *)
Definition server_error (msg : string) (e : js_error) : response :=
  mkResponse 500 (ErrorBody msg (Some (e_message e))).

(** Every line is within the stock of its product. *)
Definition within_stock (st : store) : Prop :=
  forall r p, In r (shopping_cart st) -> joined st r = Some p ->
              (c_quantity r <= p_stock_quantity p)%Z.

(** What a cart body lists: the user's lines of the tables, each with its
    product. *)
Definition cart_body_complete (u : string) (r : response) (st : store) : Prop :=
  forall c, payload r = CartBody c ->
    items c = map (fun l => mkItem (c_id l) (c_quantity l) (joined st l))
                  (lines_of_user u st) /\
    Forall (fun i => i_product i <> None) (items c).

(** The key of a line: what identifies it and whom and what it is for. *)
Definition line_key (r : cart_row) : nat * string * string :=
  (c_id r, c_user_id r, c_product_id r).

(** A string with a space in it. *)
Fixpoint has_space (s : string) : bool :=
  match s with
  | EmptyString => false
  | String c rest => Ascii.eqb c " " || has_space rest
  end.

(** What [authenticateToken] hands on, without the header it read. *)
Definition handed_on (p : passed) : passed :=
  match p with
  | Next req => Next (mkRequest None (req_user req) (req_profile req))
  | Sent r => Sent r
  end.

(** An example of [jwt.verify], of profiles and of users. *)
Definition verify_example (token secret : string) : option string :=
  if String.eqb secret "s3cret"
  then if String.eqb token "tok-admin" then Some "a1"
       else if String.eqb token "tok-user" then Some "u1"
       else None
  else None.

Definition profiles_example : list profile :=
  [mkProfile "a1" "admin"; mkProfile "u1" "customer"].

Definition users_example : list auth_user :=
  [mkUser "a1" "admin@shop.test"; mkUser "u1" "user@shop.test"].

Definition bearer (header : string) : http_request :=
  mkRequest (Some header) None None.

(** The products a choice of filters lets through. *)
Definition shown (f : filters) (p : listed_product) : bool :=
  (String.eqb (f_category f) "all" || String.eqb (lp_category p) (f_category f))
  && (if String.eqb (f_availability f) "available"
      then (lp_stock_quantity p >? 0)%Z
      else if String.eqb (f_availability f) "preorder"
      then (lp_stock_quantity p =? 0)%Z
      else true).

(** The sort of the effect, on its own. *)
Definition sort_step (getTime : string -> Z) (f : filters)
           (l : list listed_product) : list listed_product :=
  if String.eqb (f_sortBy f) "price-low"
  then js_sort (fun a b => (lp_price a - lp_price b)%Q) l
  else if String.eqb (f_sortBy f) "price-high"
  then js_sort (fun a b => (lp_price b - lp_price a)%Q) l
  else if String.eqb (f_sortBy f) "newest"
  then js_sort (fun a b => inject_Z (created_ms getTime b - created_ms getTime a)) l
  else l.

(** An example list, with dates read as a count of days. *)
Definition listing_example : list listed_product :=
  [mkListed "a" "snacks" 4 299 (Some "3");
   mkListed "b" "fresh" 0 179 (Some "1");
   mkListed "c" "snacks" 2 249 None;
   mkListed "d" "fresh" 7 179 (Some "2")].

Definition days_example (s : string) : Z :=
  if String.eqb s "1" then 1 else if String.eqb s "2" then 2
  else if String.eqb s "3" then 3 else 0.

(** ** Vocabulary of the arithmetic of doubles

    Classes of the bit-level values of doubles, to follow signs and
    finiteness through the rounding of a sum and of a product. *)

Definition sf_not_negative (x : spec_float) : Prop :=
  match x with
  | S754_zero _ => True
  | S754_infinity s | S754_finite s _ _ => s = false
  | S754_nan => False
  end.

Definition sf_finite (x : spec_float) : Prop :=
  match x with
  | S754_zero _ | S754_finite _ _ _ => True
  | _ => False
  end.

Definition sf_signed (sx : bool) (x : spec_float) : Prop :=
  match x with
  | S754_zero s | S754_infinity s | S754_finite s _ _ => s = sx
  | S754_nan => False
  end.

(** * Lemmas *)

(** ** Numbers *)

Lemma Qle_bool_inject_Z (a b : Z) :
  Qle_bool (inject_Z a) (inject_Z b) = (a <=? b)%Z.
Proof.
  unfold Qle_bool, inject_Z; simpl. now rewrite !Z.mul_1_r.
Qed.

Lemma Qlt_bool_inject_Z (a b : Z) :
  Qlt_bool (inject_Z a) (inject_Z b) = (a <? b)%Z.
Proof.
  unfold Qlt_bool. rewrite Qle_bool_inject_Z.
  now rewrite Z.ltb_antisym.
Qed.

Lemma Qlt_bool_iff (x y : Q) : Qlt_bool x y = true <-> (x < y)%Q.
Proof.
  unfold Qlt_bool. rewrite negb_true_iff. split; intros H.
  - apply Qnot_le_lt. intros Hle. apply Qle_bool_iff in Hle. congruence.
  - destruct (Qle_bool y x) eqn:E; auto.
    apply Qle_bool_iff in E. exfalso. exact (Qle_not_lt _ _ E H).
Qed.

Lemma Qlt_bool_plus_inject_Z (s e q : Z) :
  Qlt_bool (inject_Z s) (inject_Z e + inject_Z q) = (s <? e + q)%Z.
Proof.
  unfold Qlt_bool, Qle_bool, Qplus, inject_Z; simpl.
  rewrite !Z.mul_1_r. now rewrite Z.ltb_antisym.
Qed.

Lemma as_integer_inject_Z (z : Z) : as_integer (inject_Z z) = Some z.
Proof.
  unfold as_integer, inject_Z; simpl.
  now rewrite Z.mod_1_r, Z.div_1_r.
Qed.

Lemma as_integer_plus_inject_Z (e q : Z) :
  as_integer (inject_Z e + inject_Z q) = Some (e + q)%Z.
Proof.
  unfold as_integer, Qplus, inject_Z; simpl.
  rewrite !Z.mul_1_r. now rewrite Z.mod_1_r, Z.div_1_r.
Qed.

Lemma as_integer_sound (x : Q) (n : Z) :
  as_integer x = Some n -> (x == inject_Z n)%Q.
Proof.
  unfold as_integer. destruct (Z.eqb_spec (Qnum x mod Zpos (Qden x)) 0) as [E|E];
    [|discriminate].
  intros [= <-]. unfold Qeq, inject_Z; simpl.
  rewrite Z.mul_1_r.
  pose proof (Z.div_mod (Qnum x) (Zpos (Qden x)) ltac:(discriminate)) as D.
  rewrite E, Z.add_0_r in D. rewrite D at 1. apply Z.mul_comm.
Qed.

(** ** Selections over a table with a key *)

Lemma filter_none {A : Type} (sel : A -> bool) (l : list A) :
  (forall x, In x l -> sel x = false) -> filter sel l = [].
Proof.
  intros H. induction l as [|a l IH]; simpl; auto.
  rewrite (H a (or_introl eq_refl)). apply IH. intros x Hx. apply H. now right.
Qed.

Section Keyed.
Context {A K : Type} (key : A -> K) (sel : A -> bool).
Hypothesis sel_key :
  forall x y, sel x = true -> sel y = true -> key x = key y.

Lemma filter_keyed_In (l : list A) (r : A) :
  NoDup (map key l) -> In r l -> sel r = true -> filter sel l = [r].
Proof.
  induction l as [|a l IH]; simpl; intros ND Hin Hr; [contradiction|].
  inversion ND as [|? ? Hnotin ND']; subst.
  assert (Hnone : forall x, In x l -> sel a = true -> sel x = false).
  { intros x Hx Ha. destruct (sel x) eqn:Ex; auto.
    exfalso. apply Hnotin. rewrite (sel_key a x Ha Ex). now apply in_map. }
  destruct Hin as [->|Hin].
  - rewrite Hr. f_equal.
    apply filter_none. intros x Hx. now apply Hnone.
  - destruct (sel a) eqn:Ea.
    + rewrite (Hnone r Hin eq_refl) in Hr. discriminate.
    + now apply IH.
Qed.

Lemma filter_keyed_cases (l : list A) :
  NoDup (map key l) ->
  filter sel l = [] \/ exists r, In r l /\ sel r = true /\ filter sel l = [r].
Proof.
  intros ND. destruct (filter sel l) as [|r rest] eqn:E; [now left|right].
  assert (Hr : In r (filter sel l)) by (rewrite E; now left).
  apply filter_In in Hr. destruct Hr as [Hin Hsel].
  exists r. split; [exact Hin|]. split; [exact Hsel|].
  rewrite <- E. now apply filter_keyed_In.
Qed.
End Keyed.

Lemma filter_all {A : Type} (sel : A -> bool) (l : list A) :
  (forall x, In x l -> sel x = true) -> filter sel l = l.
Proof.
  intros H. induction l as [|a l IH]; simpl; auto.
  rewrite (H a (or_introl eq_refl)). f_equal. apply IH. intros x Hx. apply H. now right.
Qed.

Lemma filter_map_stable {A : Type} (sel : A -> bool) (f : A -> A) (l : list A) :
  (forall x, sel (f x) = sel x) ->
  filter sel (map f l) = map f (filter sel l).
Proof.
  intros H. induction l as [|a l IH]; simpl; auto.
  rewrite H. destruct (sel a); simpl; now rewrite IH.
Qed.

Lemma map_key_stable {A K : Type} (key : A -> K) (f : A -> A) (l : list A) :
  (forall x, key (f x) = key x) -> map key (map f l) = map key l.
Proof.
  intros H. rewrite map_map. apply map_ext. exact H.
Qed.

Lemma map_only_at {A : Type} (sel : A -> bool) (f : A -> A) (l : list A) :
  (forall x, In x l -> sel x = false) ->
  map (fun x => if sel x then f x else x) l = l.
Proof.
  intros H. induction l as [|a l IH]; simpl; auto.
  rewrite (H a (or_introl eq_refl)). f_equal. apply IH. intros x Hx. apply H. now right.
Qed.

(** ** Filters of the cart table *)

Lemma by_id_key (id : nat) (x y : cart_row) :
  by_id id x = true -> by_id id y = true -> c_id x = c_id y.
Proof.
  unfold by_id. intros Hx Hy.
  apply Nat.eqb_eq in Hx. apply Nat.eqb_eq in Hy. congruence.
Qed.

Lemma by_id_user_key (id : nat) (u : string) (x y : cart_row) :
  by_id_user id u x = true -> by_id_user id u y = true -> c_id x = c_id y.
Proof.
  unfold by_id_user. intros Hx Hy.
  apply andb_true_iff in Hx. apply andb_true_iff in Hy.
  destruct Hx as [Hx _]. destruct Hy as [Hy _].
  apply Nat.eqb_eq in Hx. apply Nat.eqb_eq in Hy. congruence.
Qed.

Lemma by_user_product_key (u pid : string) (x y : cart_row) :
  by_user_product u pid x = true -> by_user_product u pid y = true ->
  (c_user_id x, c_product_id x) = (c_user_id y, c_product_id y).
Proof.
  unfold by_user_product. intros Hx Hy.
  apply andb_true_iff in Hx. apply andb_true_iff in Hy.
  destruct Hx as [Hx1 Hx2]. destruct Hy as [Hy1 Hy2].
  apply String.eqb_eq in Hx1, Hx2, Hy1, Hy2. congruence.
Qed.

Lemma by_product_id_key (pid : string) (x y : product) :
  String.eqb (p_id x) pid = true -> String.eqb (p_id y) pid = true ->
  p_id x = p_id y.
Proof.
  intros Hx Hy. apply String.eqb_eq in Hx, Hy. congruence.
Qed.

Lemma by_user_product_true (u pid : string) (r : cart_row) :
  by_user_product u pid r = true <-> c_user_id r = u /\ c_product_id r = pid.
Proof.
  unfold by_user_product. rewrite andb_true_iff, !String.eqb_eq. tauto.
Qed.

Lemma by_id_user_true (id : nat) (u : string) (r : cart_row) :
  by_id_user id u r = true <-> c_id r = id /\ c_user_id r = u.
Proof.
  unfold by_id_user. rewrite andb_true_iff, Nat.eqb_eq, String.eqb_eq. tauto.
Qed.

Lemma by_user_true (u : string) (r : cart_row) :
  by_user u r = true <-> c_user_id r = u.
Proof. unfold by_user. apply String.eqb_eq. Qed.

(** The product a well-formed store has under an id. *)
Lemma products_by_id_In (st : store) (p : product) :
  NoDup (map p_id (products st)) -> In p (products st) ->
  products_by_id (p_id p) st = [p].
Proof.
  intros ND Hin. unfold products_by_id.
  apply (filter_keyed_In p_id _ (by_product_id_key (p_id p))); auto.
  apply String.eqb_refl.
Qed.

Lemma joined_In (st : store) (r : cart_row) (p : product) :
  joined st r = Some p -> In p (products st) /\ p_id p = c_product_id r.
Proof.
  unfold joined. intros H. apply find_some in H.
  destruct H as [Hin He]. apply String.eqb_eq in He. auto.
Qed.

Lemma find_first_In {A : Type} (sel : A -> bool) (l : list A) (a : A) :
  In a l -> sel a = true -> find sel l <> None.
Proof.
  intros Hin Ha Hnone. pose proof (find_none sel l Hnone a Hin). congruence.
Qed.

(** ** Control flow *)

Lemma try_catch_bind {A : Type} (msg : string) (m : handler A)
      (k : A -> handler response) (st : store) :
  try_catch msg (bind m k) st =
  match m st with
  | (Value a, st') => try_catch msg (k a) st'
  | (Respond r, st') => (r, st')
  | (Throw e, st') => (mkResponse 500 (ErrorBody msg (Some (e_message e))), st')
  end.
Proof.
  unfold try_catch, bind. destruct (m st) as [[a|r|e] st']; reflexivity.
Qed.

(** ** Doubles: signs and finiteness through rounding *)

Lemma leb_zero_spec (x : float) :
  (0 <=? x)%float = true <-> sf_not_negative (Prim2SF x).
Proof.
  rewrite FloatAxioms.leb_spec. change (Prim2SF 0) with (S754_zero false).
  destruct (Prim2SF x) as [s|s| |s m e]; try destruct s; simpl;
    split; intros H; auto; discriminate.
Qed.

Lemma ltb_infinity_spec (x : float) :
  (0 <=? x)%float = true -> (x <? infinity)%float = true -> sf_finite (Prim2SF x).
Proof.
  rewrite FloatAxioms.leb_spec, FloatAxioms.ltb_spec.
  change (Prim2SF 0) with (S754_zero false).
  change (Prim2SF infinity) with (S754_infinity false).
  destruct (Prim2SF x) as [s|s| |s m e]; try destruct s; simpl;
    intros H1 H2; auto; discriminate.
Qed.

Lemma shr_1_m_nonneg (mrs : shr_record) :
  (0 <= shr_m mrs)%Z -> (0 <= shr_m (shr_1 mrs))%Z.
Proof.
  destruct mrs as [m r s]. simpl.
  destruct m as [|p|p]; [| |lia]; intros _.
  - simpl. lia.
  - destruct p; simpl; lia.
Qed.

Lemma iter_shr_1_m_nonneg (p : positive) (mrs : shr_record) :
  (0 <= shr_m mrs)%Z -> (0 <= shr_m (iter_pos shr_1 p mrs))%Z.
Proof.
  revert mrs. induction p as [p IH|p IH|]; intros mrs H; simpl.
  - apply IH, IH, shr_1_m_nonneg, H.
  - apply IH, IH, H.
  - apply shr_1_m_nonneg, H.
Qed.

Lemma shr_fexp_m_nonneg (m e : Z) (l : location) :
  (0 <= m)%Z -> (0 <= shr_m (fst (shr_fexp prec emax m e l)))%Z.
Proof.
  intros H. unfold shr_fexp, shr.
  assert (H0 : (0 <= shr_m (shr_record_of_loc m l))%Z)
    by (destruct l as [|[]]; exact H).
  destruct (fexp prec emax (Zdigits2 m + e) - e)%Z; simpl; auto.
  apply iter_shr_1_m_nonneg, H0.
Qed.

Lemma round_nearest_even_nonneg (m : Z) (l : location) :
  (0 <= m)%Z -> (0 <= round_nearest_even m l)%Z.
Proof.
  intros H. destruct l as [|[]]; simpl; try lia.
  destruct (Z.even m); lia.
Qed.

Lemma binary_round_aux_signed (sx : bool) (m e : Z) (l : location) :
  (0 <= m)%Z -> sf_signed sx (binary_round_aux prec emax sx m e l).
Proof.
  intros H. unfold binary_round_aux.
  pose proof (shr_fexp_m_nonneg m e l H) as H1.
  destruct (shr_fexp prec emax m e l) as [mrs' e']. simpl in H1.
  pose proof (shr_fexp_m_nonneg _ e' loc_Exact
                (round_nearest_even_nonneg _ (loc_of_shr_record mrs') H1)) as H2.
  destruct (shr_fexp prec emax _ e' loc_Exact) as [mrs'' e'']. simpl in H2.
  destruct (shr_m mrs'') as [|p|p]; simpl.
  - reflexivity.
  - destruct (e'' <=? _)%Z; reflexivity.
  - lia.
Qed.

Lemma binary_round_signed (sx : bool) (m : positive) (e : Z) :
  sf_signed sx (binary_round prec emax sx m e).
Proof.
  unfold binary_round. destruct (shl_align _ _ _) as [mz ez].
  apply binary_round_aux_signed. lia.
Qed.

Lemma signed_not_negative (x : spec_float) : sf_signed false x -> sf_not_negative x.
Proof. destruct x; simpl; auto. Qed.

Lemma SFmul_not_negative (x y : spec_float) :
  sf_not_negative x -> sf_finite x -> sf_not_negative y -> sf_finite y ->
  sf_not_negative (SFmul prec emax x y).
Proof.
  destruct x as [sx|sx| |sx mx ex], y as [sy|sy| |sy my ey]; simpl;
    try tauto; intros Hx _ Hy _; subst.
  apply signed_not_negative. apply (binary_round_aux_signed false). lia.
Qed.

Lemma SFadd_not_negative (x y : spec_float) :
  sf_not_negative x -> sf_not_negative y -> sf_not_negative (SFadd prec emax x y).
Proof.
  destruct x as [sx|sx| |sx mx ex], y as [sy|sy| |sy my ey]; simpl;
    try tauto; intros Hx Hy; subst; simpl; auto.
  - destruct sx, sy; simpl; auto.
  - apply signed_not_negative. apply binary_round_signed.
Qed.

Lemma digits2_pos_size (p : positive) : digits2_pos p = Pos.size p.
Proof. induction p; simpl; congruence. Qed.

Lemma digits2_pos_below (p : positive) (n : positive) :
  (Zpos p < 2 ^ Zpos n)%Z -> (Zpos (digits2_pos p) <= Zpos n)%Z.
Proof.
  intros H. rewrite digits2_pos_size.
  destruct (Z_le_gt_dec (Zpos (Pos.size p)) (Zpos n)) as [L|G]; [exact L|exfalso].
  pose proof (Pos.size_le p) as S.
  assert (S' : (2 ^ Zpos (Pos.size p) <= 2 * Zpos p)%Z).
  { rewrite <- (Pos2Z.inj_pow 2 (Pos.size p)).
    change (2 * Zpos p)%Z with (Zpos p~0). exact S. }
  assert (M : (2 ^ (Zpos n + 1) <= 2 ^ Zpos (Pos.size p))%Z)
    by (apply Z.pow_le_mono_r; lia).
  rewrite Z.pow_add_r in M by lia. lia.
Qed.

Lemma digits2_pos_iter_xO (p d : positive) :
  Zpos (digits2_pos (Pos.iter xO p d)) = (Zpos (digits2_pos p) + Zpos d)%Z.
Proof.
  induction d as [|d IH] using Pos.peano_ind.
  - simpl. lia.
  - rewrite Pos.iter_succ. cbn [digits2_pos]. lia.
Qed.

Lemma digits2_pos_succ (p : positive) :
  (Zpos (digits2_pos (Pos.succ p)) <= Zpos (digits2_pos p) + 1)%Z.
Proof. induction p; simpl; lia. Qed.

Lemma shr_1_digits (mrs : shr_record) (D : Z) :
  (0 <= shr_m mrs)%Z /\ (Zdigits2 (shr_m mrs) <= D)%Z ->
  (0 <= shr_m (shr_1 mrs))%Z /\ (Zdigits2 (shr_m (shr_1 mrs)) <= D)%Z.
Proof.
  destruct mrs as [m r s]. simpl.
  destruct m as [|p|p]; [| |lia]; intros [_ H].
  - simpl in *. lia.
  - destruct p; simpl in *; lia.
Qed.

Lemma iter_shr_1_digits (p : positive) (mrs : shr_record) (D : Z) :
  (0 <= shr_m mrs)%Z /\ (Zdigits2 (shr_m mrs) <= D)%Z ->
  (0 <= shr_m (iter_pos shr_1 p mrs))%Z
  /\ (Zdigits2 (shr_m (iter_pos shr_1 p mrs)) <= D)%Z.
Proof.
  revert mrs. induction p as [p IH|p IH|]; intros mrs H; simpl.
  - apply IH, IH, shr_1_digits, H.
  - apply IH, IH, H.
  - apply shr_1_digits, H.
Qed.

Lemma shr_fexp_bounds (m e : Z) (l : location) :
  (0 <= m)%Z ->
  (0 <= shr_m (fst (shr_fexp prec emax m e l)))%Z
  /\ (Zdigits2 (shr_m (fst (shr_fexp prec emax m e l))) <= Zdigits2 m)%Z
  /\ (snd (shr_fexp prec emax m e l) <= Z.max e (fexp prec emax (Zdigits2 m + e)))%Z.
Proof.
  intros H. unfold shr_fexp, shr.
  assert (H0 : (0 <= shr_m (shr_record_of_loc m l))%Z
               /\ (Zdigits2 (shr_m (shr_record_of_loc m l)) <= Zdigits2 m)%Z)
    by (destruct l as [|[]]; simpl; lia).
  destruct (fexp prec emax (Zdigits2 m + e) - e)%Z as [|n|n] eqn:E; simpl.
  - split; [tauto|]. split; [tauto|]. lia.
  - destruct (iter_shr_1_digits n _ _ H0). split; [auto|]. split; [auto|]. lia.
  - split; [tauto|]. split; [tauto|]. lia.
Qed.

Lemma round_nearest_even_digits (m : Z) (l : location) :
  (0 <= m)%Z ->
  (0 <= round_nearest_even m l)%Z
  /\ (Zdigits2 (round_nearest_even m l) <= Zdigits2 m + 1)%Z.
Proof.
  intros H.
  assert (S : (Zdigits2 (m + 1) <= Zdigits2 m + 1)%Z).
  { destruct m as [|p|p]; [simpl; lia| |lia].
    replace (Zpos p + 1)%Z with (Zpos (Pos.succ p)) by lia.
    apply digits2_pos_succ. }
  destruct l as [|[]]; simpl; try lia.
  destruct (Z.even m); lia.
Qed.

Lemma binary_round_aux_finite (sx : bool) (m e : Z) (l : location) :
  (0 <= m)%Z -> (Zdigits2 m <= 200)%Z -> (-200 <= e <= 200)%Z ->
  sf_finite (binary_round_aux prec emax sx m e l).
Proof.
  intros H HD He. unfold binary_round_aux.
  pose proof (shr_fexp_bounds m e l H) as (H1 & D1 & E1).
  destruct (shr_fexp prec emax m e l) as [mrs' e']. simpl in H1, D1, E1.
  pose proof (round_nearest_even_digits _ (loc_of_shr_record mrs') H1) as (H2 & D2).
  pose proof (shr_fexp_bounds _ e' loc_Exact H2) as (H3 & D3 & E3).
  destruct (shr_fexp prec emax _ e' loc_Exact) as [mrs'' e'']. simpl in H3, D3, E3.
  destruct (shr_m mrs'') as [|p|p]; simpl; auto.
  destruct (Z.leb_spec e'' 971) as [L|G]; simpl; auto.
  unfold fexp, FloatOps.emin, SpecFloat.emin, prec, emax in *. lia.
Qed.

Lemma of_uint63_finite (n : PrimInt63.int) :
  sf_not_negative (Prim2SF (of_uint63 n)) /\ sf_finite (Prim2SF (of_uint63 n)).
Proof.
  rewrite of_uint63_spec.
  pose proof (Uint63.to_Z_bounded n) as B.
  destruct (Uint63.to_Z n) as [|p|p]; simpl; [tauto| |lia].
  split; [apply signed_not_negative, binary_round_signed|].
  unfold binary_round.
  assert (Dp : (Zpos (digits2_pos p) <= 63)%Z).
  { apply digits2_pos_below. exact (proj2 B). }
  unfold shl_align.
  destruct (fexp prec emax (Zpos (digits2_pos p) + 0) - 0)%Z as [|d|d] eqn:E.
  - apply binary_round_aux_finite; simpl; lia.
  - apply binary_round_aux_finite; simpl; lia.
  - apply binary_round_aux_finite; [lia| |].
    + simpl. rewrite digits2_pos_iter_xO.
      unfold fexp, FloatOps.emin, SpecFloat.emin, prec, emax in E. lia.
    + unfold fexp, FloatOps.emin, SpecFloat.emin, prec, emax in *. lia.
Qed.

Lemma of_integer_finite (q : Z) :
  (0 <= q)%Z ->
  sf_not_negative (Prim2SF (of_integer q)) /\ sf_finite (Prim2SF (of_integer q)).
Proof.
  intros H. unfold of_integer.
  destruct (Z.ltb_spec q 0) as [L|_]; [lia|]. apply of_uint63_finite.
Qed.

Lemma mul_not_negative (x : float) (q : Z) :
  (0 <=? x)%float = true -> (x <? infinity)%float = true -> (0 <= q)%Z ->
  (0 <=? x * of_integer q)%float = true.
Proof.
  intros H1 H2 Hq. apply leb_zero_spec. rewrite mul_spec.
  destruct (of_integer_finite q Hq).
  apply SFmul_not_negative; auto.
  - now apply leb_zero_spec.
  - now apply ltb_infinity_spec.
Qed.

Lemma add_not_negative (x y : float) :
  (0 <=? x)%float = true -> (0 <=? y)%float = true -> (0 <=? x + y)%float = true.
Proof.
  intros H1 H2. apply leb_zero_spec. rewrite add_spec.
  apply SFadd_not_negative; now apply leb_zero_spec.
Qed.

Lemma SFmul_comm (x y : spec_float) : SFmul prec emax x y = SFmul prec emax y x.
Proof.
  destruct x as [sx|sx| |sx mx ex], y as [sy|sy| |sy my ey]; simpl;
    try reflexivity; try (now rewrite xorb_comm).
  now rewrite xorb_comm, Pos.mul_comm, Z.add_comm.
Qed.

Lemma mul_comm (x y : float) : (x * y)%float = (y * x)%float.
Proof. apply Prim2SF_inj. rewrite !mul_spec. apply SFmul_comm. Qed.

(** ** The cart body *)

Lemma cart_total_sum (st : store) (l : list cart_row) (s t : float) :
  cart_total (map (fun r => (r, joined st r)) l) s = Data t ->
  t = fold_left
        (fun acc r =>
           (acc + of_integer (c_quantity r) * current_price st (c_product_id r))%float)
        l s.
Proof.
  revert s. induction l as [|r l IH]; simpl; intros s H.
  - now injection H as <-.
  - unfold current_price at 2. unfold joined in H at 1.
    destruct (find (fun p => String.eqb (p_id p) (c_product_id r)) (products st))
      as [p|]; [|discriminate].
    rewrite (mul_comm (of_integer (c_quantity r))). now apply IH.
Qed.

Lemma cart_total_defined (st : store) (l : list cart_row) (s : float) :
  (forall r, In r l -> joined st r <> None) ->
  exists t, cart_total (map (fun r => (r, joined st r)) l) s = Data t.
Proof.
  revert s. induction l as [|r l IH]; simpl; intros s H.
  - now exists s.
  - destruct (joined st r) as [p|] eqn:E.
    + apply IH. intros x Hx. apply H. now right.
    + exfalso. now apply (H r (or_introl eq_refl)).
Qed.

Lemma fetch_cart_eq (u : string) (st : store) :
  fetch_cart u st =
  match cart_total (select_cart u st) 0%float with
  | Data t => (Value (mkCart (cart_items (select_cart u st)) t), st)
  | Error e => (Throw e, st)
  end.
Proof.
  unfold fetch_cart, build_cart, bind, query, throw_if_error, ret, throw.
  destruct (cart_total (select_cart u st) 0%float); reflexivity.
Qed.

Lemma answer_cart_store (msg : string) (s : nat) (u : string) (st : store) :
  snd (answer_cart msg s u st) = st.
Proof.
  unfold answer_cart. rewrite try_catch_bind, fetch_cart_eq.
  destruct (cart_total (select_cart u st) 0%float); reflexivity.
Qed.

Lemma answer_cart_total (msg : string) (s : nat) (u : string) (st : store) (c : cart) :
  payload (fst (answer_cart msg s u st)) = CartBody c ->
  total c = sum_of_lines u st /\ items c = cart_items (select_cart u st).
Proof.
  unfold answer_cart. rewrite try_catch_bind, fetch_cart_eq.
  destruct (cart_total (select_cart u st) 0%float) as [t|e] eqn:E; simpl;
    [|discriminate].
  intros [= <-]. simpl. split; [|reflexivity].
  now apply cart_total_sum in E.
Qed.

Lemma answer_cart_ok (msg : string) (s : nat) (u : string) (st : store) :
  lines_joined u st ->
  exists c, answer_cart msg s u st = (mkResponse s (CartBody c), st).
Proof.
  intros FK. unfold answer_cart. rewrite try_catch_bind, fetch_cart_eq.
  destruct (cart_total_defined st (filter (by_user u) (shopping_cart st)) 0%float)
    as [t Ht].
  { intros r Hr. apply filter_In in Hr. destruct Hr as [Hin Hu].
    apply FK; auto. now apply by_user_true. }
  unfold select_cart. rewrite Ht. now eexists.
Qed.

Lemma answer_cart_same (msg1 msg2 : string) (s1 s2 : nat) (u : string) (st : store) :
  lines_joined u st ->
  payload (fst (answer_cart msg1 s1 u st)) = payload (fst (answer_cart msg2 s2 u st)).
Proof.
  intros FK. unfold answer_cart. rewrite !try_catch_bind, fetch_cart_eq.
  destruct (cart_total_defined st (filter (by_user u) (shopping_cart st)) 0%float)
    as [t Ht].
  { intros r Hr. apply filter_In in Hr. destruct Hr as [Hin Hu].
    apply FK; auto. now apply by_user_true. }
  unfold select_cart. rewrite Ht. reflexivity.
Qed.

Lemma getCart_answer (u : string) :
  getCart u = answer_cart "Error fetching cart" 200 u.
Proof. reflexivity. Qed.

Lemma wf_lines_joined (u : string) (st : store) :
  wf_store st -> lines_joined u st.
Proof. intros W r Hr _. now apply (wf_line_product st W). Qed.

(** ** [addToCart] on a request with a product id and an integer quantity *)

Lemma positive_quantity_valid (q : Z) :
  (0 < q)%Z -> Qle_bool (inject_Z q) 0 = false.
Proof.
  intros H. change 0%Q with (inject_Z 0). rewrite Qle_bool_inject_Z.
  apply Z.leb_gt. exact H.
Qed.

Lemma addToCart_not_found (u pid : string) (q : Z) (st : store) :
  pid <> "" -> (0 < q)%Z ->
  single (products_by_id pid st) = Error PGRST116 ->
  addToCart u (mkAddBody (Some pid) (num q)) st =
  (mkResponse 404 (ErrorBody "Product not found" (Some (e_message PGRST116))), st).
Proof.
  intros Hid Hq Hp. apply String.eqb_neq in Hid.
  unfold addToCart.
  cbn [ab_product_id ab_quantity with_default num typeof_number number_of
       id_missing id_text negb].
  rewrite Hid, (positive_quantity_valid q Hq). cbn [orb return_if].
  rewrite try_catch_bind. cbn [ret].
  rewrite try_catch_bind. unfold query. rewrite Hp. reflexivity.
Qed.

Lemma addToCart_found (u : string) (prod : product) (q : Z) (st : store) :
  p_id prod <> "" -> (0 < q)%Z ->
  products_by_id (p_id prod) st = [prod] ->
  addToCart u (mkAddBody (Some (p_id prod)) (num q)) st =
  if (p_stock_quantity prod <? q)%Z
  then (stock_error (stock_details prod), st)
  else
    match lines_of u (p_id prod) st with
    | [ex] =>
        if (p_stock_quantity prod <? c_quantity ex + q)%Z
        then (stock_error (stock_details prod), st)
        else
          match filter (by_id_user (c_id ex) u) (shopping_cart st) with
          | [_] =>
              answer_cart "Error adding item to cart" 201 u
                (requantified (by_id_user (c_id ex) u) (c_quantity ex + q) st)
          | _ =>
              (mkResponse 500 (ErrorBody "Error adding item to cart"
                                 (Some (e_message PGRST116))), st)
          end
    | _ =>
        answer_cart "Error adding item to cart" 201 u
          (inserted u (p_id prod) q st)
    end.
Proof.
  intros Hid Hq Hp. apply String.eqb_neq in Hid.
  unfold addToCart.
  cbn [ab_product_id ab_quantity with_default num typeof_number number_of
       id_missing id_text negb].
  rewrite Hid, (positive_quantity_valid q Hq). cbn [orb return_if].
  rewrite try_catch_bind. cbn [ret].
  rewrite try_catch_bind. unfold query at 1. rewrite Hp. cbn [single].
  rewrite try_catch_bind, Qlt_bool_inject_Z.
  destruct (p_stock_quantity prod <? q)%Z; cbn [return_if respond ret];
    [reflexivity|].
  rewrite try_catch_bind.
  unfold bind at 1. unfold query at 1. unfold lines_of.
  destruct (filter (by_user_product u (p_id prod)) (shopping_cart st))
    as [|ex [|ex' rest]] eqn:El; cbn [single].
  - cbn [PGRST116 e_code String.eqb Ascii.eqb Bool.eqb negb].
    unfold answer_cart, try_catch, bind, mutate, insert_single.
    rewrite as_integer_inject_Z. reflexivity.
  - unfold bind at 1. rewrite Qlt_bool_plus_inject_Z.
    destruct (p_stock_quantity prod <? c_quantity ex + q)%Z;
      cbn [return_if respond ret]; [reflexivity|].
    unfold answer_cart, try_catch, bind, mutate, update_single.
    rewrite as_integer_plus_inject_Z.
    destruct (filter (by_id_user (c_id ex) u) (shopping_cart st))
      as [|hit [|hit' more]]; reflexivity.
  - cbn [PGRST116 e_code String.eqb Ascii.eqb Bool.eqb negb].
    unfold answer_cart, try_catch, bind, mutate, insert_single.
    rewrite as_integer_inject_Z. reflexivity.
Qed.

(** ** Well-formed stores *)

Lemma NoDup_key_inj {A K : Type} (key : A -> K) (l : list A) (x y : A) :
  NoDup (map key l) -> In x l -> In y l -> key x = key y -> x = y.
Proof.
  induction l as [|a l IH]; simpl; intros ND Hx Hy E; [contradiction|].
  inversion ND as [|? ? Hnotin ND']; subst.
  destruct Hx as [->|Hx], Hy as [->|Hy]; auto.
  - exfalso. apply Hnotin. rewrite E. now apply in_map.
  - exfalso. apply Hnotin. rewrite <- E. now apply in_map.
Qed.

Lemma joined_unique (st : store) (r : cart_row) (p : product) :
  NoDup (map p_id (products st)) -> In p (products st) ->
  c_product_id r = p_id p -> joined st r = Some p.
Proof.
  intros ND Hin E. unfold joined.
  destruct (find (fun p0 => String.eqb (p_id p0) (c_product_id r)) (products st))
    as [p'|] eqn:F.
  - apply find_some in F. destruct F as [Hin' He]. apply String.eqb_eq in He.
    f_equal. apply (NoDup_key_inj p_id (products st)); auto. congruence.
  - exfalso. apply (find_none _ _ F) in Hin. rewrite E, String.eqb_refl in Hin.
    discriminate.
Qed.

Lemma by_id_user_is_by_id (st : store) (ex : cart_row) (r : cart_row) :
  NoDup (map c_id (shopping_cart st)) ->
  In ex (shopping_cart st) -> In r (shopping_cart st) ->
  by_id_user (c_id ex) (c_user_id ex) r = by_id (c_id ex) r.
Proof.
  intros ND Hex Hr. unfold by_id_user, by_id.
  destruct (Nat.eqb_spec (c_id r) (c_id ex)) as [E|E]; [|reflexivity].
  rewrite (NoDup_key_inj c_id _ r ex ND Hr Hex E). simpl. apply String.eqb_refl.
Qed.

Lemma wf_empty (ps : list product) (n : nat) :
  NoDup (map p_id ps) -> wf_store (mkStore ps [] n).
Proof.
  intros ND. constructor; simpl; try constructor; try contradiction; auto.
Qed.

Lemma wf_inserted (u : string) (p : product) (q : Z) (st : store) :
  wf_store st -> In p (products st) -> lines_of u (p_id p) st = [] ->
  (1 <= q)%Z -> wf_store (inserted u (p_id p) q st).
Proof.
  intros W Hp Hl Hq. destruct W as [W1 W2 W3 W4 W5 W6].
  constructor; unfold inserted; simpl.
  - exact W1.
  - rewrite map_app. simpl. apply NoDup_app; auto.
    + constructor; [intros []|constructor].
    + intros n Hn [<-|[]]. apply in_map_iff in Hn. destruct Hn as [r [E Hr]].
      apply W3 in Hr. lia.
  - intros r Hr. apply in_app_or in Hr. destruct Hr as [Hr|[<-|[]]]; simpl.
    + apply W3 in Hr. lia.
    + lia.
  - rewrite map_app. simpl. apply NoDup_app; auto.
    + constructor; [intros []|constructor].
    + intros k Hk [<-|[]]. apply in_map_iff in Hk. destruct Hk as [r [E Hr]].
      injection E as E1 E2.
      assert (Hin : In r (lines_of u (p_id p) st)).
      { unfold lines_of. apply filter_In. split; auto.
        now apply by_user_product_true. }
      rewrite Hl in Hin. exact Hin.
  - intros r Hr. apply in_app_or in Hr. destruct Hr as [Hr|[<-|[]]].
    + exact (W5 r Hr).
    + unfold joined. simpl. apply (find_first_In _ _ p Hp). apply String.eqb_refl.
  - intros r Hr. apply in_app_or in Hr. destruct Hr as [Hr|[<-|[]]]; simpl; auto.
Qed.

Lemma wf_requantified (sel : cart_row -> bool) (n : Z) (st : store) :
  wf_store st -> (1 <= n)%Z -> wf_store (requantified sel n st).
Proof.
  intros W Hn. destruct W as [W1 W2 W3 W4 W5 W6].
  assert (Hin : forall r,
             In r (map (fun r => if sel r then set_quantity n r else r)
                       (shopping_cart st)) ->
             exists r0, In r0 (shopping_cart st) /\
                        (r = r0 \/ r = set_quantity n r0)).
  { intros r Hr. apply in_map_iff in Hr. destruct Hr as [r0 [E Hr0]].
    exists r0. split; auto. destruct (sel r0); auto. }
  constructor; unfold requantified; simpl.
  - exact W1.
  - rewrite map_key_stable; auto. intros x. now destruct (sel x).
  - intros r Hr. destruct (Hin r Hr) as [r0 [Hr0 [->| ->]]]; simpl; now apply W3.
  - rewrite (map_key_stable (fun r => (c_user_id r, c_product_id r))); auto.
    intros x. now destruct (sel x).
  - intros r Hr. destruct (Hin r Hr) as [r0 [Hr0 [->| ->]]]; exact (W5 r0 Hr0).
  - intros r Hr. destruct (Hin r Hr) as [r0 [Hr0 [->| ->]]]; simpl; auto.
Qed.

Lemma NoDup_map_filter {A K : Type} (key : A -> K) (sel : A -> bool) (l : list A) :
  NoDup (map key l) -> NoDup (map key (filter sel l)).
Proof.
  induction l as [|a l IH]; simpl; intros ND; [constructor|].
  inversion ND as [|? ? Hnotin ND']; subst.
  destruct (sel a); simpl; auto.
  constructor; auto. intros Hin. apply Hnotin.
  apply in_map_iff in Hin. destruct Hin as [x [E Hx]].
  apply filter_In in Hx. rewrite <- E. apply in_map. tauto.
Qed.

Lemma wf_delete_where (sel : cart_row -> bool) (st : store) :
  wf_store st -> wf_store (delete_where sel st).
Proof.
  intros W. destruct W as [W1 W2 W3 W4 W5 W6].
  constructor; unfold delete_where; simpl.
  - exact W1.
  - now apply NoDup_map_filter.
  - intros r Hr. apply filter_In in Hr. apply W3. tauto.
  - now apply (NoDup_map_filter (fun r => (c_user_id r, c_product_id r))).
  - intros r Hr. apply filter_In in Hr. apply W5. tauto.
  - intros r Hr. apply filter_In in Hr. apply W6. tauto.
Qed.

Lemma wf_lines_of_cases (u pid : string) (st : store) :
  wf_store st ->
  lines_of u pid st = [] \/
  exists ex, In ex (shopping_cart st) /\ c_user_id ex = u /\ c_product_id ex = pid
             /\ lines_of u pid st = [ex].
Proof.
  intros W. unfold lines_of.
  destruct (filter_keyed_cases (fun r => (c_user_id r, c_product_id r))
              (by_user_product u pid) (by_user_product_key u pid)
              (shopping_cart st) (wf_line_unique st W)) as [E|[ex [Hin [Hs E]]]].
  - now left.
  - right. exists ex. apply by_user_product_true in Hs. tauto.
Qed.

Lemma wf_line_by_id_user (ex : cart_row) (st : store) :
  wf_store st -> In ex (shopping_cart st) ->
  filter (by_id_user (c_id ex) (c_user_id ex)) (shopping_cart st) = [ex].
Proof.
  intros W Hin.
  apply (filter_keyed_In c_id _ (by_id_user_key (c_id ex) (c_user_id ex)));
    auto using wf_line_key.
  apply by_id_user_true. auto.
Qed.

Lemma wf_line_by_id (ex : cart_row) (st : store) :
  wf_store st -> In ex (shopping_cart st) ->
  filter (by_id (c_id ex)) (shopping_cart st) = [ex].
Proof.
  intros W Hin.
  apply (filter_keyed_In c_id _ (by_id_key (c_id ex))); auto using wf_line_key.
  apply Nat.eqb_refl.
Qed.

Lemma answer_cart_item (msg : string) (s : nat) (u : string) (r : cart_row)
      (st : store) :
  lines_joined u st -> In r (shopping_cart st) -> c_user_id r = u ->
  exists c,
    answer_cart msg s u st = (mkResponse s (CartBody c), st) /\
    In (mkItem (c_id r) (c_quantity r) (joined st r)) (items c) /\
    total c = sum_of_lines u st.
Proof.
  intros FK Hr Hu. destruct (answer_cart_ok msg s u st FK) as [c Hc].
  exists c. split; [exact Hc|].
  destruct (answer_cart_total msg s u st c) as [Ht Hi]; [now rewrite Hc|].
  split; [|exact Ht]. rewrite Hi. unfold cart_items, select_cart.
  rewrite map_map. simpl.
  apply (in_map (fun x => mkItem (c_id x) (c_quantity x) (joined st x))).
  apply filter_In. split; auto. now apply by_user_true.
Qed.

Lemma requantified_lines_of (u pid : string) (sel : cart_row -> bool) (n : Z)
      (st : store) :
  lines_of u pid (requantified sel n st) =
  map (fun r => if sel r then set_quantity n r else r) (lines_of u pid st).
Proof.
  unfold lines_of, requantified. simpl. apply filter_map_stable.
  intros x. now destruct (sel x).
Qed.

Lemma requantified_by_id (ex : cart_row) (n : Z) (st : store) :
  wf_store st -> In ex (shopping_cart st) ->
  requantified (by_id_user (c_id ex) (c_user_id ex)) n st =
  requantified (by_id (c_id ex)) n st.
Proof.
  intros W Hin. unfold requantified. f_equal. apply map_ext_in. intros r Hr.
  now rewrite (by_id_user_is_by_id st ex r (wf_line_key st W) Hin Hr).
Qed.

(** A first add of a product creates the line. *)
Lemma addToCart_new_line (u : string) (prod : product) (q : Z) (st : store) :
  wf_store st -> In prod (products st) -> p_id prod <> "" ->
  (0 < q)%Z -> (q <= p_stock_quantity prod)%Z ->
  lines_of u (p_id prod) st = [] ->
  addToCart u (mkAddBody (Some (p_id prod)) (num q)) st =
  answer_cart "Error adding item to cart" 201 u (inserted u (p_id prod) q st).
Proof.
  intros W Hp Hid Hq Hs Hl.
  rewrite (addToCart_found u prod q st Hid Hq
             (products_by_id_In st prod (wf_product_key st W) Hp)).
  replace (p_stock_quantity prod <? q)%Z with false
    by (symmetry; apply Z.ltb_ge; exact Hs).
  now rewrite Hl.
Qed.

(** An add of a product the cart has adds to the line's quantity. *)
Lemma addToCart_existing_line (u : string) (prod : product) (q : Z)
      (ex : cart_row) (st : store) :
  wf_store st -> In prod (products st) -> p_id prod <> "" ->
  (0 < q)%Z ->
  lines_of u (p_id prod) st = [ex] ->
  (c_quantity ex + q <= p_stock_quantity prod)%Z ->
  addToCart u (mkAddBody (Some (p_id prod)) (num q)) st =
  answer_cart "Error adding item to cart" 201 u
    (requantified (by_id (c_id ex)) (c_quantity ex + q) st).
Proof.
  intros W Hp Hid Hq Hl Hs.
  assert (Hex : In ex (shopping_cart st) /\ by_user_product u (p_id prod) ex = true).
  { apply filter_In. unfold lines_of in Hl. rewrite Hl. now left. }
  destruct Hex as [Hin Hsel]. apply by_user_product_true in Hsel.
  destruct Hsel as [Hu Hpid].
  pose proof (wf_line_quantity st W ex Hin) as Hpos.
  rewrite (addToCart_found u prod q st Hid Hq
             (products_by_id_In st prod (wf_product_key st W) Hp)).
  replace (p_stock_quantity prod <? q)%Z with false
    by (symmetry; apply Z.ltb_ge; lia).
  rewrite Hl.
  replace (p_stock_quantity prod <? c_quantity ex + q)%Z with false
    by (symmetry; apply Z.ltb_ge; exact Hs).
  rewrite <- Hu. rewrite (wf_line_by_id_user ex st W Hin).
  now rewrite (requantified_by_id ex _ st W Hin).
Qed.

(** ** The example stores *)

Lemma wf_shop : wf_store shop.
Proof.
  apply wf_empty. simpl. repeat constructor; simpl; intuition discriminate.
Qed.

Lemma wf_shop1 : wf_store shop1.
Proof.
  constructor; simpl.
  - repeat constructor; simpl; intuition discriminate.
  - repeat constructor; simpl; intuition.
  - intros r [<-|[]]. simpl. lia.
  - repeat constructor; simpl; intuition.
  - intros r [<-|[]]. discriminate.
  - intros r [<-|[]]. simpl. lia.
Qed.

(** * The claims *)

(** C1. [addToCart] is cumulative.  For a product with stock [S] and a
    positive quantity [q <= S]: when the user has no line for the product, the
    request appends one line with quantity exactly [q]; when the user has a
    line with quantity [e] and [e + q <= S], the request sets the quantity of
    that same line to [e + q], leaving every other line as it was, so the
    user still has one line for the product.  Both answer 201 with a cart
    that shows the line. *)
Theorem addToCart_cumulative (u : string) (prod : product) (q : Z) (st : store) :
  wf_store st -> In prod (products st) -> p_id prod <> "" ->
  (0 < q)%Z -> (q <= p_stock_quantity prod)%Z ->
  let out := addToCart u (mkAddBody (Some (p_id prod)) (num q)) st in
  (lines_of u (p_id prod) st = [] ->
   let line := mkRow (next_id st) u (p_id prod) q in
   shopping_cart (snd out) = shopping_cart st ++ [line] /\
   lines_of u (p_id prod) (snd out) = [line] /\
   exists c, fst out = mkResponse 201 (CartBody c) /\
             In (mkItem (c_id line) q (Some prod)) (items c))
  /\
  (forall ex,
     lines_of u (p_id prod) st = [ex] ->
     (c_quantity ex + q <= p_stock_quantity prod)%Z ->
     let line := set_quantity (c_quantity ex + q) ex in
     shopping_cart (snd out) =
       map (fun r => if by_id (c_id ex) r then set_quantity (c_quantity ex + q) r
                     else r)
           (shopping_cart st) /\
     lines_of u (p_id prod) (snd out) = [line] /\
     exists c, fst out = mkResponse 201 (CartBody c) /\
               In (mkItem (c_id ex) (c_quantity ex + q) (Some prod)) (items c)).
Proof.
  intros W Hp Hid Hq Hs out. split.
  - intros Hl line. subst out.
    rewrite (addToCart_new_line u prod q st W Hp Hid Hq Hs Hl).
    assert (W' : wf_store (inserted u (p_id prod) q st))
      by (apply wf_inserted; auto; lia).
    assert (Hin : In line (shopping_cart (inserted u (p_id prod) q st)))
      by (unfold inserted; simpl; apply in_or_app; right; now left).
    destruct (answer_cart_item "Error adding item to cart" 201 u line _
                (wf_lines_joined u _ W') Hin eq_refl) as [c [Hc [Hi _]]].
    rewrite Hc. simpl. split; [reflexivity|]. split.
    + unfold lines_of, inserted. simpl. rewrite filter_app.
      unfold lines_of in Hl. rewrite Hl. simpl.
      unfold by_user_product. simpl. now rewrite !String.eqb_refl.
    + exists c. split; [reflexivity|].
      rewrite (joined_unique _ line prod (wf_product_key _ W')) in Hi; auto.
  - intros ex Hl Hs' line. subst out.
    rewrite (addToCart_existing_line u prod q ex st W Hp Hid Hq Hl Hs').
    assert (Hex : In ex (shopping_cart st) /\ by_user_product u (p_id prod) ex = true).
    { apply filter_In. unfold lines_of in Hl. rewrite Hl. now left. }
    destruct Hex as [Hin Hsel]. apply by_user_product_true in Hsel.
    destruct Hsel as [Hu Hpid].
    pose proof (wf_line_quantity st W ex Hin) as Hpos.
    set (st' := requantified (by_id (c_id ex)) (c_quantity ex + q) st).
    assert (W' : wf_store st') by (apply wf_requantified; auto; lia).
    assert (Hin' : In line (shopping_cart st')).
    { unfold st', requantified. simpl. apply in_map_iff. exists ex.
      split; auto. unfold by_id. now rewrite Nat.eqb_refl. }
    destruct (answer_cart_item "Error adding item to cart" 201 u line _
                (wf_lines_joined u _ W') Hin' Hu) as [c [Hc [Hi _]]].
    rewrite Hc. simpl. split; [reflexivity|]. split.
    + unfold st'. rewrite requantified_lines_of, Hl. simpl.
      unfold by_id. now rewrite Nat.eqb_refl.
    + exists c. split; [reflexivity|].
      rewrite (joined_unique _ line prod (wf_product_key _ W')) in Hi; auto.
Qed.

(** C1 on the example shop: 3 chips in an empty cart, then 2 more. *)
Lemma addToCart_cumulative_witness :
  let st1 := snd (addToCart "u1" (mkAddBody (Some "p1") (num 3)) shop) in
  let st2 := snd (addToCart "u1" (mkAddBody (Some "p1") (num 2)) shop1) in
  lines_of "u1" "p1" st1 = [mkRow 1 "u1" "p1" 3] /\
  lines_of "u1" "p1" st2 = [mkRow 1 "u1" "p1" 5].
Proof.
  assert (Hp : In chips (products shop)) by (simpl; auto).
  assert (Hid : p_id chips <> "") by discriminate.
  split.
  - destruct (addToCart_cumulative "u1" chips 3 shop wf_shop Hp Hid
                ltac:(lia) ltac:(simpl; lia)) as [H1 _].
    destruct (H1 eq_refl) as [_ [L1 _]]. exact L1.
  - destruct (addToCart_cumulative "u1" chips 2 shop1 wf_shop1 Hp Hid
                ltac:(lia) ltac:(simpl; lia)) as [_ H2].
    destruct (H2 (mkRow 1 "u1" "p1" 3) eq_refl ltac:(simpl; lia)) as [_ [L2 _]].
    exact L2.
Defined.

Lemma addToCart_over_stock (u : string) (prod : product) (q : Z) (st : store) :
  wf_store st -> In prod (products st) -> p_id prod <> "" -> (0 < q)%Z ->
  (lines_of u (p_id prod) st = [] /\ (p_stock_quantity prod < q)%Z) \/
  (exists ex, lines_of u (p_id prod) st = [ex] /\
              (p_stock_quantity prod < c_quantity ex + q)%Z) ->
  addToCart u (mkAddBody (Some (p_id prod)) (num q)) st =
  (stock_error (stock_details prod), st).
Proof.
  intros W Hp Hid Hq Hover.
  rewrite (addToCart_found u prod q st Hid Hq
             (products_by_id_In st prod (wf_product_key st W) Hp)).
  destruct (Z.ltb_spec (p_stock_quantity prod) q) as [Hlt|Hge]; [reflexivity|].
  destruct Hover as [[_ Hlt]|[ex [Hl Hlt]]]; [lia|].
  rewrite Hl.
  now replace (p_stock_quantity prod <? c_quantity ex + q)%Z with true
    by (symmetry; apply Z.ltb_lt; exact Hlt).
Qed.

Lemma answer_cart_wf_kind (msg : string) (s : nat) (u : string) (st : store) :
  wf_store st ->
  status (fst (answer_cart msg s u st)) = s /\
  error_kind_of (fst (answer_cart msg s u st)) = None.
Proof.
  intros W. destruct (answer_cart_ok msg s u st (wf_lines_joined u st W)) as [c Hc].
  rewrite Hc. now split.
Qed.

(** C2. On a request for an existing product with a positive integer
    quantity [q], [addToCart] answers "Not enough stock available" exactly
    when the stock [S] is strictly exceeded: [q > S] when the user has no line
    for the product, [e + q > S] when the user has a line of quantity [e].
    That answer leaves the tables, hence what [getCart] shows, as they were;
    in every other case, equality included, the request is answered 201. *)
Theorem addToCart_stock_bound (u : string) (prod : product) (q : Z) (st : store) :
  wf_store st -> In prod (products st) -> p_id prod <> "" -> (0 < q)%Z ->
  let out := addToCart u (mkAddBody (Some (p_id prod)) (num q)) st in
  let over :=
    (lines_of u (p_id prod) st = [] /\ (p_stock_quantity prod < q)%Z) \/
    (exists ex, lines_of u (p_id prod) st = [ex] /\
                (p_stock_quantity prod < c_quantity ex + q)%Z) in
  (error_kind_of (fst out) = Some InsufficientStockError <-> over) /\
  (over -> snd out = st /\ getCart u (snd out) = getCart u st) /\
  (~ over -> status (fst out) = 201 /\ error_kind_of (fst out) = None).
Proof.
  intros W Hp Hid Hq out over.
  assert (Hfail : over -> out = (stock_error (stock_details prod), st)).
  { intros Hover. subst out. now apply addToCart_over_stock. }
  assert (Hok : ~ over -> status (fst out) = 201 /\ error_kind_of (fst out) = None).
  { intros Hnot. subst out over.
    destruct (wf_lines_of_cases u (p_id prod) st W) as [Hl|[ex [Hin [Hu [Hpid Hl]]]]].
    - assert (Hs : (q <= p_stock_quantity prod)%Z).
      { destruct (Z.le_gt_cases q (p_stock_quantity prod)); auto.
        exfalso. apply Hnot. left. split; [exact Hl|lia]. }
      rewrite (addToCart_new_line u prod q st W Hp Hid Hq Hs Hl).
      apply answer_cart_wf_kind. apply wf_inserted; auto. lia.
    - assert (Hs : (c_quantity ex + q <= p_stock_quantity prod)%Z).
      { destruct (Z.le_gt_cases (c_quantity ex + q) (p_stock_quantity prod)); auto.
        exfalso. apply Hnot. right. exists ex. split; [exact Hl|lia]. }
      rewrite (addToCart_existing_line u prod q ex st W Hp Hid Hq Hl Hs).
      apply answer_cart_wf_kind. apply wf_requantified; auto.
      pose proof (wf_line_quantity st W ex Hin). lia. }
  split; [split|split]; auto.
  - intros Hkind.
    assert (Hdec : over \/ ~ over).
    { subst over.
      destruct (wf_lines_of_cases u (p_id prod) st W) as [Hl|[ex [_ [_ [_ Hl]]]]].
      - destruct (Z.lt_ge_cases (p_stock_quantity prod) q).
        + left. now left.
        + right. intros [[_ H']|[ex [Hl' _]]]; [lia|congruence].
      - destruct (Z.lt_ge_cases (p_stock_quantity prod) (c_quantity ex + q)).
        + left. right. now exists ex.
        + right. intros [[Hl' _]|[ex' [Hl' H']]]; [congruence|].
          rewrite Hl in Hl'. injection Hl' as <-. lia. }
    destruct Hdec as [Hover|Hnot]; [exact Hover|].
    destruct (Hok Hnot) as [_ Hnone]. congruence.
  - intros Hover. now rewrite (Hfail Hover).
  - intros Hover. rewrite (Hfail Hover). simpl. split; reflexivity.
Qed.

(** C2 on the example shop: with 3 chips in the cart and a stock of 5, 3 more
    are refused and the tables stay, 2 more are accepted. *)
Lemma addToCart_stock_bound_witness :
  error_kind_of (fst (addToCart "u1" (mkAddBody (Some "p1") (num 3)) shop1))
    = Some InsufficientStockError /\
  snd (addToCart "u1" (mkAddBody (Some "p1") (num 3)) shop1) = shop1 /\
  status (fst (addToCart "u1" (mkAddBody (Some "p1") (num 2)) shop1)) = 201.
Proof.
  assert (Hp : In chips (products shop1)) by (simpl; auto).
  assert (Hid : p_id chips <> "") by discriminate.
  destruct (addToCart_stock_bound "u1" chips 3 shop1 wf_shop1 Hp Hid ltac:(lia))
    as [Hiff [Hsame _]].
  assert (Hover :
    (lines_of "u1" (p_id chips) shop1 = [] /\ (p_stock_quantity chips < 3)%Z) \/
    (exists ex, lines_of "u1" (p_id chips) shop1 = [ex] /\
                (p_stock_quantity chips < c_quantity ex + 3)%Z)).
  { right. exists (mkRow 1 "u1" "p1" 3). split; [reflexivity|simpl; lia]. }
  split; [exact (proj2 Hiff Hover)|]. split; [exact (proj1 (Hsame Hover))|].
  destruct (addToCart_stock_bound "u1" chips 2 shop1 wf_shop1 Hp Hid ltac:(lia))
    as [_ [_ Hok]].
  apply Hok. intros [[Hl _]|[ex [Hl Hlt]]]; [discriminate|].
  injection Hl as <-. simpl in Hlt. lia.
Defined.

(** ** Every cart body is computed from the tables the handler leaves *)

Lemma fetch_cart_value (u : string) (st st' : store) (c : cart) :
  fetch_cart u st = (Value c, st') ->
  st' = st /\ total c = sum_of_lines u st /\
  items c = cart_items (select_cart u st).
Proof.
  rewrite fetch_cart_eq.
  destruct (cart_total (select_cart u st) 0%float) as [t|e] eqn:E; [|discriminate].
  intros [= <- <-]. simpl. split; [reflexivity|]. split; [|reflexivity].
  now apply cart_total_sum in E.
Qed.

Section Answers.
Variable Post : response -> store -> Prop.

Lemma answers_ret {A : Type} (a : A) : answers Post (ret a).
Proof. intros st r st' H. discriminate. Qed.

Lemma answers_throw {A : Type} (e : js_error) : answers Post (@throw A e).
Proof. intros st r st' H. discriminate. Qed.

Lemma answers_query {A : Type} (f : store -> A) : answers Post (query f).
Proof. intros st r st' H. discriminate. Qed.

Lemma answers_mutate {A : Type} (f : store -> A * store) :
  answers Post (mutate f).
Proof. intros st r st' H. unfold mutate in H. destruct (f st). discriminate. Qed.

Lemma answers_throw_if_error {A : Type} (x : result A) :
  answers Post (throw_if_error x).
Proof. destruct x; [apply answers_ret|apply answers_throw]. Qed.

Lemma answers_respond {A : Type} (s : nat) (b : body) :
  (forall st, Post (mkResponse s b) st) -> answers Post (@respond A s b).
Proof. intros H st r st' [= <- <-]. apply H. Qed.

Lemma answers_return_if (c : bool) (s : nat) (b : body) :
  (forall st, Post (mkResponse s b) st) -> answers Post (return_if c s b).
Proof. intros H. destruct c; [now apply answers_respond|apply answers_ret]. Qed.

Lemma answers_bind {A B : Type} (m : handler A) (k : A -> handler B) :
  answers Post m -> (forall a, answers Post (k a)) -> answers Post (bind m k).
Proof.
  intros Hm Hk st r st' H. unfold bind in H.
  destruct (m st) as [[a|r0|e] st0] eqn:E.
  - exact (Hk a st0 r st' H).
  - injection H as <- <-. exact (Hm st r0 st0 E).
  - discriminate.
Qed.

Lemma final_bind {A : Type} (m : handler A) (k : A -> handler response) :
  answers Post m -> (forall a, final Post (k a)) -> final Post (bind m k).
Proof.
  intros Hm Hk. split.
  - apply answers_bind; auto. intros a. apply Hk.
  - intros st r st' H. unfold bind in H.
    destruct (m st) as [[a|r0|e] st0] eqn:E; try discriminate.
    exact (proj2 (Hk a) st0 r st' H).
Qed.

Lemma final_respond (s : nat) (b : body) :
  (forall st, Post (mkResponse s b) st) -> final Post (respond s b).
Proof.
  intros H. split; [now apply answers_respond|]. intros st r st' E. discriminate.
Qed.

Lemma final_tail (u : string) (s : nat) :
  (forall st c, fetch_cart u st = (Value c, st) ->
                Post (mkResponse s (CartBody c)) st) ->
  final Post (c <- fetch_cart u ;; ret (mkResponse s (CartBody c))).
Proof.
  intros HP.
  split; intros st r st' H; unfold bind in H;
    destruct (fetch_cart u st) as [[c|r0|e] st0] eqn:E; try discriminate.
  - rewrite fetch_cart_eq in E.
    destruct (cart_total (select_cart u st) 0%float); discriminate.
  - injection H as <- <-.
    destruct (fetch_cart_value u st st0 c E) as [-> _]. now apply HP.
Qed.

Lemma final_try_catch (msg : string) (h : handler response) (st : store) :
  (forall d s, Post (mkResponse 500 (ErrorBody msg d)) s) ->
  final Post h ->
  Post (fst (try_catch msg h st)) (snd (try_catch msg h st)).
Proof.
  intros H500 [Ha Hv]. unfold try_catch.
  destruct (h st) as [[r|r|e] st'] eqn:E; simpl.
  - exact (Hv st r st' E).
  - exact (Ha st r st' E).
  - apply H500.
Qed.
End Answers.

Lemma cart_body_error (u : string) (s : nat) (e : string) (d : option string)
      (st : store) :
  cart_body_of_tables u (mkResponse s (ErrorBody e d)) st.
Proof. intros c Hc. discriminate. Qed.

Lemma cart_body_fetched (u : string) (s : nat) (st : store) (c : cart) :
  fetch_cart u st = (Value c, st) ->
  cart_body_of_tables u (mkResponse s (CartBody c)) st.
Proof.
  intros E c' [= <-]. apply fetch_cart_value in E. tauto.
Qed.

Lemma past_validation_fetched (u : string) (s : nat) (st : store) (c : cart) :
  fetch_cart u st = (Value c, st) ->
  past_validation (mkResponse s (CartBody c)) st.
Proof. intros _. discriminate. Qed.

Create HintDb answers.
#[local] Hint Resolve answers_ret answers_throw answers_query answers_mutate
  answers_throw_if_error answers_respond answers_return_if
  final_respond final_tail cart_body_error cart_body_fetched
  past_validation_fetched : answers.
#[local] Hint Extern 1 (past_validation _ _) =>
  unfold past_validation; simpl; discriminate : answers.

Ltac answer_steps :=
  repeat first
    [ solve [auto with answers]
    | apply final_bind; [|intros ?]
    | apply answers_bind; [|intros ?]
    | match goal with
      | |- final _ (match ?x with _ => _ end) => destruct x
      | |- answers _ (match ?x with _ => _ end) => destruct x
      | |- answers _ (if ?b then _ else _) => destruct b
      end ].

Lemma getCart_cart_body (u : string) (st : store) :
  cart_body_of_tables u (fst (getCart u st)) (snd (getCart u st)).
Proof.
  apply (final_try_catch (cart_body_of_tables u)); [auto with answers|].
  answer_steps.
Qed.

Lemma addToCart_cart_body (u : string) (req : add_body) (st : store) :
  cart_body_of_tables u (fst (addToCart u req st)) (snd (addToCart u req st)).
Proof.
  apply (final_try_catch (cart_body_of_tables u)); [auto with answers|].
  answer_steps.
Qed.

Lemma updateCartItem_cart_body (u : string) (id : nat) (quantity : jsval)
      (st : store) :
  cart_body_of_tables u (fst (updateCartItem u id quantity st))
                        (snd (updateCartItem u id quantity st)).
Proof.
  apply (final_try_catch (cart_body_of_tables u)); [auto with answers|].
  answer_steps.
Qed.

Lemma removeFromCart_cart_body (u : string) (id : nat) (st : store) :
  cart_body_of_tables u (fst (removeFromCart u id st))
                        (snd (removeFromCart u id st)).
Proof.
  apply (final_try_catch (cart_body_of_tables u)); [auto with answers|].
  answer_steps.
Qed.

Lemma not_positive_rejected (v : jsval) :
  positive_number v = false ->
  negb (typeof_number v) || Qle_bool (number_of v) 0 = true.
Proof.
  destruct v; simpl; auto. unfold Qlt_bool. intros H.
  now apply negb_false_iff in H.
Qed.

Lemma positive_accepted (x : Q) :
  positive_number (JNum x) = true ->
  not_ (JNum x) = false /\ Qle_bool x 0 = false.
Proof.
  simpl. unfold Qlt_bool. intros H. apply negb_true_iff in H. split; auto.
  destruct (Qeq_bool x 0) eqn:E; auto.
  apply Qeq_bool_iff in E.
  assert (Hle : (x <= 0)%Q) by (rewrite E; apply Qle_refl).
  apply Qle_bool_iff in Hle. congruence.
Qed.

(** A number above zero passes the validation of both handlers. *)
Lemma addToCart_passes (u pid : string) (x : Q) (st : store) :
  pid <> "" -> positive_number (JNum x) = true ->
  error_kind_of (fst (addToCart u (mkAddBody (Some pid) (JNum x)) st))
  <> Some ValidationError.
Proof.
  intros Hid Hx. apply String.eqb_neq in Hid.
  destruct (positive_accepted x Hx) as [_ Hle].
  unfold addToCart.
  cbn [ab_product_id ab_quantity with_default typeof_number number_of
       id_missing id_text negb].
  rewrite Hid, Hle. cbn [orb return_if].
  apply (final_try_catch past_validation); [auto with answers|].
  answer_steps.
Qed.

Lemma updateCartItem_passes (u : string) (id : nat) (x : Q) (st : store) :
  positive_number (JNum x) = true ->
  error_kind_of (fst (updateCartItem u id (JNum x) st)) <> Some ValidationError.
Proof.
  intros Hx. destruct (positive_accepted x Hx) as [Hnot Hle].
  unfold updateCartItem. rewrite Hnot.
  cbn [typeof_number number_of negb orb]. rewrite Hle. cbn [return_if].
  apply (final_try_catch past_validation); [auto with answers|].
  answer_steps.
Qed.

(** ** A price change *)

Lemma reprice_id (pid : string) (v : float) (p : product) :
  p_id (reprice pid v p) = p_id p.
Proof. unfold reprice. now destruct (String.eqb (p_id p) pid). Qed.

Lemma find_reprice (pid k : string) (v : float) (ps : list product) :
  find (fun p => String.eqb (p_id p) k) (map (reprice pid v) ps) =
  option_map (reprice pid v) (find (fun p => String.eqb (p_id p) k) ps).
Proof.
  induction ps as [|p ps IH]; simpl; auto.
  rewrite reprice_id. now destruct (String.eqb (p_id p) k).
Qed.

Lemma current_price_set_price (pid k : string) (v : float) (st : store) :
  In pid (map p_id (products st)) ->
  current_price (set_price pid v st) k =
  if String.eqb k pid then v else current_price st k.
Proof.
  intros Hin. unfold current_price, set_price. simpl.
  change (map _ (products st)) with (map (reprice pid v) (products st)).
  rewrite find_reprice.
  destruct (find (fun p => String.eqb (p_id p) k) (products st)) as [p|] eqn:F;
    simpl.
  - apply find_some in F. destruct F as [_ F]. apply String.eqb_eq in F.
    unfold reprice. rewrite F. now destruct (String.eqb k pid).
  - destruct (String.eqb_spec k pid) as [->|]; auto.
    apply in_map_iff in Hin. destruct Hin as [p [E Hp]].
    apply (find_none _ _ F) in Hp. rewrite E, String.eqb_refl in Hp. discriminate.
Qed.

Lemma line_sum_set_price (pid : string) (v : float) (st : store)
      (l : list cart_row) :
  In pid (map p_id (products st)) ->
  line_sum (set_price pid v st) l = line_sum_at pid v st l.
Proof.
  intros Hin. unfold line_sum, line_sum_at. generalize 0%float.
  induction l as [|r l IH]; intros s; simpl; [reflexivity|].
  rewrite (current_price_set_price pid _ v st Hin). apply IH.
Qed.

Lemma filter_filter {A : Type} (f g : A -> bool) (l : list A) :
  filter f (filter g l) = filter (fun x => g x && f x) l.
Proof.
  induction l as [|a l IH]; simpl; auto.
  destruct (g a); simpl; [destruct (f a)|]; now rewrite IH.
Qed.

Lemma wf_set_price (pid : string) (v : float) (st : store) :
  wf_store st -> wf_store (set_price pid v st).
Proof.
  intros [W1 W2 W3 W4 W5 W6]. constructor; unfold set_price; simpl; auto.
  - change (map _ (products st)) with (map (reprice pid v) (products st)).
    rewrite map_key_stable; auto. apply reprice_id.
  - intros r Hr. unfold joined. simpl.
    change (map _ (products st)) with (map (reprice pid v) (products st)).
    rewrite find_reprice. specialize (W5 r Hr). unfold joined in W5.
    destruct (find _ (products st)); simpl; congruence.
Qed.

Lemma wf_product_listed (ex : cart_row) (st : store) :
  wf_store st -> In ex (shopping_cart st) ->
  In (c_product_id ex) (map p_id (products st)).
Proof.
  intros W Hin. pose proof (wf_line_product st W ex Hin) as H.
  destruct (joined st ex) as [p|] eqn:E; [|congruence].
  apply joined_In in E. destruct E as [Hp <-]. now apply in_map.
Qed.

(** C3, as the code has it.  The total of a cart body is the sum of
    quantity times the price the product table holds when the cart is read,
    added up in doubles from 0 in the order of the user's lines.  [getCart]
    answers 200 with such a body; so does every cart body [addToCart],
    [updateCartItem] and [removeFromCart] answer with, for the tables they
    leave.  A price change touches no line, and the next [getCart] shows the
    sum of the same lines with the new price in the place of the old one:
    for a cart of one line, the double of quantity times the new price. *)
Theorem cart_total_invariant (u : string) (st : store) :
  wf_store st ->
  (exists c, getCart u st = (mkResponse 200 (CartBody c), st) /\
             total c = sum_of_lines u st) /\
  (forall req c, payload (fst (addToCart u req st)) = CartBody c ->
                 total c = sum_of_lines u (snd (addToCart u req st))) /\
  (forall id quantity c,
     payload (fst (updateCartItem u id quantity st)) = CartBody c ->
     total c = sum_of_lines u (snd (updateCartItem u id quantity st))) /\
  (forall id c, payload (fst (removeFromCart u id st)) = CartBody c ->
                total c = sum_of_lines u (snd (removeFromCart u id st))) /\
  (forall ex v,
     In ex (shopping_cart st) -> c_user_id ex = u ->
     let st' := set_price (c_product_id ex) v st in
     shopping_cart st' = shopping_cart st /\
     current_price st' (c_product_id ex) = v /\
     exists c c',
       fst (getCart u st) = mkResponse 200 (CartBody c) /\
       fst (getCart u st') = mkResponse 200 (CartBody c') /\
       total c = sum_of_lines u st /\
       total c' = line_sum_at (c_product_id ex) v st (lines_of_user u st) /\
       (lines_of_user u st = [ex] ->
        total c' = (0 + of_integer (c_quantity ex) * v)%float)).
Proof.
  intros W.
  assert (Hget : forall s, wf_store s ->
            exists c, getCart u s = (mkResponse 200 (CartBody c), s) /\
                      total c = sum_of_lines u s).
  { intros s Ws. rewrite getCart_answer.
    destruct (answer_cart_ok "Error fetching cart" 200 u s (wf_lines_joined u s Ws))
      as [c Hc].
    exists c. split; [exact Hc|].
    apply (answer_cart_total "Error fetching cart" 200 u s c). now rewrite Hc. }
  split; [now apply Hget|].
  split; [intros req c Hc; now apply (addToCart_cart_body u req st c)|].
  split; [intros id quantity c Hc;
          now apply (updateCartItem_cart_body u id quantity st c)|].
  split; [intros id c Hc; now apply (removeFromCart_cart_body u id st c)|].
  intros ex v Hin Hu st'. split; [reflexivity|].
  pose proof (wf_product_listed ex st W Hin) as Hl.
  split.
  { unfold st'. rewrite (current_price_set_price _ _ v st Hl).
    now rewrite String.eqb_refl. }
  destruct (Hget st W) as [c [Hc Ht]].
  destruct (Hget st' (wf_set_price _ v st W)) as [c' [Hc' Ht']].
  exists c, c'. rewrite Hc, Hc'. simpl.
  split; [reflexivity|]. split; [reflexivity|]. split; [exact Ht|].
  assert (Hat : total c' = line_sum_at (c_product_id ex) v st (lines_of_user u st)).
  { rewrite Ht'. unfold sum_of_lines.
    change (lines_of_user u st') with (lines_of_user u st). unfold st'.
    now apply line_sum_set_price. }
  split; [exact Hat|].
  intros Hone. rewrite Hat, Hone. unfold line_sum_at. simpl.
  now rewrite String.eqb_refl.
Qed.

(** C3 on the example shop: 3 chips at 2.5 total 7.5; at a price of 3 the
    same line totals 9. *)
Lemma cart_total_invariant_witness :
  shopping_cart (set_price "p1" 3 shop1) = shopping_cart shop1 /\
  current_price (set_price "p1" 3 shop1) "p1" = 3%float /\
  exists c c',
    fst (getCart "u1" shop1) = mkResponse 200 (CartBody c) /\
    fst (getCart "u1" (set_price "p1" 3 shop1)) = mkResponse 200 (CartBody c') /\
    total c = sum_of_lines "u1" shop1 /\
    total c' = line_sum_at "p1" 3 shop1 (lines_of_user "u1" shop1) /\
    (lines_of_user "u1" shop1 = [mkRow 1 "u1" "p1" 3] ->
     total c' = (0 + of_integer 3 * 3)%float).
Proof.
  destruct (cart_total_invariant "u1" shop1 wf_shop1) as [_ [_ [_ [_ H]]]].
  exact (H (mkRow 1 "u1" "p1" 3) 3%float (or_introl eq_refl) eq_refl).
Defined.

(** The sum of C3 is not the sum of the rationals, and a price change need
    not show.  With the chips at 0.1 the cart of three answers the total
    0.30000000000000004, a double that stands for another rational than
    three times the rational the price stands for.  And between the two
    neighbouring prices of [shop_low] and [shop_high], which differ as
    numbers, the total of the same cart is the same double. *)
Lemma cart_total_invariant_counterexample :
  (exists c t s,
     getCart "u1" shop_tenth = (mkResponse 200 (CartBody c), shop_tenth) /\
     total c = 0x1.3333333333334p-2%float /\
     exact_value (total c) = Some t /\
     exact_sum_of_lines "u1" shop_tenth = Some s /\
     ~ (t == s)%Q) /\
  (exists c c',
     getCart "u1" shop_low = (mkResponse 200 (CartBody c), shop_low) /\
     getCart "u1" shop_high = (mkResponse 200 (CartBody c'), shop_high) /\
     shopping_cart shop_high = shopping_cart shop_low /\
     (current_price shop_low "p1" =? current_price shop_high "p1")%float = false /\
     total c' = total c).
Proof.
  split.
  - eexists. eexists. eexists. split; [reflexivity|].
    split; [reflexivity|]. split; [reflexivity|]. split; [reflexivity|].
    intros H. vm_compute in H. discriminate.
  - eexists. eexists. split; [reflexivity|]. split; [reflexivity|].
    split; [reflexivity|]. split; reflexivity.
Qed.

Example getCart_shop1 :
  fst (getCart "u1" shop1) =
  mkResponse 200 (CartBody (mkCart [mkItem 1 3 (Some chips)] 7.5%float)).
Proof. reflexivity. Qed.

Example getCart_shop1_repriced :
  exists c, payload (fst (getCart "u1" (set_price "p1" 3 shop1))) = CartBody c /\
            total c = 9%float.
Proof. eexists. split; reflexivity. Qed.

(** ** [updateCartItem] on a line of the user *)

Lemma positive_quantity_truthy (q : Z) : (0 < q)%Z -> not_ (num q) = false.
Proof.
  intros H. unfold not_, num, Qeq_bool, inject_Z. simpl.
  rewrite Z.mul_1_r. apply Z.eqb_neq. lia.
Qed.

Lemma updateCartItem_found (u : string) (ex : cart_row) (p : product) (q : Z)
      (st : store) :
  wf_store st -> In ex (shopping_cart st) -> c_user_id ex = u ->
  joined st ex = Some p -> (0 < q)%Z ->
  updateCartItem u (c_id ex) (num q) st =
  if (p_stock_quantity p <? q)%Z
  then (stock_error ("Only " ++ show_Z (p_stock_quantity p) ++ " units available"), st)
  else answer_cart "Error updating cart item" 200 u
         (requantified (by_id (c_id ex)) q st).
Proof.
  intros W Hin Hu Hj Hq.
  destruct (joined_In st ex p Hj) as [Hp Hpid].
  unfold updateCartItem.
  rewrite (positive_quantity_truthy q Hq).
  cbn [num typeof_number number_of negb orb].
  rewrite (positive_quantity_valid q Hq). cbn [return_if].
  rewrite try_catch_bind. cbn [ret].
  rewrite try_catch_bind. unfold query at 1.
  rewrite <- Hu, (wf_line_by_id_user ex st W Hin). cbn [map single].
  rewrite try_catch_bind. unfold query at 1.
  rewrite <- Hpid, (products_by_id_In st p (wf_product_key st W) Hp).
  cbn [map single].
  rewrite try_catch_bind, Qlt_bool_inject_Z.
  destruct (p_stock_quantity p <? q)%Z; cbn [return_if respond ret];
    [reflexivity|].
  unfold answer_cart, try_catch, bind, mutate, update_single.
  rewrite as_integer_inject_Z, (wf_line_by_id ex st W Hin). reflexivity.
Qed.

(** C4. [updateCartItem] sets the quantity.  For a line of the user whose
    product has stock [S] and a positive quantity [q]: when [q <= S] the
    line's quantity becomes exactly [q], whatever it was, every other line
    stays, and the answer is 200 with a cart that shows the line at [q];
    when [q > S] the answer is "Not enough stock available" and the tables
    stay. *)
Theorem updateCartItem_absolute (u : string) (ex : cart_row) (p : product)
        (q : Z) (st : store) :
  wf_store st -> In ex (shopping_cart st) -> c_user_id ex = u ->
  joined st ex = Some p -> (0 < q)%Z ->
  let out := updateCartItem u (c_id ex) (num q) st in
  ((q <= p_stock_quantity p)%Z ->
   shopping_cart (snd out) =
     map (fun r => if by_id (c_id ex) r then set_quantity q r else r)
         (shopping_cart st) /\
   lines_of u (c_product_id ex) (snd out) = [set_quantity q ex] /\
   exists c, fst out = mkResponse 200 (CartBody c) /\
             In (mkItem (c_id ex) q (Some p)) (items c)) /\
  ((p_stock_quantity p < q)%Z ->
   error_kind_of (fst out) = Some InsufficientStockError /\ snd out = st).
Proof.
  intros W Hin Hu Hj Hq out. subst out.
  rewrite (updateCartItem_found u ex p q st W Hin Hu Hj Hq).
  split; intros Hs.
  - replace (p_stock_quantity p <? q)%Z with false
      by (symmetry; apply Z.ltb_ge; exact Hs).
    set (st' := requantified (by_id (c_id ex)) q st).
    assert (W' : wf_store st') by (apply wf_requantified; auto; lia).
    assert (Hin' : In (set_quantity q ex) (shopping_cart st')).
    { unfold st', requantified. simpl. apply in_map_iff. exists ex.
      split; auto. unfold by_id. now rewrite Nat.eqb_refl. }
    destruct (answer_cart_item "Error updating cart item" 200 u
                (set_quantity q ex) st' (wf_lines_joined u _ W') Hin' Hu)
      as [c [Hc [Hi _]]].
    rewrite Hc. simpl. split; [reflexivity|]. split.
    + unfold st'. rewrite requantified_lines_of.
      assert (Hl : lines_of u (c_product_id ex) st = [ex]).
      { unfold lines_of.
        apply (filter_keyed_In (fun r => (c_user_id r, c_product_id r)) _
                 (by_user_product_key u (c_product_id ex)));
          auto using wf_line_unique.
        apply by_user_product_true. auto. }
      rewrite Hl. simpl. unfold by_id. now rewrite Nat.eqb_refl.
    + exists c. split; [reflexivity|].
      destruct (joined_In st ex p Hj) as [Hp Hpid].
      rewrite (joined_unique st' (set_quantity q ex) p (wf_product_key _ W')) in Hi;
        auto.
  - replace (p_stock_quantity p <? q)%Z with true
      by (symmetry; apply Z.ltb_lt; exact Hs).
    split; reflexivity.
Qed.

(** C4 on the example shop: the line holds 3 chips; an update to 1 leaves 1,
    not 4, and an update to 6 is over the stock of 5. *)
Lemma updateCartItem_absolute_witness :
  lines_of "u1" "p1" (snd (updateCartItem "u1" 1 (num 1) shop1))
    = [mkRow 1 "u1" "p1" 1] /\
  error_kind_of (fst (updateCartItem "u1" 1 (num 6) shop1))
    = Some InsufficientStockError.
Proof.
  split.
  - destruct (updateCartItem_absolute "u1" (mkRow 1 "u1" "p1" 3) chips 1 shop1
                wf_shop1 (or_introl eq_refl) eq_refl eq_refl ltac:(lia)) as [H _].
    destruct (H ltac:(simpl; lia)) as [_ [L _]]. exact L.
  - destruct (updateCartItem_absolute "u1" (mkRow 1 "u1" "p1" 3) chips 6 shop1
                wf_shop1 (or_introl eq_refl) eq_refl eq_refl ltac:(lia)) as [_ H].
    exact (proj1 (H ltac:(simpl; lia))).
Defined.

(** ** Validation *)

Lemma addToCart_invalid (u : string) (req : add_body) (st : store) :
  id_missing (ab_product_id req)
  || negb (typeof_number (with_default (ab_quantity req) (JNum 1)))
  || Qle_bool (number_of (with_default (ab_quantity req) (JNum 1))) 0 = true ->
  addToCart u req st = (invalid_add_response, st).
Proof.
  intros H. unfold addToCart. rewrite try_catch_bind.
  cbv zeta. rewrite H. reflexivity.
Qed.

Lemma updateCartItem_invalid (u : string) (id : nat) (v : jsval) (st : store) :
  not_ v || negb (typeof_number v) || Qle_bool (number_of v) 0 = true ->
  updateCartItem u id v st = (invalid_update_response, st).
Proof.
  intros H. unfold updateCartItem. rewrite try_catch_bind, H. reflexivity.
Qed.

Lemma updateCartItem_no_line (u : string) (id : nat) (x : Q) (st : store) :
  positive_number (JNum x) = true ->
  filter (by_id_user id u) (shopping_cart st) = [] ->
  updateCartItem u id (JNum x) st =
  (mkResponse 404 (ErrorBody "Cart item not found" (Some (e_message PGRST116))),
   st).
Proof.
  intros Hx Hl. destruct (positive_accepted x Hx) as [H1 H2].
  unfold updateCartItem. rewrite H1. cbn [typeof_number number_of negb orb].
  rewrite H2. cbn [return_if]. rewrite try_catch_bind. cbn [ret].
  rewrite try_catch_bind. unfold query. rewrite Hl. reflexivity.
Qed.

(** C5. Ownership isolation of [updateCartItem].  Let a line belong to
    user [u1] and let [u2] be another user.  Whatever quantity [u2] sends with
    that line's id, the tables stay as they were and the line is still
    there, and the answer is the one the request gets when the line does not
    exist at all; with a quantity that passes validation that answer is
    404 "Cart item not found". *)
Theorem updateCartItem_isolation (u1 u2 : string) (ex : cart_row)
        (quantity : jsval) (st : store) :
  NoDup (map c_id (shopping_cart st)) ->
  In ex (shopping_cart st) -> c_user_id ex = u1 -> u1 <> u2 ->
  let out := updateCartItem u2 (c_id ex) quantity st in
  snd out = st /\
  In ex (shopping_cart (snd out)) /\
  fst out = fst (updateCartItem u2 (c_id ex) quantity
                   (delete_where (by_id (c_id ex)) st)) /\
  (positive_number quantity = true ->
   error_kind_of (fst out) = Some NotFoundError /\
   fst out = mkResponse 404 (ErrorBody "Cart item not found"
                               (Some (e_message PGRST116)))).
Proof.
  intros ND Hin Hu Hne out.
  assert (Hnone : filter (by_id_user (c_id ex) u2) (shopping_cart st) = []).
  { apply filter_none. intros r Hr.
    destruct (by_id_user (c_id ex) u2 r) eqn:E; auto.
    apply by_id_user_true in E. destruct E as [Eid Eu].
    rewrite (NoDup_key_inj c_id _ r ex ND Hr Hin Eid) in Eu. congruence. }
  assert (Hnone' : filter (by_id_user (c_id ex) u2)
                     (shopping_cart (delete_where (by_id (c_id ex)) st)) = []).
  { apply filter_none. intros r Hr. unfold delete_where in Hr. simpl in Hr.
    apply filter_In in Hr. destruct Hr as [_ Hr].
    unfold by_id_user. unfold by_id in Hr.
    now destruct (Nat.eqb (c_id r) (c_id ex)). }
  destruct (positive_number quantity) eqn:Hpos.
  - destruct quantity as [| | |x| |]; try discriminate. subst out.
    rewrite (updateCartItem_no_line u2 (c_id ex) x st Hpos Hnone).
    rewrite (updateCartItem_no_line u2 (c_id ex) x _ Hpos Hnone').
    simpl. repeat split; auto.
  - assert (Hbad : not_ quantity || negb (typeof_number quantity)
                   || Qle_bool (number_of quantity) 0 = true).
    { rewrite <- orb_assoc, (not_positive_rejected quantity Hpos).
      apply orb_true_r. }
    subst out. rewrite !(updateCartItem_invalid u2 (c_id ex) quantity _ Hbad).
    simpl. repeat split; auto; discriminate.
Qed.

(** C5 on the example shop: user u2 sends the id of the line of u1. *)
Lemma updateCartItem_isolation_witness :
  snd (updateCartItem "u2" 1 (num 1) shop1) = shop1 /\
  error_kind_of (fst (updateCartItem "u2" 1 (num 1) shop1)) = Some NotFoundError.
Proof.
  destruct (updateCartItem_isolation "u1" "u2" (mkRow 1 "u1" "p1" 3) (num 1) shop1
              (wf_line_key shop1 wf_shop1) (or_introl eq_refl) eq_refl
              ltac:(discriminate)) as [Hs [_ [_ Hr]]].
  split; [exact Hs|]. exact (proj1 (Hr eq_refl)).
Defined.

(** C6, as the handlers have it.  Both handlers test for a number above
    zero, not for an integer.  A quantity that is present and is not a
    number above zero (null, a string, a boolean, an object, zero, a negative
    number) is answered with the validation error of the handler, the same
    for every store, and the tables stay as they were; [updateCartItem]
    answers a missing quantity the same way, and never removes a line on
    zero or a negative number.  A number above zero, integer or not, is not
    answered with the validation error. *)
Theorem quantity_validation (u : string) (st : store) :
  (forall req,
     ab_quantity req <> JUndefined ->
     positive_number (ab_quantity req) = false ->
     addToCart u req st = (invalid_add_response, st) /\
     error_kind_of invalid_add_response = Some ValidationError) /\
  (forall id quantity,
     positive_number quantity = false ->
     updateCartItem u id quantity st = (invalid_update_response, st) /\
     error_kind_of invalid_update_response = Some ValidationError) /\
  (forall pid x,
     pid <> "" -> positive_number (JNum x) = true ->
     error_kind_of (fst (addToCart u (mkAddBody (Some pid) (JNum x)) st))
     <> Some ValidationError) /\
  (forall id x,
     positive_number (JNum x) = true ->
     error_kind_of (fst (updateCartItem u id (JNum x) st))
     <> Some ValidationError).
Proof.
  split; [|split; [|split]].
  - intros req Hdef Hpos. split; [|reflexivity].
    apply addToCart_invalid.
    assert (E : with_default (ab_quantity req) (JNum 1) = ab_quantity req)
      by (revert Hdef; destruct (ab_quantity req); intros Hdef;
          [contradiction|reflexivity..]).
    rewrite E, <- orb_assoc, (not_positive_rejected _ Hpos). apply orb_true_r.
  - intros id quantity Hpos. split; [|reflexivity].
    apply updateCartItem_invalid.
    rewrite <- orb_assoc, (not_positive_rejected _ Hpos). apply orb_true_r.
  - intros pid x Hid Hx. now apply addToCart_passes.
  - intros id x Hx. now apply updateCartItem_passes.
Qed.

(** C6 fails on the code for a quantity that is a number above zero but not
    an integer: 5/2 of a product with a stock of 2, and 11/2 for a line of a
    product with a stock of 5, pass validation and reach the stock check. *)
Lemma quantity_validation_counterexample :
  addToCart "u1" (mkAddBody (Some "p2") (JNum (5 # 2))) shop =
    (stock_error "Only 2 units available for Laddu", shop) /\
  error_kind_of (fst (addToCart "u1" (mkAddBody (Some "p2") (JNum (5 # 2))) shop))
    = Some InsufficientStockError /\
  updateCartItem "u1" 1 (JNum (11 # 2)) shop1 =
    (stock_error "Only 5 units available", shop1) /\
  error_kind_of (fst (updateCartItem "u1" 1 (JNum (11 # 2)) shop1))
    = Some InsufficientStockError.
Proof. repeat split; reflexivity. Qed.

Lemma quantity_validation_witness :
  addToCart "u1" (mkAddBody (Some "p1") (num 0)) shop1 = (invalid_add_response, shop1) /\
  updateCartItem "u1" 1 (num (-1)) shop1 = (invalid_update_response, shop1).
Proof.
  destruct (quantity_validation "u1" shop1) as [Ha [Hu _]]. split.
  - exact (proj1 (Ha (mkAddBody (Some "p1") (num 0)) ltac:(discriminate) eq_refl)).
  - exact (proj1 (Hu 1%nat (num (-1)) eq_refl)).
Defined.

(** ** Deleting lines *)

Lemma removeFromCart_eq (u : string) (id : nat) (st : store) :
  removeFromCart u id st =
  answer_cart "Error removing item from cart" 200 u
    (delete_where (by_id_user id u) st).
Proof. reflexivity. Qed.

Lemma clearCart_eq (u : string) (st : store) :
  clearCart u st =
  (mkResponse 200 (MessageBody "Cart cleared successfully"),
   delete_where (by_user u) st).
Proof. reflexivity. Qed.

Lemma delete_where_none (sel : cart_row -> bool) (st : store) :
  (forall r, In r (shopping_cart st) -> sel r = false) ->
  delete_where sel st = st.
Proof.
  intros H. unfold delete_where. destruct st as [ps cart n]. simpl in *.
  f_equal. apply filter_all. intros r Hr. now rewrite (H r Hr).
Qed.

Lemma delete_where_twice (sel : cart_row -> bool) (st : store) :
  delete_where sel (delete_where sel st) = delete_where sel st.
Proof.
  apply delete_where_none. intros r Hr. unfold delete_where in Hr. simpl in Hr.
  apply filter_In in Hr. destruct Hr as [_ Hr]. now apply negb_true_iff in Hr.
Qed.

(** C7. [removeFromCart] on an id that matches no line of the user (no line
    has the id, or the line is another user's) leaves the tables as they
    were and is answered 200 with the cart [getCart] shows; and for every id
    a second [removeFromCart] with the same arguments leaves the tables of
    the first and gets the answer of the first. *)
Theorem removeFromCart_idempotent (u : string) (id : nat) (st : store) :
  wf_store st ->
  ((forall r, In r (shopping_cart st) -> ~ (c_id r = id /\ c_user_id r = u)) ->
   snd (removeFromCart u id st) = st /\
   exists c, fst (removeFromCart u id st) = mkResponse 200 (CartBody c) /\
             fst (getCart u st) = mkResponse 200 (CartBody c)) /\
  removeFromCart u id (snd (removeFromCart u id st)) = removeFromCart u id st /\
  status (fst (removeFromCart u id st)) = 200.
Proof.
  intros W. split; [|split].
  - intros Hno.
    assert (E : delete_where (by_id_user id u) st = st).
    { apply delete_where_none. intros r Hr.
      destruct (by_id_user id u r) eqn:Er; auto.
      apply by_id_user_true in Er. exfalso. exact (Hno r Hr Er). }
    rewrite removeFromCart_eq, E, answer_cart_store. split; [reflexivity|].
    destruct (answer_cart_ok "Error removing item from cart" 200 u st
                (wf_lines_joined u st W)) as [c Hc].
    exists c. rewrite Hc. split; [reflexivity|].
    rewrite getCart_answer.
    destruct (answer_cart_ok "Error fetching cart" 200 u st
                (wf_lines_joined u st W)) as [c' Hc'].
    pose proof (answer_cart_same "Error fetching cart"
                  "Error removing item from cart" 200 200 u st
                  (wf_lines_joined u st W)) as Hsame.
    rewrite Hc, Hc' in Hsame. simpl in Hsame. rewrite Hc'. simpl. congruence.
  - rewrite !removeFromCart_eq, answer_cart_store.
    now rewrite delete_where_twice.
  - rewrite removeFromCart_eq.
    apply (answer_cart_wf_kind _ 200 u _ (wf_delete_where _ st W)).
Qed.

(** C7 on the example shop: user u2 removes the line of u1, and user u1 an
    id no line has. *)
Lemma removeFromCart_idempotent_witness :
  snd (removeFromCart "u2" 1 shop1) = shop1 /\
  snd (removeFromCart "u1" 7 shop1) = shop1 /\
  removeFromCart "u1" 1 (snd (removeFromCart "u1" 1 shop1))
    = removeFromCart "u1" 1 shop1.
Proof.
  split; [|split].
  - destruct (removeFromCart_idempotent "u2" 1 shop1 wf_shop1) as [H _].
    apply H. intros r [<-|[]] [_ E]. discriminate.
  - destruct (removeFromCart_idempotent "u1" 7 shop1 wf_shop1) as [H _].
    apply H. intros r [<-|[]] [E _]. discriminate.
  - exact (proj1 (proj2 (removeFromCart_idempotent "u1" 1 shop1 wf_shop1))).
Defined.

(** C8. [clearCart] deletes every line of the user and no other: the lines
    left are the lines of the other users, in their order, and the product
    table and the key counter stay.  It answers 200 with the message
    "Cart cleared successfully", not with a cart.  A second [clearCart]
    changes nothing and gets the same answer, and [getCart] then answers
    with no items and a total of 0. *)
Theorem clearCart_clears (u : string) (st : store) :
  let out := clearCart u st in
  fst out = mkResponse 200 (MessageBody "Cart cleared successfully") /\
  shopping_cart (snd out) = filter (fun r => negb (by_user u r)) (shopping_cart st) /\
  products (snd out) = products st /\
  next_id (snd out) = next_id st /\
  lines_of_user u (snd out) = [] /\
  clearCart u (snd out) = out /\
  getCart u (snd out) = (mkResponse 200 (CartBody (mkCart [] 0%float)), snd out).
Proof.
  intros out. subst out. rewrite clearCart_eq. simpl.
  assert (Hnone : filter (by_user u)
                    (filter (fun r => negb (by_user u r)) (shopping_cart st)) = []).
  { apply filter_none. intros r Hr. apply filter_In in Hr.
    destruct Hr as [_ Hr]. now apply negb_true_iff in Hr. }
  repeat split; auto.
  - rewrite clearCart_eq. now rewrite delete_where_twice.
  - rewrite getCart_answer. unfold answer_cart.
    rewrite try_catch_bind, fetch_cart_eq. unfold select_cart, delete_where.
    simpl. rewrite Hnone. reflexivity.
Qed.

Example clearCart_other_user :
  snd (clearCart "u2" shop1) = shop1 /\
  shopping_cart (snd (clearCart "u1" shop1)) = [].
Proof. split; reflexivity. Qed.

(** ** The product table is only read *)

Section Frame.

Lemma frames_ret {A : Type} (a : A) : frames (ret a).
Proof. intros st. reflexivity. Qed.

Lemma frames_respond {A : Type} (s : nat) (b : body) : frames (@respond A s b).
Proof. intros st. reflexivity. Qed.

Lemma frames_throw {A : Type} (e : js_error) : frames (@throw A e).
Proof. intros st. reflexivity. Qed.

Lemma frames_query {A : Type} (f : store -> A) : frames (query f).
Proof. intros st. reflexivity. Qed.

Lemma frames_return_if (b : bool) (s : nat) (bd : body) :
  frames (return_if b s bd).
Proof. destruct b; intros st; reflexivity. Qed.

Lemma frames_throw_if_error {A : Type} (x : result A) :
  frames (throw_if_error x).
Proof. destruct x; intros st; reflexivity. Qed.

Lemma frames_mutate {A : Type} (f : store -> A * store) :
  (forall st, products (snd (f st)) = products st) -> frames (mutate f).
Proof.
  intros H st. unfold mutate. specialize (H st). now destruct (f st).
Qed.

Lemma frames_bind {A B : Type} (m : handler A) (k : A -> handler B) :
  frames m -> (forall a, frames (k a)) -> frames (bind m k).
Proof.
  intros Hm Hk st. unfold bind. specialize (Hm st).
  destruct (m st) as [[a|r|e] st'] eqn:E; simpl in *; auto.
  rewrite <- Hm. apply Hk.
Qed.

Lemma frames_try_catch (msg : string) (h : handler response) (st : store) :
  frames h -> products (snd (try_catch msg h st)) = products st.
Proof.
  intros H. unfold try_catch. specialize (H st).
  now destruct (h st) as [[r|r|e] st'].
Qed.

Lemma insert_single_products (u pid : string) (x : Q) (st : store) :
  products (snd (insert_single u pid x st)) = products st.
Proof. unfold insert_single. now destruct (as_integer x). Qed.

Lemma update_single_products (sel : cart_row -> bool) (x : Q) (st : store) :
  products (snd (update_single sel x st)) = products st.
Proof.
  unfold update_single. destruct (as_integer x); auto.
  now destruct (filter sel (shopping_cart st)) as [|r [|r' l]].
Qed.

Lemma frames_fetch_cart (u : string) : frames (fetch_cart u).
Proof.
  intros st. rewrite fetch_cart_eq.
  now destruct (cart_total (select_cart u st) 0%float).
Qed.

End Frame.

Create HintDb frame.
#[local] Hint Resolve frames_ret frames_respond frames_throw frames_query
  frames_return_if frames_throw_if_error frames_fetch_cart
  insert_single_products update_single_products : frame.

Ltac frame_steps :=
  repeat first
    [ apply frames_bind; [|intros ?]
    | apply frames_mutate; intros ?
    | match goal with
      | |- frames (match ?x with _ => _ end) => destruct x
      | |- frames (if ?b then _ else _) => destruct b
      end
    | solve [auto with frame] ].

(** C9. No operation of the cart service writes the product table: after
    [getCart], [addToCart], [updateCartItem], [removeFromCart] and
    [clearCart], on whatever request and whatever the answer, the product
    table (prices and stock included) is the one before the request. *)
Theorem product_table_frame (u : string) (st : store) :
  products (snd (getCart u st)) = products st /\
  (forall req, products (snd (addToCart u req st)) = products st) /\
  (forall id quantity,
     products (snd (updateCartItem u id quantity st)) = products st) /\
  (forall id, products (snd (removeFromCart u id st)) = products st) /\
  products (snd (clearCart u st)) = products st.
Proof.
  split; [|split; [|split; [|split]]].
  - apply frames_try_catch. frame_steps.
  - intros req. apply frames_try_catch. frame_steps.
  - intros id quantity. apply frames_try_catch. frame_steps.
  - intros id. apply frames_try_catch. frame_steps.
  - apply frames_try_catch. frame_steps.
Qed.

(** ** A request without a quantity *)

(** C10. A request to [addToCart] without a quantity field is the request
    with quantity 1: same answer, same tables.  With a product id it is not
    answered with the validation error; on a product in stock it creates the
    user's line with quantity 1, or adds 1 to the line the user has, and it
    is refused with "Not enough stock available" when 1, or the line's
    quantity plus 1, is over the stock.  A quantity of null takes no default
    and is answered with the validation error. *)
Theorem addToCart_default_quantity (u : string) (prod : product) (st : store) :
  wf_store st -> In prod (products st) -> p_id prod <> "" ->
  let out := addToCart u (mkAddBody (Some (p_id prod)) JUndefined) st in
  out = addToCart u (mkAddBody (Some (p_id prod)) (num 1)) st /\
  error_kind_of (fst out) <> Some ValidationError /\
  (lines_of u (p_id prod) st = [] -> (1 <= p_stock_quantity prod)%Z ->
   shopping_cart (snd out) =
     shopping_cart st ++ [mkRow (next_id st) u (p_id prod) 1]) /\
  (forall ex, lines_of u (p_id prod) st = [ex] ->
     (c_quantity ex + 1 <= p_stock_quantity prod)%Z ->
     lines_of u (p_id prod) (snd out) = [set_quantity (c_quantity ex + 1) ex]) /\
  ((lines_of u (p_id prod) st = [] /\ (p_stock_quantity prod < 1)%Z) \/
   (exists ex, lines_of u (p_id prod) st = [ex] /\
               (p_stock_quantity prod < c_quantity ex + 1)%Z) ->
   error_kind_of (fst out) = Some InsufficientStockError /\ snd out = st) /\
  addToCart u (mkAddBody (Some (p_id prod)) JNull) st = (invalid_add_response, st).
Proof.
  intros W Hp Hid out.
  assert (E : out = addToCart u (mkAddBody (Some (p_id prod)) (num 1)) st)
    by reflexivity.
  split; [exact E|]. rewrite E.
  split; [now apply addToCart_passes|].
  split; [|split; [|split]].
  - intros Hl Hs.
    rewrite (addToCart_new_line u prod 1 st W Hp Hid ltac:(lia) Hs Hl).
    now rewrite answer_cart_store.
  - intros ex Hl Hs.
    rewrite (addToCart_existing_line u prod 1 ex st W Hp Hid ltac:(lia) Hl Hs).
    rewrite answer_cart_store, requantified_lines_of, Hl. simpl.
    unfold by_id. now rewrite Nat.eqb_refl.
  - intros Hover.
    rewrite (addToCart_over_stock u prod 1 st W Hp Hid ltac:(lia) Hover).
    split; reflexivity.
  - apply addToCart_invalid. simpl. apply orb_true_r.
Qed.

(** C10 on the example shop: no quantity, on an empty cart and on a cart
    with 3 chips. *)
Lemma addToCart_default_quantity_witness :
  shopping_cart (snd (addToCart "u1" (mkAddBody (Some "p1") JUndefined) shop))
    = [mkRow 1 "u1" "p1" 1] /\
  lines_of "u1" "p1" (snd (addToCart "u1" (mkAddBody (Some "p1") JUndefined) shop1))
    = [mkRow 1 "u1" "p1" 4].
Proof.
  assert (Hid : p_id chips <> "") by discriminate.
  split.
  - destruct (addToCart_default_quantity "u1" chips shop wf_shop
                (or_introl eq_refl) Hid) as [_ [_ [H _]]].
    exact (H eq_refl ltac:(simpl; lia)).
  - destruct (addToCart_default_quantity "u1" chips shop1 wf_shop1
                (or_introl eq_refl) Hid) as [_ [_ [_ [H _]]]].
    exact (H (mkRow 1 "u1" "p1" 3) eq_refl ltac:(simpl; lia)).
Defined.

(** ** The constraints are kept by every request *)

Lemma as_integer_positive (x : Q) (n : Z) :
  Qle_bool x 0 = false -> as_integer x = Some n -> (1 <= n)%Z.
Proof.
  intros Hx Hn. apply as_integer_sound in Hn.
  destruct (Z.le_gt_cases n 0) as [Hle|Hgt]; [|lia].
  assert (Hq : (x <= 0)%Q).
  { rewrite Hn. change 0%Q with (inject_Z 0). now rewrite <- Zle_Qle. }
  apply Qle_bool_iff in Hq. congruence.
Qed.

Lemma as_integer_sum_positive (e : Z) (x : Q) (n : Z) :
  (1 <= e)%Z -> Qle_bool x 0 = false ->
  as_integer (inject_Z e + x) = Some n -> (1 <= n)%Z.
Proof.
  intros He Hx Hn. apply (as_integer_positive (inject_Z e + x)); auto.
  destruct (Qle_bool (inject_Z e + x) 0) eqn:E; auto.
  apply Qle_bool_iff in E. exfalso.
  assert (Hx' : (0 < x)%Q).
  { apply Qnot_le_lt. intros H. apply Qle_bool_iff in H. congruence. }
  assert (He' : (0 < inject_Z e)%Q).
  { change 0%Q with (inject_Z 0). rewrite <- Zlt_Qlt. lia. }
  apply (Qlt_not_le 0 (inject_Z e + x)); auto.
  rewrite <- (Qplus_0_l 0). apply Qplus_lt_le_compat; auto.
  now apply Qlt_le_weak.
Qed.

Lemma answer_cart_wf (msg : string) (s : nat) (u : string) (st : store) :
  wf_store st -> wf_store (snd (answer_cart msg s u st)).
Proof. now rewrite answer_cart_store. Qed.

Lemma update_single_wf (sel : cart_row -> bool) (x : Q) (st : store) :
  wf_store st -> (forall n, as_integer x = Some n -> (1 <= n)%Z) ->
  wf_store (snd (update_single sel x st)).
Proof.
  intros W Hn. unfold update_single.
  destruct (as_integer x) as [n|]; auto.
  destruct (filter sel (shopping_cart st)) as [|r [|r' l]]; auto.
  apply (wf_requantified sel n st W). now apply Hn.
Qed.

Lemma getCart_wf (u : string) (st : store) :
  wf_store st -> wf_store (snd (getCart u st)).
Proof. rewrite getCart_answer. apply answer_cart_wf. Qed.

Lemma removeFromCart_wf (u : string) (id : nat) (st : store) :
  wf_store st -> wf_store (snd (removeFromCart u id st)).
Proof.
  intros W. rewrite removeFromCart_eq. apply answer_cart_wf.
  now apply wf_delete_where.
Qed.

Lemma clearCart_wf (u : string) (st : store) :
  wf_store st -> wf_store (snd (clearCart u st)).
Proof. intros W. rewrite clearCart_eq. now apply wf_delete_where. Qed.

Lemma updateCartItem_wf (u : string) (id : nat) (quantity : jsval) (st : store) :
  wf_store st -> wf_store (snd (updateCartItem u id quantity st)).
Proof.
  intros W. unfold updateCartItem. rewrite try_catch_bind.
  destruct (not_ quantity || negb (typeof_number quantity)
            || Qle_bool (number_of quantity) 0) eqn:Hv; [exact W|].
  apply orb_false_iff in Hv. destruct Hv as [_ Hpos].
  cbn [return_if ret]. rewrite try_catch_bind. unfold query at 1.
  destruct (single (map c_product_id _)) as [pid|e]; [|exact W].
  rewrite try_catch_bind. unfold query at 1.
  destruct (single (map p_stock_quantity _)) as [stock|e]; [|exact W].
  rewrite try_catch_bind.
  destruct (Qlt_bool (inject_Z stock) (number_of quantity)); [exact W|].
  cbn [return_if ret]. rewrite try_catch_bind.
  pose proof (update_single_wf (by_id id) (number_of quantity) st W
                (fun n => as_integer_positive _ n Hpos)) as Hup.
  unfold bind, mutate.
  destruct (update_single (by_id id) (number_of quantity) st) as [[r|e] st'];
    simpl in *; [|exact Hup].
  fold (answer_cart "Error updating cart item" 200 u st').
  now apply answer_cart_wf.
Qed.

Lemma addToCart_wf (u : string) (req : add_body) (st : store) :
  wf_store st -> wf_store (snd (addToCart u req st)).
Proof.
  intros W. unfold addToCart. cbv zeta. rewrite try_catch_bind.
  set (quantity := with_default (ab_quantity req) (JNum 1)).
  destruct (id_missing (ab_product_id req) || negb (typeof_number quantity)
            || Qle_bool (number_of quantity) 0) eqn:Hv; [exact W|].
  apply orb_false_iff in Hv. destruct Hv as [_ Hpos].
  cbn [return_if ret]. rewrite try_catch_bind. unfold query at 1.
  destruct (single (products_by_id (id_text (ab_product_id req)) st))
    as [prod|e] eqn:Hprod; [|exact W].
  assert (Hp : In prod (products st)).
  { unfold single in Hprod.
    destruct (products_by_id (id_text (ab_product_id req)) st)
      as [|p [|p' ps]] eqn:Hf; try discriminate.
    injection Hprod as ->.
    assert (Hin : In prod (products_by_id (id_text (ab_product_id req)) st))
      by (rewrite Hf; now left).
    apply filter_In in Hin. tauto. }
  rewrite try_catch_bind.
  destruct (Qlt_bool (inject_Z (p_stock_quantity prod)) (number_of quantity));
    [exact W|].
  cbn [return_if ret]. rewrite try_catch_bind.
  unfold bind at 1. unfold query at 1.
  fold (lines_of u (p_id prod) st).
  destruct (wf_lines_of_cases u (p_id prod) st W) as [Hl|[ex [Hin [_ [_ Hl]]]]];
    rewrite Hl; cbn [single].
  - cbn [PGRST116 e_code String.eqb Ascii.eqb Bool.eqb negb].
    unfold bind, mutate, insert_single.
    destruct (as_integer (number_of quantity)) as [n|] eqn:Hn; simpl; [|exact W].
    fold (inserted u (p_id prod) n st).
    fold (answer_cart "Error adding item to cart" 201 u
            (inserted u (p_id prod) n st)).
    apply answer_cart_wf. apply wf_inserted; auto.
    exact (as_integer_positive _ n Hpos Hn).
  - unfold bind at 1.
    destruct (Qlt_bool (inject_Z (p_stock_quantity prod))
                (inject_Z (c_quantity ex) + number_of quantity)); [exact W|].
    cbn [return_if ret].
    pose proof (update_single_wf (by_id_user (c_id ex) u)
                  (inject_Z (c_quantity ex) + number_of quantity)%Q st W
                  (fun n => as_integer_sum_positive _ _ n
                              (wf_line_quantity st W ex Hin) Hpos)) as Hup.
    unfold try_catch, bind, mutate. cbv beta.
    destruct (update_single (by_id_user (c_id ex) u)
                (inject_Z (c_quantity ex) + number_of quantity)%Q st)
      as [[r|e] st']; simpl in *; [|exact Hup].
    rewrite fetch_cart_eq.
    destruct (cart_total (select_cart u st') 0%float); exact Hup.
Qed.

(** Every store a session reaches from well-formed tables is well-formed:
    the hypothesis of the claims is an invariant of the service. *)
Lemma serve_wf (u : string) (rq : request) (st : store) :
  wf_store st -> wf_store (snd (serve u rq st)).
Proof.
  intros W. destruct rq; simpl.
  - now apply getCart_wf.
  - now apply addToCart_wf.
  - now apply updateCartItem_wf.
  - now apply removeFromCart_wf.
  - now apply clearCart_wf.
Qed.

Lemma session_wf (rqs : list (string * request)) (st : store) :
  wf_store st -> wf_store (session rqs st).
Proof.
  revert st. induction rqs as [|[u rq] rest IH]; simpl; intros st W; auto.
  apply IH. now apply serve_wf.
Qed.

Example session_shop :
  session [("u1", AddToCart (mkAddBody (Some "p1") (num 3)));
           ("u2", AddToCart (mkAddBody (Some "p1") JUndefined));
           ("u1", UpdateCartItem 1 (num 1));
           ("u2", RemoveFromCart 1);
           ("u2", ClearCart)] shop
  = mkStore [chips; laddu] [mkRow 1 "u1" "p1" 1] 3.
Proof. reflexivity. Qed.

(** * Further properties of the cart handlers *)

(** ** The handlers without the control-flow monad *)

Lemma addToCart_unfold (u : string) (req : add_body) (st : store) :
  addToCart u req st =
  let quantity := with_default (ab_quantity req) (JNum 1) in
  let x := number_of quantity in
  if id_missing (ab_product_id req) || negb (typeof_number quantity)
     || Qle_bool x 0
  then (invalid_add_response, st)
  else
    match products_by_id (id_text (ab_product_id req)) st with
    | [prod] =>
        if Qlt_bool (inject_Z (p_stock_quantity prod)) x
        then (stock_error (stock_details prod), st)
        else
          match lines_of u (p_id prod) st with
          | [ex] =>
              if Qlt_bool (inject_Z (p_stock_quantity prod))
                          (inject_Z (c_quantity ex) + x)
              then (stock_error (stock_details prod), st)
              else
                match update_single (by_id_user (c_id ex) u)
                                    (inject_Z (c_quantity ex) + x)%Q st with
                | (Data _, st') =>
                    answer_cart "Error adding item to cart" 201 u st'
                | (Error e, st') =>
                    (server_error "Error adding item to cart" e, st')
                end
          | _ =>
              match insert_single u (p_id prod) x st with
              | (Data _, st') =>
                  answer_cart "Error adding item to cart" 201 u st'
              | (Error e, st') =>
                  (server_error "Error adding item to cart" e, st')
              end
          end
    | _ =>
        (mkResponse 404 (ErrorBody "Product not found"
                           (Some (e_message PGRST116))), st)
    end.
Proof.
  unfold addToCart. cbv zeta. rewrite try_catch_bind.
  set (quantity := with_default (ab_quantity req) (JNum 1)).
  destruct (id_missing (ab_product_id req) || negb (typeof_number quantity)
            || Qle_bool (number_of quantity) 0); [reflexivity|].
  cbn [return_if ret]. rewrite try_catch_bind. unfold query at 1.
  destruct (products_by_id (id_text (ab_product_id req)) st)
    as [|prod [|prod' ps]]; try reflexivity.
  cbn [single]. rewrite try_catch_bind.
  destruct (Qlt_bool (inject_Z (p_stock_quantity prod)) (number_of quantity));
    [reflexivity|].
  cbn [return_if ret]. rewrite try_catch_bind.
  unfold bind at 1. unfold query at 1. unfold lines_of.
  destruct (filter (by_user_product u (p_id prod)) (shopping_cart st))
    as [|ex [|ex' l]]; cbn [single].
  - cbn [PGRST116 e_code String.eqb Ascii.eqb Bool.eqb negb].
    unfold answer_cart, try_catch, bind, mutate. cbv beta.
    destruct (insert_single u (p_id prod) (number_of quantity) st) as [[r|e] st'];
      reflexivity.
  - unfold bind at 1.
    destruct (Qlt_bool (inject_Z (p_stock_quantity prod))
                (inject_Z (c_quantity ex) + number_of quantity)); [reflexivity|].
    cbn [return_if ret].
    unfold answer_cart, try_catch, bind, mutate. cbv beta.
    destruct (update_single (by_id_user (c_id ex) u)
                (inject_Z (c_quantity ex) + number_of quantity)%Q st)
      as [[r|e] st']; reflexivity.
  - cbn [PGRST116 e_code String.eqb Ascii.eqb Bool.eqb negb].
    unfold answer_cart, try_catch, bind, mutate. cbv beta.
    destruct (insert_single u (p_id prod) (number_of quantity) st) as [[r|e] st'];
      reflexivity.
Qed.

Lemma updateCartItem_unfold (u : string) (id : nat) (quantity : jsval)
      (st : store) :
  updateCartItem u id quantity st =
  let x := number_of quantity in
  if not_ quantity || negb (typeof_number quantity) || Qle_bool x 0
  then (invalid_update_response, st)
  else
    match filter (by_id_user id u) (shopping_cart st) with
    | [line] =>
        match products_by_id (c_product_id line) st with
        | [prod] =>
            if Qlt_bool (inject_Z (p_stock_quantity prod)) x
            then (stock_error ("Only " ++ show_Z (p_stock_quantity prod)
                               ++ " units available"), st)
            else
              match update_single (by_id id) x st with
              | (Data _, st') =>
                  answer_cart "Error updating cart item" 200 u st'
              | (Error e, st') =>
                  (server_error "Error updating cart item" e, st')
              end
        | _ =>
            (mkResponse 404 (ErrorBody "Product not found"
                               (Some (e_message PGRST116))), st)
        end
    | _ =>
        (mkResponse 404 (ErrorBody "Cart item not found"
                           (Some (e_message PGRST116))), st)
    end.
Proof.
  unfold updateCartItem. cbv zeta. rewrite try_catch_bind.
  destruct (not_ quantity || negb (typeof_number quantity)
            || Qle_bool (number_of quantity) 0); [reflexivity|].
  cbn [return_if ret]. rewrite try_catch_bind. unfold query at 1.
  destruct (filter (by_id_user id u) (shopping_cart st)) as [|line [|line' l]];
    try reflexivity.
  cbn [map single]. rewrite try_catch_bind. unfold query at 1.
  destruct (products_by_id (c_product_id line) st) as [|prod [|prod' ps]];
    try reflexivity.
  cbn [map single]. rewrite try_catch_bind.
  destruct (Qlt_bool (inject_Z (p_stock_quantity prod)) (number_of quantity));
    [reflexivity|].
  cbn [return_if ret].
  unfold answer_cart, try_catch, bind, mutate. cbv beta.
  destruct (update_single (by_id id) (number_of quantity) st) as [[r|e] st'];
    reflexivity.
Qed.

(** ** What a request can do to the tables *)

Lemma as_integer_le (x : Q) (n s : Z) :
  as_integer x = Some n -> Qlt_bool (inject_Z s) x = false -> (n <= s)%Z.
Proof.
  intros Hn Hs. apply as_integer_sound in Hn.
  unfold Qlt_bool in Hs. apply negb_false_iff in Hs. apply Qle_bool_iff in Hs.
  rewrite Hn in Hs. now rewrite <- Zle_Qle in Hs.
Qed.

Lemma as_integer_sum_above (e : Z) (x : Q) (n : Z) :
  Qle_bool x 0 = false -> as_integer (inject_Z e + x) = Some n -> (e < n)%Z.
Proof.
  intros Hx Hn. apply as_integer_sound in Hn.
  assert (Hx' : (0 < x)%Q).
  { apply Qnot_le_lt. intros H. apply Qle_bool_iff in H. congruence. }
  rewrite Zlt_Qlt, <- Hn.
  rewrite <- (Qplus_0_r (inject_Z e)) at 1.
  apply Qplus_lt_r. exact Hx'.
Qed.

Lemma update_single_effect (sel : cart_row -> bool) (x : Q) (st : store) :
  snd (update_single sel x st) = st \/
  exists n r, as_integer x = Some n /\ filter sel (shopping_cart st) = [r] /\
              snd (update_single sel x st) = requantified sel n st.
Proof.
  unfold update_single. destruct (as_integer x) as [n|]; [|now left].
  destruct (filter sel (shopping_cart st)) as [|r [|r' l]] eqn:E;
    try (now left).
  right. exists n, r. auto.
Qed.

Lemma insert_single_effect (u pid : string) (x : Q) (st : store) :
  snd (insert_single u pid x st) = st \/
  exists n, as_integer x = Some n /\
            snd (insert_single u pid x st) = inserted u pid n st.
Proof.
  unfold insert_single. destruct (as_integer x) as [n|]; [|now left].
  right. exists n. auto.
Qed.

Lemma after_mutation_store {A : Type} (msg : string) (s : nat) (u : string)
      (out : result A * store) :
  snd (match out with
       | (Data _, st') => answer_cart msg s u st'
       | (Error e, st') => (server_error msg e, st')
       end) = snd out.
Proof.
  destruct out as [[a|e] st']; simpl; [apply answer_cart_store|reflexivity].
Qed.

(** The three things [addToCart] can do to the tables. *)
Lemma addToCart_effect (u : string) (req : add_body) (st : store) :
  wf_store st ->
  snd (addToCart u req st) = st \/
  (exists prod n,
     In prod (products st) /\ lines_of u (p_id prod) st = [] /\
     (1 <= n <= p_stock_quantity prod)%Z /\
     snd (addToCart u req st) = inserted u (p_id prod) n st) \/
  (exists prod ex n,
     In prod (products st) /\ In ex (shopping_cart st) /\
     c_user_id ex = u /\ c_product_id ex = p_id prod /\
     (c_quantity ex < n <= p_stock_quantity prod)%Z /\
     snd (addToCart u req st) = requantified (by_id (c_id ex)) n st).
Proof.
  intros W. rewrite addToCart_unfold. cbv zeta.
  set (x := number_of (with_default (ab_quantity req) (JNum 1))).
  destruct (id_missing (ab_product_id req) || _ || Qle_bool x 0) eqn:Hv;
    [now left|].
  apply orb_false_iff in Hv. destruct Hv as [_ Hpos].
  destruct (products_by_id (id_text (ab_product_id req)) st)
    as [|prod [|prod' ps]] eqn:Hf; try (now left).
  assert (Hp : In prod (products st)).
  { assert (Hin : In prod (products_by_id (id_text (ab_product_id req)) st))
      by (rewrite Hf; now left).
    apply filter_In in Hin. tauto. }
  destruct (Qlt_bool (inject_Z (p_stock_quantity prod)) x) eqn:Hs; [now left|].
  destruct (wf_lines_of_cases u (p_id prod) st W)
    as [Hl|[ex [Hin [Hu [Hpid Hl]]]]]; rewrite Hl.
  - rewrite after_mutation_store.
    destruct (insert_single_effect u (p_id prod) x st) as [E|[n [Hn E]]];
      [now left|].
    right. left. exists prod, n. repeat split; auto.
    + exact (as_integer_positive x n Hpos Hn).
    + exact (as_integer_le x n _ Hn Hs).
  - destruct (Qlt_bool (inject_Z (p_stock_quantity prod))
                (inject_Z (c_quantity ex) + x)) eqn:Hs'; [now left|].
    rewrite after_mutation_store.
    destruct (update_single_effect (by_id_user (c_id ex) u)
                (inject_Z (c_quantity ex) + x)%Q st) as [E|[n [r [Hn [_ E]]]]];
      [now left|].
    right. right. exists prod, ex, n. repeat split; auto.
    + exact (as_integer_sum_above _ x n Hpos Hn).
    + exact (as_integer_le _ n _ Hn Hs').
    + rewrite E, <- Hu. now apply requantified_by_id.
Qed.

(** The one thing [updateCartItem] can do to the tables. *)
Lemma updateCartItem_effect (u : string) (id : nat) (quantity : jsval)
      (st : store) :
  wf_store st ->
  snd (updateCartItem u id quantity st) = st \/
  exists ex p n,
    In ex (shopping_cart st) /\ c_id ex = id /\ c_user_id ex = u /\
    joined st ex = Some p /\ (1 <= n <= p_stock_quantity p)%Z /\
    snd (updateCartItem u id quantity st) = requantified (by_id id) n st.
Proof.
  intros W. rewrite updateCartItem_unfold. cbv zeta.
  set (x := number_of quantity).
  destruct (not_ quantity || _ || Qle_bool x 0) eqn:Hv; [now left|].
  apply orb_false_iff in Hv. destruct Hv as [_ Hpos].
  destruct (filter (by_id_user id u) (shopping_cart st))
    as [|ex [|ex' l]] eqn:Hf; try (now left).
  assert (Hex : In ex (shopping_cart st) /\ by_id_user id u ex = true).
  { apply filter_In. rewrite Hf. now left. }
  destruct Hex as [Hin Hsel]. apply by_id_user_true in Hsel.
  destruct Hsel as [Hid Hu].
  destruct (products_by_id (c_product_id ex) st) as [|p [|p' ps]] eqn:Hp;
    try (now left).
  assert (Hpin : In p (products st) /\ p_id p = c_product_id ex).
  { assert (H : In p (products_by_id (c_product_id ex) st))
      by (rewrite Hp; now left).
    apply filter_In in H. destruct H as [H1 H2].
    apply String.eqb_eq in H2. auto. }
  destruct Hpin as [Hpin Hpid].
  destruct (Qlt_bool (inject_Z (p_stock_quantity p)) x) eqn:Hs; [now left|].
  rewrite after_mutation_store.
  destruct (update_single_effect (by_id id) x st) as [E|[n [r [Hn [_ E]]]]];
    [now left|].
  right. exists ex, p, n. repeat split; auto.
  - apply joined_unique; auto using wf_product_key.
  - exact (as_integer_positive x n Hpos Hn).
  - exact (as_integer_le x n _ Hn Hs).
Qed.

(** ** Invariants *)

(** X1. Every handler keeps the constraints of the tables: keys stay
    unique, a user has at most one line per product, every line refers to a
    product and holds a quantity of at least one; so does every sequence of
    requests. *)
Theorem handlers_keep_constraints (u : string) (st : store) :
  wf_store st ->
  wf_store (snd (getCart u st)) /\
  (forall req, wf_store (snd (addToCart u req st))) /\
  (forall id quantity, wf_store (snd (updateCartItem u id quantity st))) /\
  (forall id, wf_store (snd (removeFromCart u id st))) /\
  wf_store (snd (clearCart u st)) /\
  (forall rqs, wf_store (session rqs st)).
Proof.
  intros W.
  split; [now apply getCart_wf|].
  split; [intros req; now apply addToCart_wf|].
  split; [intros id quantity; now apply updateCartItem_wf|].
  split; [intros id; now apply removeFromCart_wf|].
  split; [now apply clearCart_wf|].
  intros rqs. now apply session_wf.
Qed.

Lemma handlers_keep_constraints_witness :
  wf_store (snd (addToCart "u2" (mkAddBody (Some "p1") (JNum (3 # 2))) shop1)) /\
  wf_store (session [("u2", AddToCart (mkAddBody (Some "p2") (num 2)));
                     ("u1", UpdateCartItem 1 (num 5));
                     ("u2", ClearCart)] shop1).
Proof.
  destruct (handlers_keep_constraints "u2" shop1 wf_shop1)
    as [_ [Ha [_ [_ [_ Hs]]]]].
  split; [apply Ha|apply Hs].
Defined.

Lemma joined_same_products (st st' : store) (r : cart_row) :
  products st' = products st -> joined st' r = joined st r.
Proof. intros E. unfold joined. now rewrite E. Qed.

Lemma within_stock_inserted (u : string) (prod : product) (n : Z) (st : store) :
  NoDup (map p_id (products st)) -> In prod (products st) ->
  within_stock st -> (n <= p_stock_quantity prod)%Z ->
  within_stock (inserted u (p_id prod) n st).
Proof.
  intros ND Hp Hst Hn r p Hr Hj.
  rewrite (joined_same_products st) in Hj by reflexivity.
  unfold inserted in Hr. simpl in Hr. apply in_app_or in Hr.
  destruct Hr as [Hr|[<-|[]]]; [now apply (Hst r p)|].
  rewrite (joined_unique st (mkRow (next_id st) u (p_id prod) n) prod ND Hp
             eq_refl) in Hj.
  injection Hj as <-. exact Hn.
Qed.

Lemma within_stock_requantified (sel : cart_row -> bool) (n : Z) (st : store) :
  within_stock st ->
  (forall r p, In r (shopping_cart st) -> sel r = true -> joined st r = Some p ->
               (n <= p_stock_quantity p)%Z) ->
  within_stock (requantified sel n st).
Proof.
  intros Hst Hn r p Hr Hj.
  rewrite (joined_same_products st) in Hj by reflexivity.
  unfold requantified in Hr. simpl in Hr. apply in_map_iff in Hr.
  destruct Hr as [r0 [E Hr0]]. destruct (sel r0) eqn:Es; subst r.
  - simpl. exact (Hn r0 p Hr0 Es Hj).
  - now apply (Hst r0 p).
Qed.

Lemma within_stock_delete_where (sel : cart_row -> bool) (st : store) :
  within_stock st -> within_stock (delete_where sel st).
Proof.
  intros Hst r p Hr Hj.
  rewrite (joined_same_products st) in Hj by reflexivity.
  unfold delete_where in Hr. simpl in Hr. apply filter_In in Hr.
  apply (Hst r p); tauto.
Qed.

Lemma by_id_only (ex r : cart_row) (st : store) :
  wf_store st -> In ex (shopping_cart st) -> In r (shopping_cart st) ->
  by_id (c_id ex) r = true -> r = ex.
Proof.
  intros W Hex Hr Hsel. apply Nat.eqb_eq in Hsel.
  exact (NoDup_key_inj c_id _ r ex (wf_line_key st W) Hr Hex Hsel).
Qed.

(** X2. No request leaves a line with more than the stock of its product:
    when the tables are well-formed and every line is within the stock of its
    product, they still are after any of the five handlers, whatever the
    request and its answer. *)
Theorem handlers_keep_stock_bound (u : string) (st : store) :
  wf_store st -> within_stock st ->
  within_stock (snd (getCart u st)) /\
  (forall req, within_stock (snd (addToCart u req st))) /\
  (forall id quantity, within_stock (snd (updateCartItem u id quantity st))) /\
  (forall id, within_stock (snd (removeFromCart u id st))) /\
  within_stock (snd (clearCart u st)).
Proof.
  intros W Hst.
  split; [now rewrite getCart_answer, answer_cart_store|].
  split; [|split; [|split]].
  - intros req.
    destruct (addToCart_effect u req st W)
      as [E|[[prod [n [Hp [_ [Hn E]]]]]
            |[prod [ex [n [Hp [Hin [_ [Hpid [Hn E]]]]]]]]]]; rewrite E.
    + exact Hst.
    + apply within_stock_inserted; auto using wf_product_key. lia.
    + apply within_stock_requantified; auto.
      intros r p Hr Hsel Hj.
      rewrite (by_id_only ex r st W Hin Hr Hsel) in Hj.
      rewrite (joined_unique st ex prod (wf_product_key st W) Hp Hpid) in Hj.
      injection Hj as <-. lia.
  - intros id quantity.
    destruct (updateCartItem_effect u id quantity st W)
      as [E|[ex [p [n [Hin [Hid [_ [Hj [Hn E]]]]]]]]]; rewrite E.
    + exact Hst.
    + apply within_stock_requantified; auto.
      intros r p' Hr Hsel Hj'. rewrite <- Hid in Hsel.
      rewrite (by_id_only ex r st W Hin Hr Hsel) in Hj'.
      rewrite Hj in Hj'. injection Hj' as <-. lia.
  - intros id. rewrite removeFromCart_eq, answer_cart_store.
    now apply within_stock_delete_where.
  - rewrite clearCart_eq. now apply within_stock_delete_where.
Qed.

Lemma within_stock_shop1 : within_stock shop1.
Proof.
  intros r p [<-|[]] Hj. vm_compute in Hj. injection Hj as <-. simpl. lia.
Qed.

Lemma handlers_keep_stock_bound_witness :
  within_stock (snd (addToCart "u1" (mkAddBody (Some "p1") (num 2)) shop1)) /\
  within_stock (snd (updateCartItem "u1" 1 (num 5) shop1)).
Proof.
  destruct (handlers_keep_stock_bound "u1" shop1 wf_shop1 within_stock_shop1)
    as [_ [Ha [Hu _]]].
  split; [apply Ha|apply Hu].
Defined.

(** ** What a request never does *)

Lemma lines_of_user_requantified (u' : string) (sel : cart_row -> bool) (n : Z)
      (st : store) :
  (forall r, In r (shopping_cart st) -> sel r = true -> c_user_id r <> u') ->
  lines_of_user u' (requantified sel n st) = lines_of_user u' st.
Proof.
  intros H. unfold lines_of_user, requantified. simpl.
  rewrite filter_map_stable by (intros x; now destruct (sel x)).
  apply map_only_at. intros r Hr. apply filter_In in Hr.
  destruct Hr as [Hin Hu]. apply by_user_true in Hu.
  destruct (sel r) eqn:E; auto. exfalso. exact (H r Hin E Hu).
Qed.

Lemma lines_of_user_inserted (u u' pid : string) (n : Z) (st : store) :
  u <> u' -> lines_of_user u' (inserted u pid n st) = lines_of_user u' st.
Proof.
  intros Hne. unfold lines_of_user, inserted. simpl.
  rewrite filter_app. simpl. unfold by_user at 2. simpl.
  apply String.eqb_neq in Hne. rewrite Hne. apply app_nil_r.
Qed.

Lemma lines_of_user_delete_where (u' : string) (sel : cart_row -> bool)
      (st : store) :
  (forall r, In r (shopping_cart st) -> sel r = true -> c_user_id r <> u') ->
  lines_of_user u' (delete_where sel st) = lines_of_user u' st.
Proof.
  intros H. unfold lines_of_user, delete_where. simpl. rewrite filter_filter.
  apply filter_ext_in. intros r Hr.
  destruct (by_user u' r) eqn:Eu; [|apply andb_false_r].
  apply by_user_true in Eu. destruct (sel r) eqn:E; auto.
  exfalso. exact (H r Hr E Eu).
Qed.

(** X3. A request of one user never touches the lines of another: after
    any of the five handlers called for user [u], on any request and with any
    answer, the lines of every other user are the ones before, in the same
    order.  No constraint on the tables is needed. *)
Theorem requests_touch_own_lines_only (u u' : string) (st : store) :
  u <> u' ->
  lines_of_user u' (snd (getCart u st)) = lines_of_user u' st /\
  (forall req,
     lines_of_user u' (snd (addToCart u req st)) = lines_of_user u' st) /\
  (forall id quantity,
     lines_of_user u' (snd (updateCartItem u id quantity st))
     = lines_of_user u' st) /\
  (forall id,
     lines_of_user u' (snd (removeFromCart u id st)) = lines_of_user u' st) /\
  lines_of_user u' (snd (clearCart u st)) = lines_of_user u' st.
Proof.
  intros Hne.
  split; [now rewrite getCart_answer, answer_cart_store|].
  split; [|split; [|split]].
  - intros req. rewrite addToCart_unfold. cbv zeta.
    destruct (id_missing _ || _ || _); [reflexivity|].
    destruct (products_by_id _ st) as [|prod [|prod' ps]]; try reflexivity.
    destruct (Qlt_bool _ _); [reflexivity|].
    assert (Hins : lines_of_user u'
                     (snd (insert_single u (p_id prod)
                             (number_of (with_default (ab_quantity req) (JNum 1)))
                             st)) = lines_of_user u' st).
    { destruct (insert_single_effect u (p_id prod)
                  (number_of (with_default (ab_quantity req) (JNum 1))) st)
        as [E|[n [_ E]]]; rewrite E; [reflexivity|].
      now apply lines_of_user_inserted. }
    destruct (lines_of u (p_id prod) st) as [|ex [|ex' l]];
      try (rewrite after_mutation_store; exact Hins).
    destruct (Qlt_bool _ _); [reflexivity|].
    rewrite after_mutation_store.
    destruct (update_single_effect (by_id_user (c_id ex) u)
                (inject_Z (c_quantity ex)
                 + number_of (with_default (ab_quantity req) (JNum 1)))%Q st)
      as [E|[n [r [_ [_ E]]]]]; rewrite E; [reflexivity|].
    apply lines_of_user_requantified. intros r0 _ Hsel.
    apply by_id_user_true in Hsel. destruct Hsel as [_ ->]. exact Hne.
  - intros id quantity. rewrite updateCartItem_unfold. cbv zeta.
    destruct (not_ _ || _ || _); [reflexivity|].
    destruct (filter (by_id_user id u) (shopping_cart st))
      as [|ex [|ex' l]] eqn:Hf; try reflexivity.
    destruct (products_by_id _ st) as [|prod [|prod' ps]]; try reflexivity.
    destruct (Qlt_bool _ _); [reflexivity|].
    rewrite after_mutation_store.
    destruct (update_single_effect (by_id id) (number_of quantity) st)
      as [E|[n [r [_ [Hone E]]]]]; rewrite E; [reflexivity|].
    apply lines_of_user_requantified. intros r0 Hr0 Hsel.
    assert (Hex : In ex (shopping_cart st) /\ by_id_user id u ex = true).
    { apply filter_In. rewrite Hf. now left. }
    destruct Hex as [Hex Hexsel]. apply by_id_user_true in Hexsel.
    destruct Hexsel as [Hexid Hexu].
    assert (H1 : In ex (filter (by_id id) (shopping_cart st))).
    { apply filter_In. split; auto. unfold by_id. now apply Nat.eqb_eq. }
    assert (H2 : In r0 (filter (by_id id) (shopping_cart st))).
    { apply filter_In. auto. }
    rewrite Hone in H1, H2.
    destruct H1 as [<-|[]]. destruct H2 as [<-|[]]. congruence.
  - intros id. rewrite removeFromCart_eq, answer_cart_store.
    apply lines_of_user_delete_where. intros r _ Hsel.
    apply by_id_user_true in Hsel. destruct Hsel as [_ ->]. exact Hne.
  - rewrite clearCart_eq. apply lines_of_user_delete_where.
    intros r _ Hsel. apply by_user_true in Hsel. congruence.
Qed.

Lemma requests_touch_own_lines_only_witness :
  lines_of_user "u1" (snd (clearCart "u2" shop1)) = lines_of_user "u1" shop1 /\
  lines_of_user "u1" (snd (updateCartItem "u2" 1 (num 2) shop1))
    = lines_of_user "u1" shop1.
Proof.
  destruct (requests_touch_own_lines_only "u2" "u1" shop1 ltac:(discriminate))
    as [_ [_ [Hu [_ Hc]]]].
  split; [exact Hc|apply Hu].
Defined.

(** ** What a cart body shows *)

Lemma cart_total_joined (rows : list (cart_row * option product)) (s t : float) :
  cart_total rows s = Data t -> Forall (fun row => snd row <> None) rows.
Proof.
  revert s. induction rows as [|[r [p|]] rows IH]; simpl; intros s H.
  - constructor.
  - constructor; [discriminate|]. now apply (IH _ H).
  - discriminate.
Qed.

Lemma cart_body_complete_error (u : string) (s : nat) (e : string)
      (d : option string) (st : store) :
  cart_body_complete u (mkResponse s (ErrorBody e d)) st.
Proof. intros c Hc. discriminate. Qed.

Lemma cart_body_complete_fetched (u : string) (s : nat) (st : store) (c : cart) :
  fetch_cart u st = (Value c, st) ->
  cart_body_complete u (mkResponse s (CartBody c)) st.
Proof.
  rewrite fetch_cart_eq.
  destruct (cart_total (select_cart u st) 0%float) as [t|e] eqn:E; [|discriminate].
  intros [= <-] c' [= <-]. simpl. split.
  - unfold cart_items, select_cart, lines_of_user. now rewrite map_map.
  - apply cart_total_joined in E. unfold cart_items.
    apply Forall_map. simpl. exact E.
Qed.

#[local] Hint Resolve cart_body_complete_error cart_body_complete_fetched
  : answers.

(** X4. A cart body lists the lines of the user and nothing else: in every
    answer with a cart, from [getCart], [addToCart], [updateCartItem] or
    [removeFromCart], the items are the user's lines in the tables the handler
    leaves, in table order, each with its id, its quantity and its product;
    no item has a null product, and [getCart] leaves the tables as they
    were. *)
Theorem cart_body_lists_own_lines (u : string) (st : store) :
  snd (getCart u st) = st /\
  cart_body_complete u (fst (getCart u st)) st /\
  (forall req, cart_body_complete u (fst (addToCart u req st))
                                    (snd (addToCart u req st))) /\
  (forall id quantity,
     cart_body_complete u (fst (updateCartItem u id quantity st))
                          (snd (updateCartItem u id quantity st))) /\
  (forall id, cart_body_complete u (fst (removeFromCart u id st))
                                   (snd (removeFromCart u id st))).
Proof.
  assert (Hst : snd (getCart u st) = st)
    by (now rewrite getCart_answer, answer_cart_store).
  split; [exact Hst|]. split; [|split; [|split]].
  - rewrite <- Hst at 2.
    apply (final_try_catch (cart_body_complete u)); [auto with answers|].
    answer_steps.
  - intros req.
    apply (final_try_catch (cart_body_complete u)); [auto with answers|].
    answer_steps.
  - intros id quantity.
    apply (final_try_catch (cart_body_complete u)); [auto with answers|].
    answer_steps.
  - intros id.
    apply (final_try_catch (cart_body_complete u)); [auto with answers|].
    answer_steps.
Qed.

(** ** Errors *)

Lemma after_mutation_kind {A : Type} (msg : string) (s : nat) (u : string)
      (out : result A * store) :
  let r := fst (match out with
                | (Data _, st') => answer_cart msg s u st'
                | (Error e, st') => (server_error msg e, st')
                end) in
  error_kind_of r = None \/ error_kind_of r = Some StoreError.
Proof.
  destruct out as [[a|e] st']; simpl; [|now right].
  unfold answer_cart. rewrite try_catch_bind, fetch_cart_eq.
  destruct (cart_total (select_cart u st') 0%float); simpl; auto.
Qed.

(** X5. An answer that blames the request leaves the tables alone: when
    [addToCart] or [updateCartItem] answers with a validation error, a
    not-found error or an insufficient-stock error, the tables after the
    request are the tables before it.  Only a 500 can come with a write. *)
Theorem client_errors_change_nothing (u : string) (st : store) :
  (forall req k,
     error_kind_of (fst (addToCart u req st)) = Some k -> k <> StoreError ->
     snd (addToCart u req st) = st) /\
  (forall id quantity k,
     error_kind_of (fst (updateCartItem u id quantity st)) = Some k ->
     k <> StoreError ->
     snd (updateCartItem u id quantity st) = st).
Proof.
  split.
  - intros req k. rewrite addToCart_unfold. cbv zeta.
    destruct (id_missing _ || _ || _); [reflexivity|].
    destruct (products_by_id _ st) as [|prod [|prod' ps]]; try reflexivity.
    destruct (Qlt_bool _ _); [reflexivity|].
    destruct (lines_of u (p_id prod) st) as [|ex [|ex' l]].
    2: destruct (Qlt_bool _ _); [reflexivity|].
    all: intros Hk Hne;
      match goal with
      | H : error_kind_of (fst (match ?out with _ => _ end)) = _ |- _ =>
          destruct (after_mutation_kind "Error adding item to cart" 201 u out)
            as [E|E]; rewrite E in H; [discriminate|congruence]
      end.
  - intros id quantity k. rewrite updateCartItem_unfold. cbv zeta.
    destruct (not_ _ || _ || _); [reflexivity|].
    destruct (filter (by_id_user id u) (shopping_cart st))
      as [|ex [|ex' l]]; try reflexivity.
    destruct (products_by_id _ st) as [|prod [|prod' ps]]; try reflexivity.
    destruct (Qlt_bool _ _); [reflexivity|].
    intros Hk Hne.
    destruct (after_mutation_kind "Error updating cart item" 200 u
                (update_single (by_id id) (number_of quantity) st)) as [E|E];
      rewrite E in Hk; [discriminate|congruence].
Qed.

Lemma client_errors_change_nothing_witness :
  snd (addToCart "u1" (mkAddBody (Some "p1") (num 3)) shop1) = shop1 /\
  snd (updateCartItem "u1" 4 (num 1) shop1) = shop1.
Proof.
  destruct (client_errors_change_nothing "u1" shop1) as [Ha Hu]. split.
  - apply (Ha _ InsufficientStockError); [reflexivity|discriminate].
  - apply (Hu _ _ NotFoundError); [reflexivity|discriminate].
Defined.

(** X6. The product lookup of [addToCart].  A request without a product id,
    or with the empty string as product id, is answered with the validation
    error whatever its quantity; a request with a quantity above zero for an
    id that no product has is answered 404 "Product not found".  Both leave
    the tables as they were. *)
Theorem addToCart_product_lookup (u : string) (st : store) :
  (forall quantity,
     addToCart u (mkAddBody None quantity) st = (invalid_add_response, st) /\
     addToCart u (mkAddBody (Some "") quantity) st = (invalid_add_response, st)) /\
  (forall pid x,
     pid <> "" -> positive_number (JNum x) = true ->
     (forall p, In p (products st) -> p_id p <> pid) ->
     addToCart u (mkAddBody (Some pid) (JNum x)) st =
       (mkResponse 404 (ErrorBody "Product not found"
                          (Some (e_message PGRST116))), st) /\
     error_kind_of (fst (addToCart u (mkAddBody (Some pid) (JNum x)) st))
       = Some NotFoundError).
Proof.
  split.
  - intros quantity. split; now apply addToCart_invalid.
  - intros pid x Hid Hx Hno.
    assert (E : addToCart u (mkAddBody (Some pid) (JNum x)) st =
                (mkResponse 404 (ErrorBody "Product not found"
                                   (Some (e_message PGRST116))), st)).
    { rewrite addToCart_unfold.
      cbn [ab_product_id ab_quantity with_default typeof_number number_of
           id_missing id_text negb].
      destruct (positive_accepted x Hx) as [_ Hle]. rewrite Hle.
      apply String.eqb_neq in Hid. rewrite Hid. cbn [orb].
      replace (products_by_id pid st) with (@nil product); [reflexivity|].
      symmetry. apply filter_none. intros p Hp.
      apply String.eqb_neq. now apply Hno. }
    rewrite E. split; reflexivity.
Qed.

Lemma addToCart_product_lookup_witness :
  error_kind_of (fst (addToCart "u1" (mkAddBody (Some "p9") (num 1)) shop1))
    = Some NotFoundError.
Proof.
  destruct (addToCart_product_lookup "u1" shop1) as [_ H].
  apply (H "p9" (inject_Z 1)); [discriminate|reflexivity|].
  intros p [<-|[<-|[]]]; discriminate.
Defined.

(** X7. The lookups of [updateCartItem].  With a quantity above zero: an id
    that no line of the user has is answered 404 "Cart item not found"; a
    line whose product is not in the product table is answered 404
    "Product not found".  Both leave the tables as they were. *)
Theorem updateCartItem_lookups (u : string) (id : nat) (x : Q) (st : store) :
  positive_number (JNum x) = true ->
  ((forall r, In r (shopping_cart st) -> ~ (c_id r = id /\ c_user_id r = u)) ->
   updateCartItem u id (JNum x) st =
     (mkResponse 404 (ErrorBody "Cart item not found"
                        (Some (e_message PGRST116))), st)) /\
  (forall ex,
     filter (by_id_user id u) (shopping_cart st) = [ex] ->
     (forall p, In p (products st) -> p_id p <> c_product_id ex) ->
     updateCartItem u id (JNum x) st =
       (mkResponse 404 (ErrorBody "Product not found"
                          (Some (e_message PGRST116))), st)).
Proof.
  intros Hx. destruct (positive_accepted x Hx) as [Hnot Hle]. split.
  - intros Hno. apply updateCartItem_no_line; auto.
    apply filter_none. intros r Hr.
    destruct (by_id_user id u r) eqn:E; auto.
    apply by_id_user_true in E. exfalso. exact (Hno r Hr E).
  - intros ex Hf Hno. rewrite updateCartItem_unfold.
    cbn [typeof_number number_of negb]. rewrite Hnot, Hle. cbn [orb].
    rewrite Hf.
    replace (products_by_id (c_product_id ex) st) with (@nil product);
      [reflexivity|].
    symmetry. apply filter_none. intros p Hp.
    apply String.eqb_neq. now apply Hno.
Qed.

Lemma updateCartItem_lookups_witness :
  updateCartItem "u1" 9 (num 2) shop1 =
    (mkResponse 404 (ErrorBody "Cart item not found"
                       (Some (e_message PGRST116))), shop1) /\
  updateCartItem "u1" 1 (num 2) (mkStore [laddu] [mkRow 1 "u1" "p1" 3] 2) =
    (mkResponse 404 (ErrorBody "Product not found"
                       (Some (e_message PGRST116))),
     mkStore [laddu] [mkRow 1 "u1" "p1" 3] 2).
Proof.
  split.
  - apply (proj1 (updateCartItem_lookups "u1" 9 (inject_Z 2) shop1 eq_refl)).
    intros r [<-|[]] [E _]. discriminate.
  - apply (proj2 (updateCartItem_lookups "u1" 1 (inject_Z 2)
                    (mkStore [laddu] [mkRow 1 "u1" "p1" 3] 2) eq_refl)
             (mkRow 1 "u1" "p1" 3) eq_refl).
    intros p [<-|[]]. discriminate.
Defined.

(** ** Removing and composing *)

(** X8. [removeFromCart] on a line of the user deletes that line and no
    other: the lines left are the lines with another id, in their order, the
    product table stays, and the answer is 200 with a cart that has no item
    of that id. *)
Theorem removeFromCart_deletes_line (u : string) (ex : cart_row) (st : store) :
  wf_store st -> In ex (shopping_cart st) -> c_user_id ex = u ->
  let out := removeFromCart u (c_id ex) st in
  shopping_cart (snd out) =
    filter (fun r => negb (by_id (c_id ex) r)) (shopping_cart st) /\
  ~ In ex (shopping_cart (snd out)) /\
  (forall r, In r (shopping_cart st) -> r <> ex -> In r (shopping_cart (snd out))) /\
  exists c, fst out = mkResponse 200 (CartBody c) /\
            ~ In (c_id ex) (map i_id (items c)).
Proof.
  intros W Hin Hu out. subst out. rewrite removeFromCart_eq.
  assert (E : shopping_cart (delete_where (by_id_user (c_id ex) u) st) =
              filter (fun r => negb (by_id (c_id ex) r)) (shopping_cart st)).
  { unfold delete_where. simpl. apply filter_ext_in. intros r Hr.
    now rewrite <- Hu, (by_id_user_is_by_id st ex r (wf_line_key st W) Hin Hr). }
  rewrite answer_cart_store.
  split; [exact E|]. rewrite E. split; [|split].
  - intros H. apply filter_In in H. destruct H as [_ H].
    unfold by_id in H. now rewrite Nat.eqb_refl in H.
  - intros r Hr Hne. apply filter_In. split; auto.
    destruct (by_id (c_id ex) r) eqn:Er; auto.
    exfalso. apply Hne. exact (by_id_only ex r st W Hin Hr Er).
  - pose proof (wf_delete_where (by_id_user (c_id ex) u) st W) as W'.
    destruct (answer_cart_ok "Error removing item from cart" 200 u _
                (wf_lines_joined u _ W')) as [c Hc].
    exists c. rewrite Hc. split; [reflexivity|].
    destruct (answer_cart_total "Error removing item from cart" 200 u
                (delete_where (by_id_user (c_id ex) u) st) c)
      as [_ Hi]; [now rewrite Hc|].
    rewrite Hi. unfold cart_items, select_cart. rewrite !map_map.
    intros H. apply in_map_iff in H. destruct H as [r [Hid Hr]].
    simpl in Hid. apply filter_In in Hr. destruct Hr as [Hr _].
    rewrite E in Hr. apply filter_In in Hr. destruct Hr as [_ Hr].
    unfold by_id in Hr. rewrite Hid, Nat.eqb_refl in Hr. discriminate.
Qed.

Lemma removeFromCart_deletes_line_witness :
  shopping_cart (snd (removeFromCart "u1" 1 shop1)) = [].
Proof.
  destruct (removeFromCart_deletes_line "u1" (mkRow 1 "u1" "p1" 3) shop1
              wf_shop1 (or_introl eq_refl) eq_refl) as [H _].
  exact H.
Defined.

(** X9. Adding a product the user does not have and removing the new line
    gives back the cart table: after [addToCart] with a quantity within the
    stock and [removeFromCart] on the id of the created line, the lines are
    the ones before the two requests. *)
Theorem add_then_remove_restores (u : string) (prod : product) (q : Z)
        (st : store) :
  wf_store st -> In prod (products st) -> p_id prod <> "" ->
  (0 < q)%Z -> (q <= p_stock_quantity prod)%Z ->
  lines_of u (p_id prod) st = [] ->
  let st1 := snd (addToCart u (mkAddBody (Some (p_id prod)) (num q)) st) in
  shopping_cart (snd (removeFromCart u (next_id st) st1)) = shopping_cart st /\
  products (snd (removeFromCart u (next_id st) st1)) = products st.
Proof.
  intros W Hp Hid Hq Hs Hl st1. subst st1.
  rewrite (addToCart_new_line u prod q st W Hp Hid Hq Hs Hl).
  rewrite removeFromCart_eq, !answer_cart_store.
  unfold delete_where, inserted. simpl. split; [|reflexivity].
  rewrite filter_app. simpl. unfold by_id_user at 2. simpl.
  rewrite Nat.eqb_refl, String.eqb_refl. simpl. rewrite app_nil_r.
  apply filter_all. intros r Hr. apply negb_true_iff.
  unfold by_id_user. pose proof (wf_line_fresh st W r Hr) as Hlt.
  replace (Nat.eqb (c_id r) (next_id st)) with false; [reflexivity|].
  symmetry. apply Nat.eqb_neq. lia.
Qed.

Lemma add_then_remove_restores_witness :
  shopping_cart
    (snd (removeFromCart "u2" 2
            (snd (addToCart "u2" (mkAddBody (Some "p2") (num 2)) shop1))))
  = shopping_cart shop1.
Proof.
  exact (proj1 (add_then_remove_restores "u2" laddu 2 shop1 wf_shop1
                  (or_intror (or_introl eq_refl)) ltac:(discriminate)
                  ltac:(lia) ltac:(simpl; lia) eq_refl)).
Defined.

Lemma requantified_inserted (u pid : string) (q n : Z) (st : store) :
  wf_store st ->
  requantified (by_id (next_id st)) n (inserted u pid q st) = inserted u pid n st.
Proof.
  intros W. unfold requantified, inserted. simpl. f_equal.
  rewrite map_app. simpl. unfold by_id at 2. simpl. rewrite Nat.eqb_refl.
  f_equal. apply map_only_at. intros r Hr. unfold by_id.
  pose proof (wf_line_fresh st W r Hr). apply Nat.eqb_neq. lia.
Qed.

Lemma requantified_twice (id : nat) (n m : Z) (st : store) :
  requantified (by_id id) m (requantified (by_id id) n st)
  = requantified (by_id id) m st.
Proof.
  unfold requantified. simpl. f_equal. rewrite map_map. apply map_ext.
  intros r. destruct (by_id id r) eqn:E; [|now rewrite E].
  change (by_id id (set_quantity n r)) with (by_id id r). now rewrite E.
Qed.

(** X10. Two adds are one add of the sum: for positive quantities [q1] and
    [q2] whose sum, on top of what the user's line holds, is within the stock,
    [addToCart] of [q2] after [addToCart] of [q1] gives the answer and the
    tables of one [addToCart] of [q1 + q2]. *)
Theorem addToCart_adds_up (u : string) (prod : product) (q1 q2 : Z) (st : store) :
  wf_store st -> In prod (products st) -> p_id prod <> "" ->
  (0 < q1)%Z -> (0 < q2)%Z ->
  (lines_of u (p_id prod) st = [] /\ (q1 + q2 <= p_stock_quantity prod)%Z) \/
  (exists ex, lines_of u (p_id prod) st = [ex] /\
              (c_quantity ex + (q1 + q2) <= p_stock_quantity prod)%Z) ->
  addToCart u (mkAddBody (Some (p_id prod)) (num q2))
    (snd (addToCart u (mkAddBody (Some (p_id prod)) (num q1)) st))
  = addToCart u (mkAddBody (Some (p_id prod)) (num (q1 + q2))) st.
Proof.
  intros W Hp Hid Hq1 Hq2 [[Hl Hs]|[ex [Hl Hs]]].
  - rewrite (addToCart_new_line u prod q1 st W Hp Hid Hq1 ltac:(lia) Hl).
    rewrite (addToCart_new_line u prod (q1 + q2) st W Hp Hid ltac:(lia) Hs Hl).
    rewrite answer_cart_store.
    assert (W1 : wf_store (inserted u (p_id prod) q1 st))
      by (apply wf_inserted; auto; lia).
    assert (Hl1 : lines_of u (p_id prod) (inserted u (p_id prod) q1 st)
                  = [mkRow (next_id st) u (p_id prod) q1]).
    { unfold lines_of, inserted. simpl. rewrite filter_app.
      unfold lines_of in Hl. rewrite Hl. simpl.
      unfold by_user_product. simpl. now rewrite !String.eqb_refl. }
    rewrite (addToCart_existing_line u prod q2 _ _ W1 Hp Hid Hq2 Hl1 Hs).
    simpl c_id. simpl c_quantity. now rewrite (requantified_inserted u _ q1 _ st W).
  - assert (Hex : In ex (shopping_cart st) /\ by_user_product u (p_id prod) ex = true).
    { apply filter_In. unfold lines_of in Hl. rewrite Hl. now left. }
    destruct Hex as [Hin _].
    pose proof (wf_line_quantity st W ex Hin) as He.
    rewrite (addToCart_existing_line u prod q1 ex st W Hp Hid Hq1 Hl ltac:(lia)).
    rewrite (addToCart_existing_line u prod (q1 + q2) ex st W Hp Hid
               ltac:(lia) Hl Hs).
    rewrite answer_cart_store.
    set (st1 := requantified (by_id (c_id ex)) (c_quantity ex + q1) st).
    assert (W1 : wf_store st1) by (apply wf_requantified; auto; lia).
    assert (Hl1 : lines_of u (p_id prod) st1
                  = [set_quantity (c_quantity ex + q1) ex]).
    { unfold st1. rewrite requantified_lines_of, Hl. simpl.
      unfold by_id. now rewrite Nat.eqb_refl. }
    rewrite (addToCart_existing_line u prod q2 _ st1 W1 Hp Hid Hq2 Hl1
               ltac:(simpl; lia)).
    simpl c_id. simpl c_quantity. unfold st1. rewrite requantified_twice.
    now rewrite Z.add_assoc.
Qed.

Lemma addToCart_adds_up_witness :
  addToCart "u1" (mkAddBody (Some "p1") (num 1))
    (snd (addToCart "u1" (mkAddBody (Some "p1") (num 1)) shop1))
  = addToCart "u1" (mkAddBody (Some "p1") (num 2)) shop1.
Proof.
  apply (addToCart_adds_up "u1" chips 1 1 shop1 wf_shop1 (or_introl eq_refl)
           ltac:(discriminate) ltac:(lia) ltac:(lia)).
  right. exists (mkRow 1 "u1" "p1" 3). split; [reflexivity|simpl; lia].
Defined.

(** X11. The last update wins: for a line of the user and positive
    quantities [q1], [q2] within the stock of its product, [updateCartItem] to
    [q2] after [updateCartItem] to [q1] gives the answer and the tables of
    [updateCartItem] to [q2] alone; an update repeated changes nothing more. *)
Theorem updateCartItem_last_wins (u : string) (ex : cart_row) (p : product)
        (q1 q2 : Z) (st : store) :
  wf_store st -> In ex (shopping_cart st) -> c_user_id ex = u ->
  joined st ex = Some p ->
  (0 < q1 <= p_stock_quantity p)%Z -> (0 < q2 <= p_stock_quantity p)%Z ->
  updateCartItem u (c_id ex) (num q2)
    (snd (updateCartItem u (c_id ex) (num q1) st))
  = updateCartItem u (c_id ex) (num q2) st.
Proof.
  intros W Hin Hu Hj [Hq1 Hs1] [Hq2 Hs2].
  rewrite (updateCartItem_found u ex p q1 st W Hin Hu Hj Hq1).
  rewrite (updateCartItem_found u ex p q2 st W Hin Hu Hj Hq2).
  replace (p_stock_quantity p <? q1)%Z with false
    by (symmetry; apply Z.ltb_ge; exact Hs1).
  replace (p_stock_quantity p <? q2)%Z with false
    by (symmetry; apply Z.ltb_ge; exact Hs2).
  rewrite answer_cart_store.
  set (st1 := requantified (by_id (c_id ex)) q1 st).
  assert (W1 : wf_store st1) by (apply wf_requantified; auto; lia).
  assert (Hin1 : In (set_quantity q1 ex) (shopping_cart st1)).
  { unfold st1, requantified. simpl. apply in_map_iff. exists ex.
    split; auto. unfold by_id. now rewrite Nat.eqb_refl. }
  pose proof (updateCartItem_found u (set_quantity q1 ex) p q2 st1 W1 Hin1 Hu Hj
                Hq2) as E.
  simpl c_id in E. rewrite E.
  replace (p_stock_quantity p <? q2)%Z with false
    by (symmetry; apply Z.ltb_ge; exact Hs2).
  unfold st1. now rewrite requantified_twice.
Qed.

Lemma updateCartItem_last_wins_witness :
  updateCartItem "u1" 1 (num 2) (snd (updateCartItem "u1" 1 (num 5) shop1))
  = updateCartItem "u1" 1 (num 2) shop1.
Proof.
  apply (updateCartItem_last_wins "u1" (mkRow 1 "u1" "p1" 3) chips 5 2 shop1
           wf_shop1 (or_introl eq_refl) eq_refl eq_refl);
    simpl; lia.
Defined.

Lemma delete_where_delete_where (f g : cart_row -> bool) (st : store) :
  delete_where g (delete_where f st) = delete_where (fun r => f r || g r) st.
Proof.
  unfold delete_where. simpl. f_equal. rewrite filter_filter.
  apply filter_ext. intros r. now rewrite negb_orb.
Qed.

Lemma remove_each (u : string) (ids : list nat) (st : store) :
  fold_left (fun s id => snd (removeFromCart u id s)) ids st =
  delete_where (fun r => by_user u r && existsb (Nat.eqb (c_id r)) ids) st.
Proof.
  revert st. induction ids as [|id ids IH]; simpl; intros st.
  - symmetry. apply delete_where_none. intros r _. apply andb_false_r.
  - rewrite removeFromCart_eq, answer_cart_store, IH, delete_where_delete_where.
    unfold delete_where. f_equal. apply filter_ext. intros r. f_equal.
    unfold by_id_user, by_user.
    destruct (String.eqb (c_user_id r) u), (Nat.eqb (c_id r) id); reflexivity.
Qed.

(** X12. [clearCart] is [removeFromCart] on every line of the user: the
    tables [clearCart] leaves are the tables left by removing the user's lines
    one by one, by id. *)
Theorem clearCart_is_remove_each (u : string) (st : store) :
  snd (clearCart u st) =
  fold_left (fun s id => snd (removeFromCart u id s))
            (map c_id (lines_of_user u st)) st.
Proof.
  rewrite clearCart_eq, remove_each. unfold delete_where. simpl. f_equal.
  apply filter_ext_in. intros r Hr. f_equal.
  destruct (by_user u r) eqn:Eu; [|reflexivity]. simpl. symmetry.
  apply existsb_exists. exists (c_id r). split; [|apply Nat.eqb_refl].
  apply in_map. apply filter_In. auto.
Qed.

Lemma requantified_keys (sel : cart_row -> bool) (n : Z) (st : store) :
  map line_key (shopping_cart (requantified sel n st))
  = map line_key (shopping_cart st).
Proof.
  unfold requantified. simpl. apply map_key_stable.
  intros r. now destruct (sel r).
Qed.

(** X13. The footprint of each handler on the cart table, on any request.
    [updateCartItem] creates and deletes no line: ids, owners and products of
    the lines are the ones before.  [addToCart] deletes no line and creates at
    most one, for the calling user, under the next key.  [removeFromCart] and
    [clearCart] create no line and change no quantity: every line left is a
    line that was there. *)
Theorem handler_footprints (u : string) (st : store) :
  (forall id quantity,
     map line_key (shopping_cart (snd (updateCartItem u id quantity st)))
     = map line_key (shopping_cart st)) /\
  (forall req,
     map line_key (shopping_cart (snd (addToCart u req st)))
     = map line_key (shopping_cart st) \/
     exists pid,
       map line_key (shopping_cart (snd (addToCart u req st)))
       = map line_key (shopping_cart st) ++ [(next_id st, u, pid)]) /\
  (forall id r, In r (shopping_cart (snd (removeFromCart u id st))) ->
                In r (shopping_cart st)) /\
  (forall r, In r (shopping_cart (snd (clearCart u st))) ->
             In r (shopping_cart st)).
Proof.
  split; [|split; [|split]].
  - intros id quantity. rewrite updateCartItem_unfold. cbv zeta.
    destruct (not_ _ || _ || _); [reflexivity|].
    destruct (filter (by_id_user id u) (shopping_cart st))
      as [|ex [|ex' l]]; try reflexivity.
    destruct (products_by_id _ st) as [|prod [|prod' ps]]; try reflexivity.
    destruct (Qlt_bool _ _); [reflexivity|].
    rewrite after_mutation_store.
    destruct (update_single_effect (by_id id) (number_of quantity) st)
      as [E|[n [r [_ [_ E]]]]]; rewrite E; [reflexivity|].
    apply requantified_keys.
  - intros req. rewrite addToCart_unfold. cbv zeta.
    destruct (id_missing _ || _ || _); [now left|].
    destruct (products_by_id _ st) as [|prod [|prod' ps]]; try (now left).
    destruct (Qlt_bool _ _); [now left|].
    assert (Hins :
      map line_key (shopping_cart
        (snd (insert_single u (p_id prod)
                (number_of (with_default (ab_quantity req) (JNum 1))) st)))
      = map line_key (shopping_cart st) \/
      exists pid,
        map line_key (shopping_cart
          (snd (insert_single u (p_id prod)
                  (number_of (with_default (ab_quantity req) (JNum 1))) st)))
        = map line_key (shopping_cart st) ++ [(next_id st, u, pid)]).
    { destruct (insert_single_effect u (p_id prod)
                  (number_of (with_default (ab_quantity req) (JNum 1))) st)
        as [E|[n [_ E]]]; rewrite E; [now left|].
      right. exists (p_id prod). unfold inserted. simpl. now rewrite map_app. }
    destruct (lines_of u (p_id prod) st) as [|ex [|ex' l]];
      try (rewrite after_mutation_store; exact Hins).
    destruct (Qlt_bool _ _); [now left|].
    rewrite after_mutation_store. left.
    destruct (update_single_effect (by_id_user (c_id ex) u)
                (inject_Z (c_quantity ex)
                 + number_of (with_default (ab_quantity req) (JNum 1)))%Q st)
      as [E|[n [r [_ [_ E]]]]]; rewrite E; [reflexivity|].
    apply requantified_keys.
  - intros id r. rewrite removeFromCart_eq, answer_cart_store.
    unfold delete_where. simpl. intros H. apply filter_In in H. tauto.
  - intros r. rewrite clearCart_eq. unfold delete_where. simpl.
    intros H. apply filter_In in H. tauto.
Qed.

(** ** Bounds on the total *)

Lemma line_sum_nonneg (st : store) (l : list cart_row) :
  (forall p, In p (products st) -> price_not_negative (p_price p) = true) ->
  (forall r, In r l -> (0 <= c_quantity r)%Z) ->
  (0 <=? line_sum st l)%float = true.
Proof.
  intros Hp Hq. unfold line_sum.
  cut (forall s, (0 <=? s)%float = true ->
         (0 <=? fold_left
                  (fun acc r =>
                     acc + of_integer (c_quantity r)
                           * current_price st (c_product_id r)) l s)%float = true).
  { intros G. now apply G. }
  induction l as [|r l IH]; intros s Hs; simpl; [exact Hs|].
  apply IH.
  - intros x Hx. apply Hq. now right.
  - apply add_not_negative; [exact Hs|].
    rewrite (mul_comm (of_integer (c_quantity r))).
    assert (Hc : price_not_negative (current_price st (c_product_id r)) = true).
    { unfold current_price.
      destruct (find _ (products st)) as [p|] eqn:F; [|reflexivity].
      apply find_some in F. apply Hp. tauto. }
    apply andb_true_iff in Hc. destruct Hc as [Hc1 Hc2].
    apply mul_not_negative; auto. apply Hq. now left.
Qed.

Lemma handlers_products (u : string) (st : store) :
  (forall req, products (snd (addToCart u req st)) = products st) /\
  (forall id quantity,
     products (snd (updateCartItem u id quantity st)) = products st) /\
  (forall id, products (snd (removeFromCart u id st)) = products st).
Proof.
  split; [|split].
  - intros req. apply frames_try_catch. frame_steps.
  - intros id quantity. apply frames_try_catch. frame_steps.
  - intros id. apply frames_try_catch. frame_steps.
Qed.

(** X14. With prices that are not negative (finite numbers, as JSON
    carries them, of at least 0), no cart shows a negative total, whatever
    the rounding: on well-formed tables, the total of every cart body answered by
    [getCart], [addToCart], [updateCartItem] or [removeFromCart] is at least
    0. *)
Theorem cart_total_not_negative (u : string) (st : store) :
  wf_store st ->
  (forall p, In p (products st) -> price_not_negative (p_price p) = true) ->
  (forall c, payload (fst (getCart u st)) = CartBody c ->
             (0 <=? total c)%float = true) /\
  (forall req c, payload (fst (addToCart u req st)) = CartBody c ->
                 (0 <=? total c)%float = true) /\
  (forall id quantity c,
     payload (fst (updateCartItem u id quantity st)) = CartBody c ->
     (0 <=? total c)%float = true) /\
  (forall id c, payload (fst (removeFromCart u id st)) = CartBody c ->
                (0 <=? total c)%float = true).
Proof.
  intros W Hp.
  assert (Hsum : forall s, wf_store s -> products s = products st ->
                           (0 <=? sum_of_lines u s)%float = true).
  { intros s Ws Es. unfold sum_of_lines. apply line_sum_nonneg.
    - rewrite Es. exact Hp.
    - intros r Hr. unfold lines_of_user in Hr. apply filter_In in Hr.
      pose proof (wf_line_quantity s Ws r (proj1 Hr)). lia. }
  destruct (handlers_products u st) as [Pa [Pu Pr]].
  split; [|split; [|split]].
  - intros c Hc. destruct (getCart_cart_body u st c Hc) as [Ht _].
    rewrite Ht. apply Hsum; [now apply getCart_wf|].
    now rewrite getCart_answer, answer_cart_store.
  - intros req c Hc. destruct (addToCart_cart_body u req st c Hc) as [Ht _].
    rewrite Ht. apply Hsum; [now apply addToCart_wf|apply Pa].
  - intros id quantity c Hc.
    destruct (updateCartItem_cart_body u id quantity st c Hc) as [Ht _].
    rewrite Ht. apply Hsum; [now apply updateCartItem_wf|apply Pu].
  - intros id c Hc. destruct (removeFromCart_cart_body u id st c Hc) as [Ht _].
    rewrite Ht. apply Hsum; [now apply removeFromCart_wf|apply Pr].
Qed.

Lemma cart_total_not_negative_witness :
  (0 <=? total (mkCart [mkItem 1 3 (Some chips)] 7.5))%float = true.
Proof.
  assert (Hp : forall p, In p (products shop1) ->
                         price_not_negative (p_price p) = true)
    by (intros p [<-|[<-|[]]]; reflexivity).
  exact (proj1 (cart_total_not_negative "u1" shop1 wf_shop1 Hp) _ eq_refl).
Defined.

(** * The middleware *)

Lemma split_space_no_space (a : string) :
  has_space a = false -> split_space a = [a].
Proof.
  induction a as [|c a IH]; simpl; intros H; [reflexivity|].
  apply orb_false_iff in H. destruct H as [Hc Ha].
  rewrite Hc, (IH Ha). reflexivity.
Qed.

Lemma split_space_word (a b : string) :
  has_space a = false ->
  split_space (a ++ String " " b) = a :: split_space b.
Proof.
  induction a as [|c a IH]; simpl; intros H; [reflexivity|].
  apply orb_false_iff in H. destruct H as [Hc Ha].
  rewrite Hc, (IH Ha). reflexivity.
Qed.

Lemma split_space_not_nil (s : string) : split_space s <> [].
Proof.
  induction s as [|c s IH]; simpl; [discriminate|].
  destruct (Ascii.eqb c " "); [discriminate|].
  destruct (split_space s); [contradiction|discriminate].
Qed.

Lemma authenticateToken_next
      (verify : string -> string -> option string)
      (JWT_SECRET : option string) (profiles : list profile)
      (users : list auth_user) (req req' : http_request) :
  authenticateToken verify JWT_SECRET profiles users req = Next req' ->
  exists header token secret userId prof user,
    req_authorization req = Some header /\
    nth_error (split_space header) 1 = Some token /\ token <> "" /\
    JWT_SECRET = Some secret /\ secret <> "" /\
    verify token secret = Some userId /\
    filter (fun p => String.eqb (pr_id p) userId) profiles = [prof] /\
    find (fun x => String.eqb (au_id x) userId) users = Some user /\
    pr_id prof = userId /\ au_id user = userId /\
    req' = mkRequest (Some header) (Some user) (Some prof).
Proof.
  unfold authenticateToken. cbv zeta.
  destruct (req_authorization req) as [header|]; [|discriminate].
  cbn [no_string id_text].
  destruct (String.eqb header ""); [discriminate|].
  destruct (nth_error (split_space header) 1) as [token|] eqn:Ht;
    [|discriminate].
  cbn [no_string id_text].
  destruct (String.eqb_spec token "") as [|Htok]; [discriminate|].
  destruct JWT_SECRET as [secret|]; [|discriminate].
  cbn [no_string id_text].
  destruct (String.eqb_spec secret "") as [|Hsec]; [discriminate|].
  destruct (verify token secret) as [userId|] eqn:Hv; [|discriminate].
  destruct (filter (fun p => String.eqb (pr_id p) userId) profiles)
    as [|prof [|prof' l]] eqn:Hp; try discriminate.
  cbn [single].
  destruct (find (fun x => String.eqb (au_id x) userId) users)
    as [user|] eqn:Hu; [|discriminate].
  intros [= <-]. exists header, token, secret, userId, prof, user.
  repeat split; auto.
  - assert (H : In prof (filter (fun p => String.eqb (pr_id p) userId) profiles))
      by (rewrite Hp; now left).
    apply filter_In in H. now apply String.eqb_eq.
  - apply find_some in Hu. now apply String.eqb_eq.
Qed.

(** X15. [authenticateToken] calls [next()] exactly when the header has a
    non-empty second word, a secret is configured, [jwt.verify] accepts that
    word under the secret, the [userId] of the token has exactly one profile,
    and the identity service knows the user; [req.user] and [req.profile] are
    then that user and that profile, both with the id of the token. *)
Theorem authenticateToken_passes_iff
        (verify : string -> string -> option string)
        (JWT_SECRET : option string) (profiles : list profile)
        (users : list auth_user) (req req' : http_request) :
  authenticateToken verify JWT_SECRET profiles users req = Next req' <->
  exists header token secret userId prof user,
    req_authorization req = Some header /\
    nth_error (split_space header) 1 = Some token /\ token <> "" /\
    JWT_SECRET = Some secret /\ secret <> "" /\
    verify token secret = Some userId /\
    filter (fun p => String.eqb (pr_id p) userId) profiles = [prof] /\
    find (fun x => String.eqb (au_id x) userId) users = Some user /\
    pr_id prof = userId /\ au_id user = userId /\
    req' = mkRequest (Some header) (Some user) (Some prof).
Proof.
  split; [apply authenticateToken_next|].
  intros [header [token [secret [userId [prof [user
    [Hh [Ht [Htok [Hs [Hsec [Hv [Hp [Hu [_ [_ ->]]]]]]]]]]]]]]]].
  unfold authenticateToken. cbv zeta.
  rewrite Hh, Hs. cbn [no_string id_text].
  assert (Hne : String.eqb header "" = false).
  { destruct (String.eqb_spec header ""); auto. subst header.
    simpl in Ht. discriminate. }
  rewrite Hne, Ht. cbn [no_string id_text].
  apply String.eqb_neq in Htok, Hsec. rewrite Htok, Hsec, Hv, Hp.
  cbn [single]. now rewrite Hu.
Qed.

Example authenticateToken_example :
  authenticateToken verify_example (Some "s3cret") profiles_example users_example
    (bearer "Bearer tok-user")
  = Next (mkRequest (Some "Bearer tok-user") (Some (mkUser "u1" "user@shop.test"))
                    (Some (mkProfile "u1" "customer"))).
Proof. reflexivity. Qed.

(** X16. How [authenticateToken] reads the header.  The token is the text
    between the first and the second space.  A header without a space, or
    with a second space right after the first, is answered 401
    "No token provided".  The first word is never looked at: with any other
    word in place of [Bearer] the request is answered the same way and hands
    on the same user and profile. *)
Theorem authenticateToken_header
        (verify : string -> string -> option string)
        (JWT_SECRET : option string) (profiles : list profile)
        (users : list auth_user) (scheme : string) :
  has_space scheme = false ->
  (scheme <> "" ->
   authenticateToken verify JWT_SECRET profiles users (bearer scheme)
   = send_error 401 "No token provided") /\
  (forall rest,
     authenticateToken verify JWT_SECRET profiles users
       (bearer (scheme ++ String " " (String " " rest)))
     = send_error 401 "No token provided") /\
  (forall rest,
     handed_on (authenticateToken verify JWT_SECRET profiles users
                  (bearer (scheme ++ String " " rest)))
     = handed_on (authenticateToken verify JWT_SECRET profiles users
                    (bearer (String " " rest)))) /\
  (forall token tail,
     has_space token = false ->
     nth_error (split_space (scheme ++ String " " (token ++ String " " tail))) 1
     = Some token).
Proof.
  intros Hs. split; [|split; [|split]].
  - intros Hne. unfold authenticateToken, bearer. cbn [req_authorization no_string id_text].
    apply String.eqb_neq in Hne. rewrite Hne.
    now rewrite (split_space_no_space scheme Hs).
  - intros rest. unfold authenticateToken, bearer.
    cbn [req_authorization no_string id_text].
    rewrite (split_space_word scheme _ Hs).
    assert (E : String.eqb (scheme ++ String " " (String " " rest)) "" = false)
      by (destruct scheme; reflexivity).
    rewrite E. reflexivity.
  - intros rest. unfold authenticateToken, bearer.
    cbn [req_authorization no_string id_text].
    rewrite (split_space_word scheme rest Hs).
    change (split_space (String " " rest)) with ("" :: split_space rest).
    assert (E : String.eqb (scheme ++ String " " rest) "" = false)
      by (destruct scheme; reflexivity).
    rewrite E. cbn [String.eqb nth_error].
    destruct (split_space rest) as [|token pieces];
      [reflexivity|].
    cbn [no_string id_text].
    destruct (String.eqb token ""); [reflexivity|].
    destruct (no_string JWT_SECRET); [reflexivity|].
    destruct (verify token (id_text JWT_SECRET)); [|reflexivity].
    destruct (single _); [|reflexivity].
    destruct (find _ users); reflexivity.
  - intros token tail Ht.
    now rewrite (split_space_word scheme _ Hs), (split_space_word token _ Ht).
Qed.

Lemma authenticateToken_header_witness :
  authenticateToken verify_example (Some "s3cret") profiles_example users_example
    (bearer "Bearer") = send_error 401 "No token provided" /\
  handed_on (authenticateToken verify_example (Some "s3cret") profiles_example
               users_example (bearer "Basic tok-admin"))
  = handed_on (authenticateToken verify_example (Some "s3cret") profiles_example
                 users_example (bearer " tok-admin")).
Proof.
  split.
  - destruct (authenticateToken_header verify_example (Some "s3cret")
                profiles_example users_example "Bearer" eq_refl) as [H _].
    apply H. discriminate.
  - destruct (authenticateToken_header verify_example (Some "s3cret")
                profiles_example users_example "Basic" eq_refl) as [_ [_ [H _]]].
    exact (H "tok-admin").
Defined.

(** X17. [isAdmin] behind [authenticateToken].  A request that
    [authenticateToken] hands on always carries a profile, so [isAdmin] never
    answers it 401: it calls [next()] when the role of the profile is exactly
    "admin" and answers 403 "Admin access required" otherwise.  Without a
    profile [isAdmin] answers 401. *)
Theorem isAdmin_behind_authenticateToken
        (verify : string -> string -> option string)
        (JWT_SECRET : option string) (profiles : list profile)
        (users : list auth_user) (req req' : http_request) :
  authenticateToken verify JWT_SECRET profiles users req = Next req' ->
  exists prof,
    req_profile req' = Some prof /\ In prof profiles /\
    (pr_role prof = "admin" -> isAdmin req' = Next req') /\
    (pr_role prof <> "admin" ->
     isAdmin req' = send_error 403 "Admin access required") /\
    isAdmin (mkRequest (req_authorization req') (req_user req') None)
      = send_error 401 "No user profile found".
Proof.
  intros H.
  destruct (authenticateToken_next _ _ _ _ _ _ H)
    as [header [token [secret [userId [prof [user
        [_ [_ [_ [_ [_ [_ [Hp [_ [_ [_ ->]]]]]]]]]]]]]]]].
  exists prof. cbn [req_profile req_authorization req_user].
  split; [reflexivity|]. split.
  - assert (Hin : In prof (filter (fun p => String.eqb (pr_id p) userId) profiles))
      by (rewrite Hp; now left).
    apply filter_In in Hin. tauto.
  - unfold isAdmin. cbn [req_profile]. split; [|split].
    + intros ->. reflexivity.
    + intros Hne. apply String.eqb_neq in Hne. now rewrite Hne.
    + reflexivity.
Qed.

Lemma isAdmin_behind_authenticateToken_witness :
  exists prof,
    req_profile (mkRequest (Some "Bearer tok-user")
                   (Some (mkUser "u1" "user@shop.test"))
                   (Some (mkProfile "u1" "customer"))) = Some prof /\
    In prof profiles_example /\
    (pr_role prof = "admin" ->
     isAdmin (mkRequest (Some "Bearer tok-user")
                (Some (mkUser "u1" "user@shop.test"))
                (Some (mkProfile "u1" "customer")))
     = Next (mkRequest (Some "Bearer tok-user")
               (Some (mkUser "u1" "user@shop.test"))
               (Some (mkProfile "u1" "customer")))) /\
    (pr_role prof <> "admin" ->
     isAdmin (mkRequest (Some "Bearer tok-user")
                (Some (mkUser "u1" "user@shop.test"))
                (Some (mkProfile "u1" "customer")))
     = send_error 403 "Admin access required") /\
    isAdmin (mkRequest (Some "Bearer tok-user")
               (Some (mkUser "u1" "user@shop.test")) None)
      = send_error 401 "No user profile found".
Proof.
  exact (isAdmin_behind_authenticateToken verify_example (Some "s3cret")
           profiles_example users_example (bearer "Bearer tok-user") _ eq_refl).
Defined.

(** X18. [errorHandler] answers 400, 401 or 500 and nothing else.  The
    name of the error decides before its code and type do.  An error that is
    none of the kinds it knows is answered 500 "Internal server error", and
    outside development the message of the error is replaced by
    "Something went wrong"; the answers for the kinds it knows carry the
    message in every environment, except an expired token. *)
Theorem errorHandler_answers (NODE_ENV : option string) (err : js_exception) :
  In (a_status (errorHandler NODE_ENV err)) [400; 401; 500] /\
  (a_status (errorHandler NODE_ENV err) = 500 ->
   NODE_ENV <> Some "development" ->
   errorHandler NODE_ENV err
   = mkAnswer 500 "Internal server error" "Something went wrong") /\
  (a_status (errorHandler NODE_ENV err) <> 500 ->
   x_name err <> "TokenExpiredError" ->
   a_message (errorHandler NODE_ENV err) = x_message err) /\
  (x_name err = "MulterError" ->
   errorHandler NODE_ENV err = mkAnswer 400 "File upload error" (x_message err)) /\
  (x_name err = "TokenExpiredError" ->
   errorHandler NODE_ENV err
   = mkAnswer 401 "Token expired" "Please log in again").
Proof.
  unfold errorHandler.
  destruct (String.eqb_spec (x_name err) "MulterError") as [E1|E1].
  { simpl. repeat split; auto; try discriminate.
    intros E. rewrite E in E1. discriminate. }
  destruct (String.eqb_spec (x_name err) "JsonWebTokenError") as [E2|E2].
  { simpl. repeat split; auto; try discriminate; try contradiction.
    intros E. rewrite E in E2. discriminate. }
  destruct (String.eqb_spec (x_name err) "TokenExpiredError") as [E3|E3].
  { simpl. repeat split; auto; try discriminate; try contradiction. }
  destruct (starts_with "PGRST" (x_code err)).
  { simpl. repeat split; auto; try discriminate; try contradiction. }
  destruct (starts_with "Stripe" (x_type err)).
  { simpl. repeat split; auto; try discriminate; try contradiction. }
  simpl. split; [auto|]. split; [|split; [|split]]; try contradiction.
  intros _ Hdev. f_equal.
  destruct NODE_ENV as [env|]; [|reflexivity]. simpl.
  destruct (String.eqb_spec env "development") as [->|Hne];
    [contradiction|reflexivity].
Qed.

(** * The products page *)

Section Sorting.
Context {A : Type} (cmp : A -> A -> Q) (key : A -> Q).
Hypothesis cmp_key :
  forall a b, Qle_bool (cmp a b) 0 = Qle_bool (key a) (key b).

Lemma insert_by_perm (x : A) (l : list A) :
  Permutation (insert_by cmp x l) (x :: l).
Proof.
  induction l as [|y l IH]; simpl; [reflexivity|].
  destruct (Qle_bool (cmp x y) 0); [reflexivity|].
  rewrite IH. apply perm_swap.
Qed.

Lemma js_sort_perm (l : list A) : Permutation (js_sort cmp l) l.
Proof.
  induction l as [|x l IH]; simpl; [reflexivity|].
  rewrite insert_by_perm. now constructor.
Qed.

Lemma insert_by_sorted (x : A) (l : list A) :
  StronglySorted (fun a b => (key a <= key b)%Q) l ->
  StronglySorted (fun a b => (key a <= key b)%Q) (insert_by cmp x l).
Proof.
  induction l as [|y l IH]; simpl; intros Hs.
  - constructor; constructor.
  - inversion Hs as [|? ? Hl Hy]; subst.
    destruct (Qle_bool (cmp x y) 0) eqn:E.
    + rewrite cmp_key in E. apply Qle_bool_iff in E.
      constructor; [exact Hs|]. constructor; [exact E|].
      apply Forall_forall. intros z Hz.
      rewrite Forall_forall in Hy. apply (Qle_trans _ (key y)); auto.
    + constructor; [now apply IH|].
      assert (Hyx : (key y <= key x)%Q).
      { rewrite cmp_key in E. apply Qlt_le_weak. apply Qnot_le_lt.
        intros H. apply Qle_bool_iff in H. congruence. }
      apply Forall_forall. intros z Hz.
      apply (Permutation_in _ (insert_by_perm x l)) in Hz.
      destruct Hz as [<-|Hz]; [exact Hyx|].
      rewrite Forall_forall in Hy. now apply Hy.
Qed.

Lemma js_sort_sorted (l : list A) :
  StronglySorted (fun a b => (key a <= key b)%Q) (js_sort cmp l).
Proof.
  induction l as [|x l IH]; simpl; [constructor|].
  now apply insert_by_sorted.
Qed.

Lemma insert_by_stable (v : Q) (x : A) (l : list A) :
  filter (fun a => Qeq_bool (key a) v) (insert_by cmp x l)
  = filter (fun a => Qeq_bool (key a) v) (x :: l).
Proof.
  induction l as [|y l IH]; [reflexivity|].
  cbn [insert_by]. destruct (Qle_bool (cmp x y) 0) eqn:E; [reflexivity|].
  cbn [filter] in *. rewrite IH.
  destruct (Qeq_bool (key x) v) eqn:Ex; [|reflexivity].
  destruct (Qeq_bool (key y) v) eqn:Ey; [|reflexivity].
  exfalso. apply Qeq_bool_iff in Ex, Ey.
  rewrite cmp_key in E.
  assert (H : (key x <= key y)%Q) by (rewrite Ex, Ey; apply Qle_refl).
  apply Qle_bool_iff in H. congruence.
Qed.

Lemma js_sort_stable (v : Q) (l : list A) :
  filter (fun a => Qeq_bool (key a) v) (js_sort cmp l)
  = filter (fun a => Qeq_bool (key a) v) l.
Proof.
  induction l as [|x l IH]; [reflexivity|].
  cbn [js_sort fold_right]. fold (js_sort cmp l).
  rewrite insert_by_stable. cbn [filter]. now rewrite IH.
Qed.

Lemma js_sort_of_sorted (l : list A) :
  StronglySorted (fun a b => (key a <= key b)%Q) l -> js_sort cmp l = l.
Proof.
  induction l as [|x l IH]; [reflexivity|]. intros Hs.
  inversion Hs as [|? ? Hl Hx]; subst.
  cbn [js_sort fold_right]. fold (js_sort cmp l). rewrite (IH Hl).
  destruct l as [|y l]; [reflexivity|]. cbn [insert_by].
  rewrite cmp_key. inversion Hx as [|? ? Hxy _]; subst.
  apply Qle_bool_iff in Hxy. now rewrite Hxy.
Qed.

Lemma js_sort_twice (l : list A) : js_sort cmp (js_sort cmp l) = js_sort cmp l.
Proof. apply js_sort_of_sorted. apply js_sort_sorted. Qed.
End Sorting.

Lemma Qle_bool_minus (a b : Q) : Qle_bool (a - b) 0 = Qle_bool a b.
Proof.
  destruct (Qle_bool a b) eqn:E.
  - apply Qle_bool_iff in E. apply Qle_bool_iff.
    apply (Qplus_le_l _ _ b). ring_simplify. exact E.
  - destruct (Qle_bool (a - b) 0) eqn:E'; [|reflexivity].
    apply Qle_bool_iff in E'. apply (Qplus_le_l _ _ b) in E'.
    ring_simplify in E'. apply Qle_bool_iff in E'. congruence.
Qed.

Lemma Qle_bool_minus_opp (a b : Q) : Qle_bool (b - a) 0 = Qle_bool (- a) (- b).
Proof.
  rewrite Qle_bool_minus.
  destruct (Qle_bool b a) eqn:E.
  - apply Qle_bool_iff in E. symmetry. apply Qle_bool_iff.
    now apply Qopp_le_compat.
  - destruct (Qle_bool (- a) (- b)) eqn:E'; [|reflexivity].
    apply Qle_bool_iff in E'. apply Qopp_le_compat in E'.
    rewrite !Qopp_involutive in E'. apply Qle_bool_iff in E'. congruence.
Qed.

Lemma filter_true {A : Type} (l : list A) : filter (fun _ => true) l = l.
Proof. apply filter_all. reflexivity. Qed.

Lemma apply_filters_eq (getTime : string -> Z) (f : filters)
      (ps : list listed_product) :
  apply_filters getTime f ps = sort_step getTime f (filter (shown f) ps).
Proof.
  unfold apply_filters, sort_step. cbv zeta.
  replace (filter (shown f) ps) with
    (let l := if negb (String.eqb (f_category f) "all")
              then filter (fun p => String.eqb (lp_category p) (f_category f)) ps
              else ps in
     if String.eqb (f_availability f) "available"
     then filter (fun p => (lp_stock_quantity p >? 0)%Z) l
     else if String.eqb (f_availability f) "preorder"
     then filter (fun p => (lp_stock_quantity p =? 0)%Z) l
     else l); [reflexivity|].
  cbv zeta. unfold shown.
  destruct (String.eqb (f_category f) "all"); cbn [negb orb];
    destruct (String.eqb (f_availability f) "available");
    try destruct (String.eqb (f_availability f) "preorder");
    rewrite ?filter_filter; try reflexivity;
    try (apply filter_ext; intros p; now rewrite ?andb_true_r).
  symmetry. apply filter_true.
Qed.

Lemma created_cmp_key (getTime : string -> Z) (a b : listed_product) :
  Qle_bool (inject_Z (created_ms getTime b - created_ms getTime a)) 0
  = Qle_bool (inject_Z (- created_ms getTime a))
             (inject_Z (- created_ms getTime b)).
Proof.
  change 0%Q with (inject_Z 0). rewrite !Qle_bool_inject_Z.
  destruct (Z.leb_spec (created_ms getTime b - created_ms getTime a) 0);
    destruct (Z.leb_spec (- created_ms getTime a) (- created_ms getTime b));
    auto; lia.
Qed.

Lemma sort_step_perm (getTime : string -> Z) (f : filters)
      (l : list listed_product) :
  Permutation (sort_step getTime f l) l.
Proof.
  unfold sort_step.
  destruct (String.eqb (f_sortBy f) "price-low"); [apply js_sort_perm|].
  destruct (String.eqb (f_sortBy f) "price-high"); [apply js_sort_perm|].
  destruct (String.eqb (f_sortBy f) "newest"); [apply js_sort_perm|].
  reflexivity.
Qed.

Lemma sort_step_twice (getTime : string -> Z) (f : filters)
      (l : list listed_product) :
  sort_step getTime f (sort_step getTime f l) = sort_step getTime f l.
Proof.
  unfold sort_step.
  destruct (String.eqb (f_sortBy f) "price-low").
  { apply (js_sort_twice _ (fun p => lp_price p)).
    intros a b. apply Qle_bool_minus. }
  destruct (String.eqb (f_sortBy f) "price-high").
  { apply (js_sort_twice _ (fun p => (- lp_price p)%Q)).
    intros a b. apply Qle_bool_minus_opp. }
  destruct (String.eqb (f_sortBy f) "newest"); [|reflexivity].
  apply (js_sort_twice _ (fun p => inject_Z (- created_ms getTime p))).
  intros a b. apply created_cmp_key.
Qed.

(** X19. The page shows the products that pass the chosen category and
    availability, each as often as it is listed, whatever the sort: the list
    set by the effect is a rearrangement of the listed products that pass.
    "available" lets through a stock above 0 and "preorder" a stock of
    exactly 0; another value for the availability, and the category "all",
    let everything through; a [sortBy] the page does not know leaves the
    order of the list. *)
Theorem apply_filters_shows_matching (getTime : string -> Z) (f : filters)
        (ps : list listed_product) :
  Permutation (apply_filters getTime f ps) (filter (shown f) ps) /\
  (forall p, In p (apply_filters getTime f ps) <-> In p ps /\ shown f p = true) /\
  (List.length (apply_filters getTime f ps) <= List.length ps)%nat /\
  (f_sortBy f <> "price-low" -> f_sortBy f <> "price-high" ->
   f_sortBy f <> "newest" ->
   apply_filters getTime f ps = filter (shown f) ps).
Proof.
  rewrite apply_filters_eq.
  pose proof (sort_step_perm getTime f (filter (shown f) ps)) as HP.
  split; [exact HP|]. split; [|split].
  - intros p. rewrite <- filter_In. split; intros H.
    + now apply (Permutation_in _ HP).
    + now apply (Permutation_in _ (Permutation_sym HP)).
  - rewrite (Permutation_length HP). apply filter_length_le.
  - intros H1 H2 H3. unfold sort_step.
    apply String.eqb_neq in H1, H2, H3. now rewrite H1, H2, H3.
Qed.

(** X20. The order of the page.  Under "price-low" the prices never
    decrease along the list, under "price-high" they never increase, under
    "newest" the creation times never increase, a missing or empty
    [created_at] counting as time 0.  The sort is stable: products of the same
    price, or of the same time, keep the order they had. *)
Theorem apply_filters_sorted (getTime : string -> Z) (f : filters)
        (ps : list listed_product) :
  (f_sortBy f = "price-low" ->
   StronglySorted (fun a b => (lp_price a <= lp_price b)%Q)
                  (apply_filters getTime f ps) /\
   forall v, filter (fun p => Qeq_bool (lp_price p) v) (apply_filters getTime f ps)
             = filter (fun p => Qeq_bool (lp_price p) v) (filter (shown f) ps)) /\
  (f_sortBy f = "price-high" ->
   StronglySorted (fun a b => (lp_price b <= lp_price a)%Q)
                  (apply_filters getTime f ps) /\
   forall v, filter (fun p => Qeq_bool (lp_price p) v) (apply_filters getTime f ps)
             = filter (fun p => Qeq_bool (lp_price p) v) (filter (shown f) ps)) /\
  (f_sortBy f = "newest" ->
   StronglySorted (fun a b => (created_ms getTime b <= created_ms getTime a)%Z)
                  (apply_filters getTime f ps) /\
   forall t, filter (fun p => (created_ms getTime p =? t)%Z)
                    (apply_filters getTime f ps)
             = filter (fun p => (created_ms getTime p =? t)%Z)
                      (filter (shown f) ps)).
Proof.
  rewrite apply_filters_eq. unfold sort_step. split; [|split].
  - intros ->. cbn [String.eqb Ascii.eqb Bool.eqb]. split.
    + apply (js_sort_sorted _ (fun p => lp_price p)).
      intros a b. apply Qle_bool_minus.
    + intros v. apply (js_sort_stable _ (fun p => lp_price p)).
      intros a b. apply Qle_bool_minus.
  - intros ->. cbn [String.eqb Ascii.eqb Bool.eqb]. split.
    + pose proof (js_sort_sorted (fun a b => (lp_price b - lp_price a)%Q)
                    (fun p => (- lp_price p)%Q)
                    (fun a b => Qle_bool_minus_opp (lp_price a) (lp_price b))
                    (filter (shown f) ps)) as H.
      induction H as [|x l Hl IH Hx]; constructor; auto.
      apply Forall_forall. intros z Hz. rewrite Forall_forall in Hx.
      specialize (Hx z Hz). apply Qopp_le_compat in Hx.
      now rewrite !Qopp_involutive in Hx.
    + intros v.
      pose proof (js_sort_stable (fun a b => (lp_price b - lp_price a)%Q)
                    (fun p => (- lp_price p)%Q)
                    (fun a b => Qle_bool_minus_opp (lp_price a) (lp_price b))
                    (- v)%Q (filter (shown f) ps)) as H.
      assert (E : forall l : list listed_product,
                filter (fun p => Qeq_bool (lp_price p) v) l
                = filter (fun p => Qeq_bool (- lp_price p) (- v)) l).
      { intros l. apply filter_ext. intros p.
        destruct (Qeq_bool (lp_price p) v) eqn:E1;
          destruct (Qeq_bool (- lp_price p) (- v)) eqn:E2; auto.
        - apply Qeq_bool_iff in E1. rewrite E1 in E2.
          now rewrite Qeq_bool_refl in E2.
        - apply Qeq_bool_iff in E2.
          assert (E3 : (lp_price p == v)%Q).
          { rewrite <- (Qopp_involutive (lp_price p)), E2.
            apply Qopp_involutive. }
          apply Qeq_bool_iff in E3. congruence. }
      now rewrite !E.
  - intros ->. cbn [String.eqb Ascii.eqb Bool.eqb]. split.
    + pose proof (js_sort_sorted
                    (fun a b => inject_Z (created_ms getTime b - created_ms getTime a))
                    (fun p => inject_Z (- created_ms getTime p))
                    (created_cmp_key getTime)
                    (filter (shown f) ps)) as H.
      induction H as [|x l Hl IH Hx]; constructor; auto.
      apply Forall_forall. intros z Hz. rewrite Forall_forall in Hx.
      specialize (Hx z Hz). rewrite <- Zle_Qle in Hx. lia.
    + intros t.
      pose proof (js_sort_stable
                    (fun a b => inject_Z (created_ms getTime b - created_ms getTime a))
                    (fun p => inject_Z (- created_ms getTime p))
                    (created_cmp_key getTime)
                    (inject_Z (- t)) (filter (shown f) ps)) as H.
      assert (E : forall l : list listed_product,
                filter (fun p => (created_ms getTime p =? t)%Z) l
                = filter (fun p => Qeq_bool (inject_Z (- created_ms getTime p))
                                            (inject_Z (- t))) l).
      { intros l. apply filter_ext. intros p.
        unfold Qeq_bool, inject_Z. simpl. rewrite !Z.mul_1_r.
        destruct (Z.eqb_spec (created_ms getTime p) t);
          destruct (Z.eqb_spec (- created_ms getTime p) (- t)); auto; lia. }
      now rewrite !E.
Qed.

(** X21. Choices of filters add up.  The effect filters the list it set
    last, so after a choice [f1] and then a choice [f2] the page shows the
    listed products that pass both: a product that [f1] dropped is not shown
    under [f2], also when [f2] asks for all categories.  The same choice
    applied again changes nothing. *)
Theorem apply_filters_accumulate (getTime : string -> Z) (f1 f2 : filters)
        (ps : list listed_product) :
  (forall p, In p (apply_filters getTime f2 (apply_filters getTime f1 ps)) <->
             In p ps /\ shown f1 p = true /\ shown f2 p = true) /\
  apply_filters getTime f1 (apply_filters getTime f1 ps)
  = apply_filters getTime f1 ps.
Proof.
  split.
  - intros p. rewrite !apply_filters_eq.
    pose proof (sort_step_perm getTime f1 (filter (shown f1) ps)) as H1.
    pose proof (sort_step_perm getTime f2
                  (filter (shown f2) (sort_step getTime f1 (filter (shown f1) ps))))
      as H2.
    split.
    + intros H. apply (Permutation_in _ H2) in H. apply filter_In in H.
      destruct H as [H Hs2]. apply (Permutation_in _ H1) in H.
      apply filter_In in H. tauto.
    + intros [Hin [Hs1 Hs2]]. apply (Permutation_in _ (Permutation_sym H2)).
      apply filter_In. split; auto.
      apply (Permutation_in _ (Permutation_sym H1)). apply filter_In. auto.
  - rewrite !apply_filters_eq.
    rewrite (filter_all (shown f1) (sort_step getTime f1 (filter (shown f1) ps))).
    + apply sort_step_twice.
    + intros p Hp.
      apply (Permutation_in _ (sort_step_perm getTime f1 _)) in Hp.
      apply filter_In in Hp. tauto.
Qed.

Example apply_filters_example :
  map lp_id (apply_filters days_example (mkFilters "all" "available" "price-low")
               listing_example) = ["d"; "c"; "a"] /\
  map lp_id (apply_filters days_example (mkFilters "all" "all" "newest")
               listing_example) = ["a"; "d"; "b"; "c"] /\
  map lp_id (apply_filters days_example (mkFilters "all" "all" "price-low")
               (apply_filters days_example (mkFilters "snacks" "all" "price-low")
                  listing_example)) = ["c"; "a"].
Proof. repeat split; reflexivity. Qed.

(** ** A line without its product *)

Lemma cart_total_missing (st : store) (l : list cart_row) (s : float) :
  (exists r, In r l /\ joined st r = None) ->
  cart_total (map (fun r => (r, joined st r)) l) s = Error TypeError_price.
Proof.
  revert s. induction l as [|a l IH]; simpl; intros s [r [Hin Hj]];
    [contradiction|].
  destruct (joined st a) as [p|] eqn:E; [|reflexivity].
  apply IH. exists r. split; auto. destruct Hin as [->|Hin]; auto. congruence.
Qed.

Lemma answer_cart_missing (msg : string) (s : nat) (u : string) (st : store) :
  (exists r, In r (shopping_cart st) /\ c_user_id r = u /\ joined st r = None) ->
  answer_cart msg s u st = (server_error msg TypeError_price, st).
Proof.
  intros [r [Hin [Hu Hj]]]. unfold answer_cart.
  rewrite try_catch_bind, fetch_cart_eq. unfold select_cart.
  rewrite (cart_total_missing st); [reflexivity|].
  exists r. split; auto. apply filter_In. split; auto. now apply by_user_true.
Qed.

(** X22. A write survives a failed re-read.  When a line of the user
    refers to a product that is not in the product table, building the cart
    throws: [getCart] answers 500 "Error fetching cart", and [addToCart] of a
    product in stock that the user has no line for answers 500
    "Error adding item to cart" although the new line has been inserted and
    stays. *)
Theorem write_survives_failed_reread (u : string) (prod : product) (q : Z)
        (st : store) :
  (exists r, In r (shopping_cart st) /\ c_user_id r = u /\ joined st r = None) ->
  products_by_id (p_id prod) st = [prod] -> p_id prod <> "" ->
  (0 < q <= p_stock_quantity prod)%Z ->
  lines_of u (p_id prod) st = [] ->
  getCart u st = (server_error "Error fetching cart" TypeError_price, st) /\
  addToCart u (mkAddBody (Some (p_id prod)) (num q)) st =
    (server_error "Error adding item to cart" TypeError_price,
     inserted u (p_id prod) q st) /\
  In (mkRow (next_id st) u (p_id prod) q)
     (shopping_cart (snd (addToCart u (mkAddBody (Some (p_id prod)) (num q)) st))).
Proof.
  intros Hmiss Hp Hid [Hq Hs] Hl.
  split; [rewrite getCart_answer; now apply answer_cart_missing|].
  assert (E : addToCart u (mkAddBody (Some (p_id prod)) (num q)) st =
              (server_error "Error adding item to cart" TypeError_price,
               inserted u (p_id prod) q st)).
  { rewrite (addToCart_found u prod q st Hid Hq Hp).
    replace (p_stock_quantity prod <? q)%Z with false
      by (symmetry; apply Z.ltb_ge; exact Hs).
    rewrite Hl. apply answer_cart_missing.
    destruct Hmiss as [r [Hin [Hu Hj]]]. exists r.
    split; [|split; auto]. unfold inserted. simpl. apply in_or_app. now left. }
  split; [exact E|]. rewrite E. unfold inserted. simpl.
  apply in_or_app. right. now left.
Qed.

Lemma write_survives_failed_reread_witness :
  addToCart "u1" (mkAddBody (Some "p2") (num 1))
    (mkStore [laddu] [mkRow 1 "u1" "p1" 3] 2)
  = (server_error "Error adding item to cart" TypeError_price,
     inserted "u1" "p2" 1 (mkStore [laddu] [mkRow 1 "u1" "p1" 3] 2)).
Proof.
  refine (proj1 (proj2 (write_survives_failed_reread "u1" laddu 1
                          (mkStore [laddu] [mkRow 1 "u1" "p1" 3] 2)
                          _ eq_refl _ _ eq_refl))).
  - exists (mkRow 1 "u1" "p1" 3). split; [now left|]. split; reflexivity.
  - discriminate.
  - simpl. lia.
Defined.

Lemma errorHandler_answers_witness :
  errorHandler (Some "production")
    (mkException "Error" "connect ECONNREFUSED 10.0.0.5" None None)
  = mkAnswer 500 "Internal server error" "Something went wrong".
Proof.
  apply (proj1 (proj2 (errorHandler_answers (Some "production")
                         (mkException "Error" "connect ECONNREFUSED 10.0.0.5"
                                      None None))));
    [reflexivity|discriminate].
Defined.

Lemma apply_filters_sorted_witness :
  StronglySorted (fun a b => (lp_price a <= lp_price b)%Q)
    (apply_filters days_example (mkFilters "all" "available" "price-low")
       listing_example).
Proof.
  exact (proj1 (proj1 (apply_filters_sorted days_example
                         (mkFilters "all" "available" "price-low")
                         listing_example) eq_refl)).
Defined.
